(** * Budget and dayparting enforcement core of budget_system

    A shallow embedding of [apps/budget/models.py], [apps/budget/service.py],
    [apps/budget/tasks.py] and [apps/budget/utils/helpers.py].

    Conventions of the embedding:
    - money ([Decimal]) is a whole number of cents, a [Z], as the
      two-place decimal columns hold it; amounts finer than a cent, which
      a save rounds, are the subject of the section "Amounts finer than a
      cent"; hours and week days are Python [int]s, also [Z];
    - primary keys (UUIDs) are [nat]s;
    - a database table is the list of its rows; the four tables form a
      [Store] that every task threads explicitly;
    - a model instance is a value of the row type; a method that mutates
      [self] returns the mutated instance, and [save(update_fields=...)]
      copies exactly the listed fields of the instance onto the row that
      has the instance's primary key;
    - [timezone.now()] is read from an explicit [clock] argument and
      [random.uniform] from an explicit stream of draws;
    - an instance handed to a function has been saved: a row with its
      primary key exists;
    - the [created_at]/[updated_at] columns are left out: no rule reads
      them, and no [save] here lists them in [update_fields]. *)

From Stdlib Require Import ZArith List String Bool Lia.
Import ListNotations.
Local Open Scope Z_scope.

(** ** utils/helpers.py *)

Definition is_hour_in_range (start end_ hour : Z) : bool :=
  if start <? end_ then (start <=? hour) && (hour <? end_)
  else (* wraparound, like 22-2 *)
    (hour >=? start) || (hour <? end_).

(** ** Values shared by the models *)

Module Datetime.
Record t := mk { date : Z; weekday : Z; hour : Z }.
End Datetime.

Definition DAILY_BUDGET_EXCEEDED : string := "DAILY_BUDGET_EXCEEDED".
Definition MONTHLY_BUDGET_EXCEEDED : string := "MONTHLY_BUDGET_EXCEEDED".
Definition OUTSIDE_DAYPARTING_HOURS : string := "OUTSIDE_DAYPARTING_HOURS".

(** [==] on an [Optional[str]] column. *)
Definition reason_eqb (a b : option string) : bool :=
  match a, b with
  | Some x, Some y => String.eqb x y
  | None, None => true
  | _, _ => false
  end.

(** ** models.py: Brand *)

Module Brand.

Record t := mk {
  id : nat;
  name : string;
  daily_budget : Z;
  monthly_budget : Z;
  daily_spend : Z;
  monthly_spend : Z;
  is_active : bool
}.

Definition set_daily_spend (v : Z) (b : t) : t :=
  mk (id b) (name b) (daily_budget b) (monthly_budget b) v (monthly_spend b)
     (is_active b).
Definition set_monthly_spend (v : Z) (b : t) : t :=
  mk (id b) (name b) (daily_budget b) (monthly_budget b) (daily_spend b) v
     (is_active b).
Definition set_is_active (v : bool) (b : t) : t :=
  mk (id b) (name b) (daily_budget b) (monthly_budget b) (daily_spend b)
     (monthly_spend b) v.

Inductive Field := f_daily_spend | f_monthly_spend | f_is_active.

Definition copy_field (f : Field) (self row : t) : t :=
  match f with
  | f_daily_spend => set_daily_spend (daily_spend self) row
  | f_monthly_spend => set_monthly_spend (monthly_spend self) row
  | f_is_active => set_is_active (is_active self) row
  end.

Definition write_fields (update_fields : list Field) (self row : t) : t :=
  fold_left (fun r f => copy_field f self r) update_fields row.

(** [self.save(update_fields=...)] against the table [objects]. *)
Definition save (update_fields : list Field) (self : t) (objects : list t)
  : list t :=
  map (fun row => if Nat.eqb (id row) (id self)
                  then write_fields update_fields self row else row)
      objects.

Definition check_budget_limits (self : t) (objects : list t) : t * list t :=
  if daily_spend self >=? daily_budget self then
    let self := set_is_active false self in
    (self, save [f_is_active] self objects)
  else if monthly_spend self >=? monthly_budget self then
    let self := set_is_active false self in
    (self, save [f_is_active] self objects)
  else
    if negb (is_active self) then
      let self := set_is_active true self in
      (self, save [f_is_active] self objects)
    else (self, objects).

Definition reset_daily_spend (self : t) (objects : list t) : t * list t :=
  let self := set_daily_spend 0 self in
  (self, save [f_daily_spend] self objects).

Definition reset_monthly_spend (self : t) (objects : list t) : t * list t :=
  let self := set_monthly_spend 0 self in
  (self, save [f_monthly_spend] self objects).

End Brand.

(** ** models.py: DaypartingSchedule and Spend *)

Module DaypartingSchedule.

Record t := mk {
  id : nat;
  campaign : nat;        (* foreign key *)
  day_of_week : Z;       (* 0=Monday, 6=Sunday *)
  start_hour : Z;
  end_hour : Z;
  is_active : bool
}.

(** [campaign.dayparting_schedules]: the related manager. *)
Definition related (campaign_id : nat) (objects : list t) : list t :=
  filter (fun s => Nat.eqb (campaign s) campaign_id) objects.

(** [campaign.dayparting_schedules.exists()]. *)
Definition exists_ (campaign_id : nat) (objects : list t) : bool :=
  match related campaign_id objects with
  | [] => false
  | _ :: _ => true
  end.

End DaypartingSchedule.

Module Spend.

Record t := mk {
  id : nat;
  campaign : nat;        (* foreign key *)
  amount : Z;
  date : Z;
  hour : option Z
}.

(** A primary key no row of the table has (stands for [uuid.uuid4]). *)
Definition fresh_id (objects : list t) : nat :=
  S (fold_right Nat.max 0%nat (map id objects)).

(** [Spend.objects.create(campaign=..., amount=..., date=..., hour=...)]. *)
Definition create (campaign_id : nat) (amount date : Z) (hour : option Z)
    (objects : list t) : list t :=
  objects ++ [mk (fresh_id objects) campaign_id amount date hour].

End Spend.

(** ** models.py: Campaign *)

Module Campaign.

Inductive Status := ACTIVE | PAUSED | COMPLETED.

Definition Status_eqb (a b : Status) : bool :=
  match a, b with
  | ACTIVE, ACTIVE | PAUSED, PAUSED | COMPLETED, COMPLETED => true
  | _, _ => false
  end.

Record t := mk {
  id : nat;
  brand : nat;           (* foreign key *)
  name : string;
  status : Status;
  daily_budget : Z;
  monthly_budget : Z;
  daily_spend : Z;
  monthly_spend : Z;
  start_date : Z;
  end_date : Z;
  is_active : bool;
  pause_reason : option string
}.

Definition set_status (v : Status) (c : t) : t :=
  mk (id c) (brand c) (name c) v (daily_budget c) (monthly_budget c)
     (daily_spend c) (monthly_spend c) (start_date c) (end_date c)
     (is_active c) (pause_reason c).
Definition set_daily_spend (v : Z) (c : t) : t :=
  mk (id c) (brand c) (name c) (status c) (daily_budget c) (monthly_budget c)
     v (monthly_spend c) (start_date c) (end_date c)
     (is_active c) (pause_reason c).
Definition set_monthly_spend (v : Z) (c : t) : t :=
  mk (id c) (brand c) (name c) (status c) (daily_budget c) (monthly_budget c)
     (daily_spend c) v (start_date c) (end_date c)
     (is_active c) (pause_reason c).
Definition set_is_active (v : bool) (c : t) : t :=
  mk (id c) (brand c) (name c) (status c) (daily_budget c) (monthly_budget c)
     (daily_spend c) (monthly_spend c) (start_date c) (end_date c)
     v (pause_reason c).
Definition set_pause_reason (v : option string) (c : t) : t :=
  mk (id c) (brand c) (name c) (status c) (daily_budget c) (monthly_budget c)
     (daily_spend c) (monthly_spend c) (start_date c) (end_date c)
     (is_active c) v.

Inductive Field :=
  f_status | f_pause_reason | f_is_active | f_daily_spend | f_monthly_spend.

Definition copy_field (f : Field) (self row : t) : t :=
  match f with
  | f_status => set_status (status self) row
  | f_pause_reason => set_pause_reason (pause_reason self) row
  | f_is_active => set_is_active (is_active self) row
  | f_daily_spend => set_daily_spend (daily_spend self) row
  | f_monthly_spend => set_monthly_spend (monthly_spend self) row
  end.

Definition write_fields (update_fields : list Field) (self row : t) : t :=
  fold_left (fun r f => copy_field f self r) update_fields row.

(** [self.save(update_fields=...)] against the table [objects]. *)
Definition save (update_fields : list Field) (self : t) (objects : list t)
  : list t :=
  map (fun row => if Nat.eqb (id row) (id self)
                  then write_fields update_fields self row else row)
      objects.

Definition can_resume (self : t) : bool :=
  (daily_spend self <? daily_budget self)
  && (monthly_spend self <? monthly_budget self).

Definition check_budget_limits (self : t) (objects : list t) : t * list t :=
  if daily_spend self >=? daily_budget self then
    let self := set_status PAUSED self in
    let self := set_pause_reason (Some DAILY_BUDGET_EXCEEDED) self in
    (self, save [f_status; f_pause_reason] self objects)
  else if monthly_spend self >=? monthly_budget self then
    let self := set_status PAUSED self in
    let self := set_pause_reason (Some MONTHLY_BUDGET_EXCEEDED) self in
    (self, save [f_status; f_pause_reason] self objects)
  else
    if Status_eqb (status self) PAUSED && can_resume self then
      let self := set_status ACTIVE self in
      let self := set_pause_reason None self in
      (self, save [f_status; f_pause_reason] self objects)
    else (self, objects).

Definition reset_daily_spend (self : t) (objects : list t) : t * list t :=
  let self := set_daily_spend 0 self in
  (self, save [f_daily_spend] self objects).

Definition reset_monthly_spend (self : t) (objects : list t) : t * list t :=
  let self := set_monthly_spend 0 self in
  (self, save [f_monthly_spend] self objects).

(** The [for schedule in ...] loop of [is_within_dayparting], with its
    [continue] and its early [return True]. *)
Fixpoint within_loop (schedules : list DaypartingSchedule.t)
    (current_day current_hour : Z) : bool :=
  match schedules with
  | [] => false
  | schedule :: rest =>
      if negb (DaypartingSchedule.day_of_week schedule =? current_day)
      then within_loop rest current_day current_hour
      else if is_hour_in_range (DaypartingSchedule.start_hour schedule)
                (DaypartingSchedule.end_hour schedule) current_hour
      then true
      else within_loop rest current_day current_hour
  end.

Definition is_within_dayparting (self : t) (now : option Datetime.t)
    (clock : Datetime.t) (schedules : list DaypartingSchedule.t) : bool :=
  let now := match now with Some n => n | None => clock end in
  let current_day := Datetime.weekday now in
  let current_hour := Datetime.hour now in
  within_loop
    (filter DaypartingSchedule.is_active
            (DaypartingSchedule.related (id self) schedules))
    current_day current_hour.

End Campaign.

(** ** The database *)

Record Store := mkStore {
  brands : list Brand.t;
  campaigns : list Campaign.t;
  spends : list Spend.t;
  dayparting_schedules : list DaypartingSchedule.t
}.

Definition set_brands (v : list Brand.t) (db : Store) : Store :=
  mkStore v (campaigns db) (spends db) (dayparting_schedules db).
Definition set_campaigns (v : list Campaign.t) (db : Store) : Store :=
  mkStore (brands db) v (spends db) (dayparting_schedules db).
Definition set_spends (v : list Spend.t) (db : Store) : Store :=
  mkStore (brands db) (campaigns db) v (dayparting_schedules db).

(** [for x in xs: body], the body run against the database. *)
Definition for_each {A : Type} (xs : list A) (body : A -> Store -> Store)
    (db : Store) : Store :=
  fold_left (fun db x => body x db) xs db.

(** [Campaign.objects.get(pk=...)]. *)
Definition get_campaign (pk : nat) (db : Store) : option Campaign.t :=
  find (fun row => Nat.eqb (Campaign.id row) pk) (campaigns db).

Definition get_brand (pk : nat) (db : Store) : option Brand.t :=
  find (fun row => Nat.eqb (Brand.id row) pk) (brands db).

(** [Spend.objects.filter(campaign=...)]. *)
Definition spends_of (pk : nat) (db : Store) : list Spend.t :=
  filter (fun s => Nat.eqb (Spend.campaign s) pk) (spends db).

(** ** service.py *)

Definition process_ad_spend (campaign : Campaign.t) (amount : Z)
    (clock : Datetime.t) (db : Store) : Campaign.t * Store :=
  let now := clock in
  (* 1. Log new spend *)
  let db := set_spends
              (Spend.create (Campaign.id campaign) amount (Datetime.date now)
                 (Some (Datetime.hour now)) (spends db)) db in
  (* 2. Update campaign totals *)
  let campaign :=
    Campaign.set_daily_spend (Campaign.daily_spend campaign + amount)
      campaign in
  let campaign :=
    Campaign.set_monthly_spend (Campaign.monthly_spend campaign + amount)
      campaign in
  let db := set_campaigns
              (Campaign.save [Campaign.f_daily_spend; Campaign.f_monthly_spend]
                 campaign (campaigns db)) db in
  (* 3. Pause campaign if limits exceeded *)
  if Campaign.daily_spend campaign >? Campaign.daily_budget campaign then
    let campaign := Campaign.set_status Campaign.PAUSED campaign in
    let campaign :=
      Campaign.set_pause_reason (Some DAILY_BUDGET_EXCEEDED) campaign in
    let campaign := Campaign.set_is_active false campaign in
    (campaign,
     set_campaigns
       (Campaign.save
          [Campaign.f_status; Campaign.f_pause_reason; Campaign.f_is_active]
          campaign (campaigns db)) db)
  else if Campaign.monthly_spend campaign >? Campaign.monthly_budget campaign
  then
    let campaign := Campaign.set_status Campaign.PAUSED campaign in
    let campaign :=
      Campaign.set_pause_reason (Some MONTHLY_BUDGET_EXCEEDED) campaign in
    let campaign := Campaign.set_is_active false campaign in
    (campaign,
     set_campaigns
       (Campaign.save
          [Campaign.f_status; Campaign.f_pause_reason; Campaign.f_is_active]
          campaign (campaigns db)) db)
  else (campaign, db).

(** ** tasks.py *)

Definition pause_campaigns_exceeding_budget (db : Store) : Store :=
  for_each
    (filter (fun c => Campaign.is_active c
                      && Campaign.Status_eqb (Campaign.status c)
                           Campaign.ACTIVE)
            (campaigns db))
    (fun campaign db =>
       set_campaigns
         (snd (Campaign.check_budget_limits campaign (campaigns db))) db)
    db.

Definition reset_daily_budgets (db : Store) : Store :=
  let db :=
    for_each (brands db)
      (fun brand db =>
         set_brands (snd (Brand.reset_daily_spend brand (brands db))) db)
      db in
  for_each (campaigns db)
    (fun campaign db =>
       set_campaigns
         (snd (Campaign.reset_daily_spend campaign (campaigns db))) db)
    db.

Definition reset_monthly_budgets (db : Store) : Store :=
  let db :=
    for_each (brands db)
      (fun brand db =>
         set_brands (snd (Brand.reset_monthly_spend brand (brands db))) db)
      db in
  for_each (campaigns db)
    (fun campaign db =>
       set_campaigns
         (snd (Campaign.reset_monthly_spend campaign (campaigns db))) db)
    db.

Definition reactivate_eligible_campaigns (db : Store) : Store :=
  for_each
    (filter (fun c => Campaign.Status_eqb (Campaign.status c) Campaign.PAUSED)
            (campaigns db))
    (fun campaign db =>
       if Campaign.can_resume campaign then
         let campaign := Campaign.set_status Campaign.ACTIVE campaign in
         let campaign := Campaign.set_pause_reason None campaign in
         set_campaigns
           (Campaign.save [Campaign.f_status; Campaign.f_pause_reason]
              campaign (campaigns db)) db
       else db)
    db.

(** The body of the loop of [enforce_dayparting]. *)
Definition enforce_dayparting_body (now : Datetime.t)
    (campaign : Campaign.t) (db : Store) : Store :=
  if negb (DaypartingSchedule.exists_ (Campaign.id campaign)
             (dayparting_schedules db))
  then db (* No schedule, skip enforcing *)
  else
    (* Check if current time is within allowed range *)
    if negb (Campaign.is_within_dayparting campaign (Some now) now
               (dayparting_schedules db))
    then
      if negb (Campaign.Status_eqb (Campaign.status campaign) Campaign.PAUSED)
         || negb (reason_eqb (Campaign.pause_reason campaign)
                    (Some OUTSIDE_DAYPARTING_HOURS))
      then
        let campaign := Campaign.set_status Campaign.PAUSED campaign in
        let campaign :=
          Campaign.set_pause_reason (Some OUTSIDE_DAYPARTING_HOURS) campaign in
        set_campaigns
          (Campaign.save [Campaign.f_status; Campaign.f_pause_reason]
             campaign (campaigns db)) db
      else db
    else
      (* Reactivate only if it was paused due to dayparting AND budgets
         allow *)
      if Campaign.Status_eqb (Campaign.status campaign) Campaign.PAUSED
         && reason_eqb (Campaign.pause_reason campaign)
              (Some OUTSIDE_DAYPARTING_HOURS)
      then
        if Campaign.can_resume campaign then
          let campaign := Campaign.set_status Campaign.ACTIVE campaign in
          let campaign := Campaign.set_pause_reason None campaign in
          set_campaigns
            (Campaign.save [Campaign.f_status; Campaign.f_pause_reason]
               campaign (campaigns db)) db
        else db
      else db.

Definition enforce_dayparting (clock : Datetime.t) (db : Store) : Store :=
  let now := clock in
  for_each (filter Campaign.is_active (campaigns db))
    (enforce_dayparting_body now) db.

(** The loop of [simulate_ad_spend]; [draws] is the stream of values
    [Decimal(random.uniform(1.0, 5.0))] yields and [k] the number of draws
    already consumed.  Here the draws are whole numbers of cents;
    [simulate_loop_at] below takes them finer. *)
Fixpoint simulate_loop (now : Datetime.t) (queryset : list Campaign.t)
    (draws : nat -> Z) (k : nat) (db : Store) : Store :=
  match queryset with
  | [] => db
  | campaign :: rest =>
      if negb (DaypartingSchedule.exists_ (Campaign.id campaign)
                 (dayparting_schedules db))
      then (* No schedule means we don't simulate this campaign *)
        simulate_loop now rest draws k db
      else if negb (Campaign.is_within_dayparting campaign (Some now) now
                      (dayparting_schedules db))
      then (* Skip campaigns outside allowed hours *)
        simulate_loop now rest draws k db
      else
        (* Simulate spend *)
        let amount := draws k in
        simulate_loop now rest draws (S k)
          (snd (process_ad_spend campaign amount now db))
  end.

Definition simulate_ad_spend (clock : Datetime.t) (draws : nat -> Z)
    (db : Store) : Store :=
  let now := clock in
  let campaigns_ :=
    filter (fun c => Campaign.is_active c
                     && Campaign.Status_eqb (Campaign.status c)
                          Campaign.ACTIVE)
           (campaigns db) in
  simulate_loop now campaigns_ draws 0%nat db.

(** ** What each sweep does to one row

    The row-wise reading of the loops above; the theorems of the section
    "Loops over a query" show that, on a database with unique primary keys,
    each task is the [map] of its row function over the table. *)

Definition selected_for_budget (c : Campaign.t) : bool :=
  Campaign.is_active c
  && Campaign.Status_eqb (Campaign.status c) Campaign.ACTIVE.

Definition budget_sweep_row (c : Campaign.t) : Campaign.t :=
  if selected_for_budget c then fst (Campaign.check_budget_limits c [])
  else c.

Definition reactivation_row (c : Campaign.t) : Campaign.t :=
  if Campaign.Status_eqb (Campaign.status c) Campaign.PAUSED
     && Campaign.can_resume c
  then Campaign.set_pause_reason None
         (Campaign.set_status Campaign.ACTIVE c)
  else c.

Definition dayparting_row (now : Datetime.t)
    (schedules : list DaypartingSchedule.t) (c : Campaign.t) : Campaign.t :=
  if negb (Campaign.is_active c) then c
  else if negb (DaypartingSchedule.exists_ (Campaign.id c) schedules) then c
  else if negb (Campaign.is_within_dayparting c (Some now) now schedules)
  then
    if negb (Campaign.Status_eqb (Campaign.status c) Campaign.PAUSED)
       || negb (reason_eqb (Campaign.pause_reason c)
                  (Some OUTSIDE_DAYPARTING_HOURS))
    then Campaign.set_pause_reason (Some OUTSIDE_DAYPARTING_HOURS)
           (Campaign.set_status Campaign.PAUSED c)
    else c
  else
    if Campaign.Status_eqb (Campaign.status c) Campaign.PAUSED
       && reason_eqb (Campaign.pause_reason c) (Some OUTSIDE_DAYPARTING_HOURS)
       && Campaign.can_resume c
    then Campaign.set_pause_reason None
           (Campaign.set_status Campaign.ACTIVE c)
    else c.

(** The row of a campaign after [process_ad_spend] of a freshly loaded
    instance. *)
Definition spend_row (amount : Z) (c : Campaign.t) : Campaign.t :=
  let c := Campaign.set_monthly_spend (Campaign.monthly_spend c + amount)
             (Campaign.set_daily_spend (Campaign.daily_spend c + amount) c) in
  if Campaign.daily_spend c >? Campaign.daily_budget c then
    Campaign.set_is_active false
      (Campaign.set_pause_reason (Some DAILY_BUDGET_EXCEEDED)
         (Campaign.set_status Campaign.PAUSED c))
  else if Campaign.monthly_spend c >? Campaign.monthly_budget c then
    Campaign.set_is_active false
      (Campaign.set_pause_reason (Some MONTHLY_BUDGET_EXCEEDED)
         (Campaign.set_status Campaign.PAUSED c))
  else c.

(** What a sweep decides for one instance: the mutated instance it saves,
    or [None] when it saves nothing. *)
Definition budget_decision (c : Campaign.t) : option Campaign.t :=
  if (Campaign.daily_spend c >=? Campaign.daily_budget c)
     || (Campaign.monthly_spend c >=? Campaign.monthly_budget c)
     || (Campaign.Status_eqb (Campaign.status c) Campaign.PAUSED
         && Campaign.can_resume c)
  then Some (fst (Campaign.check_budget_limits c []))
  else None.

Definition reactivation_decision (c : Campaign.t) : option Campaign.t :=
  if Campaign.can_resume c
  then Some (Campaign.set_pause_reason None
               (Campaign.set_status Campaign.ACTIVE c))
  else None.

Definition dayparting_decision (now : Datetime.t)
    (schedules : list DaypartingSchedule.t) (c : Campaign.t)
  : option Campaign.t :=
  if negb (DaypartingSchedule.exists_ (Campaign.id c) schedules) then None
  else if negb (Campaign.is_within_dayparting c (Some now) now schedules)
  then
    if negb (Campaign.Status_eqb (Campaign.status c) Campaign.PAUSED)
       || negb (reason_eqb (Campaign.pause_reason c)
                  (Some OUTSIDE_DAYPARTING_HOURS))
    then Some (Campaign.set_pause_reason (Some OUTSIDE_DAYPARTING_HOURS)
                 (Campaign.set_status Campaign.PAUSED c))
    else None
  else
    if Campaign.Status_eqb (Campaign.status c) Campaign.PAUSED
       && reason_eqb (Campaign.pause_reason c) (Some OUTSIDE_DAYPARTING_HOURS)
       && Campaign.can_resume c
    then Some (Campaign.set_pause_reason None
                 (Campaign.set_status Campaign.ACTIVE c))
    else None.

(** An instance is fresh when it is the row of its primary key. *)
Definition fresh (c : Campaign.t) (db : Store) : Prop :=
  In c (campaigns db).

(** Replace the row(s) of primary key [pk] through [f]. *)
Definition update_row (pk : nat) (f : Campaign.t -> Campaign.t)
    (rows : list Campaign.t) : list Campaign.t :=
  map (fun row => if Nat.eqb (Campaign.id row) pk then f row else row) rows.

Fixpoint sum (l : list Z) : Z :=
  match l with
  | [] => 0
  | x :: r => x + sum r
  end.

(** ** Histories

    The entry points of the core, run one after the other.  [RecordSpend] loads
    the campaign by primary key and records a spend on the loaded
    instance, as [simulate_ad_spend] does for each campaign of its query. *)

Inductive Event :=
| RecordSpend (pk : nat) (amount : Z) (clock : Datetime.t)
| SweepBudgets
| SweepReactivations
| SweepDayparting (clock : Datetime.t)
| ResetDaily
| ResetMonthly.

Definition step (db : Store) (e : Event) : Store :=
  match e with
  | RecordSpend pk amount clock =>
      match get_campaign pk db with
      | Some campaign => snd (process_ad_spend campaign amount clock db)
      | None => db
      end
  | SweepBudgets => pause_campaigns_exceeding_budget db
  | SweepReactivations => reactivate_eligible_campaigns db
  | SweepDayparting clock => enforce_dayparting clock db
  | ResetDaily => reset_daily_budgets db
  | ResetMonthly => reset_monthly_budgets db
  end.

Definition run (history : list Event) (db : Store) : Store :=
  fold_left step history db.

(** The daily and the monthly total of campaign [pk] that a history
    leaves, starting from the total [start]: amounts recorded for [pk]
    are added, the respective reset puts the total back to zero. *)
Definition ledger_daily (pk : nat) (history : list Event) (start : Z) : Z :=
  fold_left
    (fun total e =>
       match e with
       | RecordSpend pk' amount _ =>
           if Nat.eqb pk' pk then total + amount else total
       | ResetDaily => 0
       | _ => total
       end) history start.

Definition ledger_monthly (pk : nat) (history : list Event) (start : Z) : Z :=
  fold_left
    (fun total e =>
       match e with
       | RecordSpend pk' amount _ =>
           if Nat.eqb pk' pk then total + amount else total
       | ResetMonthly => 0
       | _ => total
       end) history start.

(** The amounts a history records for campaign [pk], oldest first. *)
Fixpoint recorded (pk : nat) (history : list Event) : list Z :=
  match history with
  | [] => []
  | RecordSpend pk' amount _ :: rest =>
      if Nat.eqb pk' pk then amount :: recorded pk rest
      else recorded pk rest
  | _ :: rest => recorded pk rest
  end.

Definition is_reset_daily (e : Event) : bool :=
  match e with ResetDaily => true | _ => false end.

Definition is_reset_monthly (e : Event) : bool :=
  match e with ResetMonthly => true | _ => false end.

(** What one event does to the row of campaign [pk]. *)
Definition event_row (e : Event) (schedules : list DaypartingSchedule.t)
    (pk : nat) : Campaign.t -> Campaign.t :=
  match e with
  | RecordSpend pk' amount _ =>
      if Nat.eqb pk pk' then spend_row amount else fun c => c
  | SweepBudgets => budget_sweep_row
  | SweepReactivations => reactivation_row
  | SweepDayparting clock => dayparting_row clock schedules
  | ResetDaily => Campaign.set_daily_spend 0
  | ResetMonthly => Campaign.set_monthly_spend 0
  end.

(** ** Sample data

    The fixtures of [conftest.py], amounts in hundredths: a campaign with
    a daily budget of 50.00 and a monthly budget of 500.00, and the
    schedule Monday 9 to 17. *)

Definition sample_brand : Brand.t :=
  Brand.mk 1 "Brand 0" 10000 100000 0 0 true.

Definition sample_campaign : Campaign.t :=
  Campaign.mk 1 1 "Campaign 0" Campaign.ACTIVE 5000 50000 0 0 0 30 true None.

Definition sample_schedule : DaypartingSchedule.t :=
  DaypartingSchedule.mk 1 1 0 9 17 true.

Definition sample_store (c : Campaign.t) : Store :=
  mkStore [sample_brand] [c] [] [].

Definition sample_store_with_schedule (c : Campaign.t) : Store :=
  mkStore [sample_brand] [c] [] [sample_schedule].

(** Monday 14:30 and Monday 20:30 of the tests. *)
Definition monday_afternoon : Datetime.t := Datetime.mk 19737 0 14.
Definition monday_evening : Datetime.t := Datetime.mk 19737 0 20.

(** ** Further row-wise readings

    Used to state what the remaining code does: a whole history seen from
    one row, the brand table under the resets, and the campaigns the
    simulation driver spends on. *)

(** What a history does to the row of campaign [pk]. *)
Fixpoint history_row (history : list Event)
    (schedules : list DaypartingSchedule.t) (pk : nat) (c : Campaign.t)
  : Campaign.t :=
  match history with
  | [] => c
  | e :: rest => history_row rest schedules pk (event_row e schedules pk c)
  end.

(** What one event does to a row of the brand table. *)
Definition brand_event_row (e : Event) : Brand.t -> Brand.t :=
  match e with
  | ResetDaily => Brand.set_daily_spend 0
  | ResetMonthly => Brand.set_monthly_spend 0
  | _ => fun b => b
  end.


(** A schedule that lets campaign [pk] run at day [day], hour [hour]. *)
Definition schedule_matches (pk : nat) (day hour : Z)
    (s : DaypartingSchedule.t) : bool :=
  Nat.eqb (DaypartingSchedule.campaign s) pk
  && DaypartingSchedule.is_active s
  && (DaypartingSchedule.day_of_week s =? day)
  && is_hour_in_range (DaypartingSchedule.start_hour s)
       (DaypartingSchedule.end_hour s) hour.

(** Status and pause reason agree: a reason is recorded exactly while
    the campaign is Paused, and it is one of the three the code writes. *)
Definition reason_consistent (c : Campaign.t) : Prop :=
  match Campaign.status c with
  | Campaign.PAUSED =>
      Campaign.pause_reason c = Some DAILY_BUDGET_EXCEEDED
      \/ Campaign.pause_reason c = Some MONTHLY_BUDGET_EXCEEDED
      \/ Campaign.pause_reason c = Some OUTSIDE_DAYPARTING_HOURS
  | _ => Campaign.pause_reason c = None
  end.

(** The hours of a day. *)
Definition hours_of_day : list Z := map Z.of_nat (seq 0 24).

(** How many hours of the day a window contains. *)
Definition window_length (start end_ : Z) : Z :=
  Z.of_nat (List.length (filter (is_hour_in_range start end_) hours_of_day)).

(** ** Amounts finer than a cent

    Up to here a money value is a whole number of cents, the two decimal
    places a [DecimalField(decimal_places=2)] column holds.  A caller may
    pass [process_ad_spend] a [Decimal] with more places
    ([simulate_ad_spend] does): the instance then carries the exact sum,
    which is what the inline check compares, while each save writes the
    value quantized to two places.  In the definitions below a money value
    is an integer number of units of [1/scale] cent, for a [scale] of one
    or more units to the cent; sums are exact, the values being taken to
    have at most the 28 significant digits of the decimal context.  The
    instance must have been saved: its row exists. *)

(** The value a two-place decimal column holds for [v]: the nearest whole
    number of cents, a tie going to the even one. *)
Definition quantize (scale v : Z) : Z :=
  let q := v / scale in
  let r := v mod scale in
  if 2 * r <? scale then q * scale
  else if 2 * r >? scale then (q + 1) * scale
  else if Z.even q then q * scale
  else (q + 1) * scale.

(** A whole number of cents. *)
Definition whole (scale v : Z) : Prop := v mod scale = 0.

Definition whole_campaign (scale : Z) (c : Campaign.t) : Prop :=
  whole scale (Campaign.daily_spend c)
  /\ whole scale (Campaign.monthly_spend c).

(** The totals of an instance as a save writes them. *)
Definition stored (scale : Z) (c : Campaign.t) : Campaign.t :=
  Campaign.set_monthly_spend (quantize scale (Campaign.monthly_spend c))
    (Campaign.set_daily_spend (quantize scale (Campaign.daily_spend c)) c).

(** [process_ad_spend] of service.py on such values. *)
Definition process_ad_spend_at (scale : Z) (campaign : Campaign.t)
    (amount : Z) (clock : Datetime.t) (db : Store) : Campaign.t * Store :=
  let now := clock in
  (* 1. Log new spend *)
  let db := set_spends
              (Spend.create (Campaign.id campaign) (quantize scale amount)
                 (Datetime.date now) (Some (Datetime.hour now)) (spends db))
              db in
  (* 2. Update campaign totals *)
  let campaign :=
    Campaign.set_daily_spend (Campaign.daily_spend campaign + amount)
      campaign in
  let campaign :=
    Campaign.set_monthly_spend (Campaign.monthly_spend campaign + amount)
      campaign in
  let db := set_campaigns
              (Campaign.save [Campaign.f_daily_spend; Campaign.f_monthly_spend]
                 (stored scale campaign) (campaigns db)) db in
  (* 3. Pause campaign if limits exceeded *)
  if Campaign.daily_spend campaign >? Campaign.daily_budget campaign then
    let campaign := Campaign.set_status Campaign.PAUSED campaign in
    let campaign :=
      Campaign.set_pause_reason (Some DAILY_BUDGET_EXCEEDED) campaign in
    let campaign := Campaign.set_is_active false campaign in
    (campaign,
     set_campaigns
       (Campaign.save
          [Campaign.f_status; Campaign.f_pause_reason; Campaign.f_is_active]
          campaign (campaigns db)) db)
  else if Campaign.monthly_spend campaign >? Campaign.monthly_budget campaign
  then
    let campaign := Campaign.set_status Campaign.PAUSED campaign in
    let campaign :=
      Campaign.set_pause_reason (Some MONTHLY_BUDGET_EXCEEDED) campaign in
    let campaign := Campaign.set_is_active false campaign in
    (campaign,
     set_campaigns
       (Campaign.save
          [Campaign.f_status; Campaign.f_pause_reason; Campaign.f_is_active]
          campaign (campaigns db)) db)
  else (campaign, db).


(** The entry points run one after the other on such values; only the
    recording differs from [step]. *)
Definition step_at (scale : Z) (db : Store) (e : Event) : Store :=
  match e with
  | RecordSpend pk amount clock =>
      match get_campaign pk db with
      | Some campaign =>
          snd (process_ad_spend_at scale campaign amount clock db)
      | None => db
      end
  | _ => step db e
  end.

Definition run_at (scale : Z) (history : list Event) (db : Store) : Store :=
  fold_left (step_at scale) history db.

(** Every amount a history records is a whole number of cents. *)
Definition whole_history (scale : Z) (history : list Event) : Prop :=
  Forall (fun e => match e with
                   | RecordSpend _ amount _ => whole scale amount
                   | _ => True
                   end) history.

(** Every total the campaign table holds is a whole number of cents. *)
Definition whole_store (scale : Z) (db : Store) : Prop :=
  Forall (whole_campaign scale) (campaigns db).

(** The loop of [simulate_ad_spend] on such values: the draws need not be
    whole numbers of cents. *)
Fixpoint simulate_loop_at (scale : Z) (now : Datetime.t)
    (queryset : list Campaign.t) (draws : nat -> Z) (k : nat) (db : Store)
  : Store :=
  match queryset with
  | [] => db
  | campaign :: rest =>
      if negb (DaypartingSchedule.exists_ (Campaign.id campaign)
                 (dayparting_schedules db))
      then (* No schedule means we don't simulate this campaign *)
        simulate_loop_at scale now rest draws k db
      else if negb (Campaign.is_within_dayparting campaign (Some now) now
                      (dayparting_schedules db))
      then (* Skip campaigns outside allowed hours *)
        simulate_loop_at scale now rest draws k db
      else
        (* Simulate spend *)
        let amount := draws k in
        simulate_loop_at scale now rest draws (S k)
          (snd (process_ad_spend_at scale campaign amount now db))
  end.

Definition simulate_ad_spend_at (scale : Z) (clock : Datetime.t)
    (draws : nat -> Z) (db : Store) : Store :=
  let now := clock in
  let campaigns_ :=
    filter (fun c => Campaign.is_active c
                     && Campaign.Status_eqb (Campaign.status c)
                          Campaign.ACTIVE)
           (campaigns db) in
  simulate_loop_at scale now campaigns_ draws 0%nat db.

(** The sample campaign with its money in tenths of a cent. *)
Definition sample_campaign_tenths : Campaign.t :=
  Campaign.mk 1 1 "Campaign 0" Campaign.ACTIVE 50000 500000 0 0 0 30 true
    None.

(** * Properties *)

(** ** The time-window evaluator *)

(** C2. [is_hour_in_range start end hour] is true exactly when
    [start < end] and [start <= hour < end], or [start >= end] and
    [hour >= start] or [hour < end]; this holds for all integers, so in
    particular on the grid [0..23]^3.  For the window 22 to 2 the hours
    22, 23, 0 and 1 are in range and the hours 2 and 14 are not, and a
    window with [start = end] contains every hour. *)
Theorem is_hour_in_range_two_branches :
  (forall start end_ hour : Z,
      is_hour_in_range start end_ hour = true <->
      (start < end_ /\ start <= hour < end_)
      \/ (start >= end_ /\ (hour >= start \/ hour < end_)))
  /\ (is_hour_in_range 22 2 22 = true /\ is_hour_in_range 22 2 23 = true
      /\ is_hour_in_range 22 2 0 = true /\ is_hour_in_range 22 2 1 = true
      /\ is_hour_in_range 22 2 2 = false /\ is_hour_in_range 22 2 14 = false)
  /\ (forall start hour : Z, is_hour_in_range start start hour = true).
Proof.
  split; [| split].
  - intros start end_ hour. unfold is_hour_in_range.
    destruct (Z.ltb_spec start end_) as [Hlt | Hge].
    + rewrite andb_true_iff, Z.leb_le, Z.ltb_lt. lia.
    + rewrite orb_true_iff, Z.geb_le, Z.ltb_lt. lia.
  - repeat split; reflexivity.
  - intros start hour. unfold is_hour_in_range.
    rewrite Z.ltb_irrefl, orb_true_iff, Z.geb_le, Z.ltb_lt. lia.
Qed.

(** ** Executions from the test-suite

    The embedding run on the cases of [tests.py], [tests/test_models.py]
    and [tests/test_service.py]. *)

Example test_is_hour_in_range_normal :
  is_hour_in_range 9 17 14 = true /\ is_hour_in_range 9 17 20 = false
  /\ is_hour_in_range 9 17 9 = true /\ is_hour_in_range 9 17 17 = false.
Proof. repeat split. Qed.

Example test_is_within_dayparting :
  let db := sample_store_with_schedule sample_campaign in
  let tuesday_afternoon := Datetime.mk 19738 1 14 in
  Campaign.is_within_dayparting sample_campaign None monday_afternoon
    (dayparting_schedules db) = true
  /\ Campaign.is_within_dayparting sample_campaign None monday_evening
       (dayparting_schedules db) = false
  /\ Campaign.is_within_dayparting sample_campaign None tuesday_afternoon
       (dayparting_schedules db) = false
  /\ Campaign.is_within_dayparting sample_campaign None monday_afternoon []
     = false.
Proof. repeat split. Qed.

Example test_brand_check_budget_limits :
  Brand.is_active
    (fst (Brand.check_budget_limits
            (Brand.set_daily_spend 10000 sample_brand) [])) = false
  /\ Brand.is_active
       (fst (Brand.check_budget_limits
               (Brand.set_monthly_spend 100000 sample_brand) [])) = false
  /\ Brand.is_active
       (fst (Brand.check_budget_limits
               (Brand.set_monthly_spend 50000
                  (Brand.set_daily_spend 5000
                     (Brand.set_is_active false sample_brand))) [])) = true.
Proof. repeat split. Qed.

Example test_campaign_check_budget_limits :
  (let c := fst (Campaign.check_budget_limits
                   (Campaign.set_daily_spend 5000 sample_campaign) []) in
   Campaign.status c = Campaign.PAUSED
   /\ Campaign.pause_reason c = Some DAILY_BUDGET_EXCEEDED)
  /\ (let c := fst (Campaign.check_budget_limits
                      (Campaign.set_monthly_spend 50000 sample_campaign) [])
      in
      Campaign.status c = Campaign.PAUSED
      /\ Campaign.pause_reason c = Some MONTHLY_BUDGET_EXCEEDED)
  /\ (let c := fst (Campaign.check_budget_limits
                      (Campaign.set_monthly_spend 25000
                         (Campaign.set_daily_spend 2500
                            (Campaign.set_pause_reason
                               (Some DAILY_BUDGET_EXCEEDED)
                               (Campaign.set_status Campaign.PAUSED
                                  sample_campaign)))) []) in
      Campaign.status c = Campaign.ACTIVE /\ Campaign.pause_reason c = None).
Proof. repeat split. Qed.

Example test_process_ad_spend_daily_budget_exceeded :
  let c := Campaign.set_daily_spend 4500 sample_campaign in
  let r := process_ad_spend c 1000 monday_afternoon (sample_store c) in
  get_campaign 1 (snd r)
  = Some (Campaign.mk 1 1 "Campaign 0" Campaign.PAUSED 5000 50000 5500 1000
            0 30 false (Some DAILY_BUDGET_EXCEEDED))
  /\ spends (snd r) = [Spend.mk 1 1 1000 19737 (Some 14)].
Proof. repeat split. Qed.

Example test_process_ad_spend_multiple_spends :
  let h := [RecordSpend 1 500 monday_afternoon;
            RecordSpend 1 1000 monday_afternoon;
            RecordSpend 1 1500 monday_afternoon] in
  let db := run h (sample_store sample_campaign) in
  map Spend.amount (spends db) = [500; 1000; 1500]
  /\ option_map Campaign.daily_spend (get_campaign 1 db) = Some 3000
  /\ option_map Campaign.monthly_spend (get_campaign 1 db) = Some 3000
  /\ option_map Campaign.status (get_campaign 1 db) = Some Campaign.ACTIVE.
Proof. vm_compute. repeat split. Qed.

Example test_reactivation_leaves_monthly_exceeded :
  let c := Campaign.set_monthly_spend 60000
             (Campaign.set_daily_spend 2500
                (Campaign.set_pause_reason (Some MONTHLY_BUDGET_EXCEEDED)
                   (Campaign.set_status Campaign.PAUSED sample_campaign))) in
  Campaign.can_resume c = false
  /\ get_campaign 1 (reactivate_eligible_campaigns (sample_store c)) = Some c.
Proof. vm_compute. repeat split. Qed.

(** ** Records and [save] *)

Lemma set_campaigns_same (db : Store) : set_campaigns (campaigns db) db = db.
Proof. destruct db; reflexivity. Qed.

Lemma Status_eqb_eq (a b : Campaign.Status) :
  Campaign.Status_eqb a b = true <-> a = b.
Proof. destruct a, b; simpl; split; congruence. Qed.

Lemma reason_eqb_eq (a b : option string) : reason_eqb a b = true <-> a = b.
Proof.
  destruct a as [x|], b as [y|]; simpl; try (split; congruence).
  rewrite String.eqb_eq. split; congruence.
Qed.

Lemma write_fields_id (fs : list Campaign.Field) (self row : Campaign.t) :
  Campaign.id (Campaign.write_fields fs self row) = Campaign.id row.
Proof.
  unfold Campaign.write_fields. revert row.
  induction fs as [|f fs IH]; intro row; simpl; [reflexivity|].
  rewrite IH. destruct f; reflexivity.
Qed.

Lemma save_is_update_row (fs : list Campaign.Field) (self : Campaign.t)
    (rows : list Campaign.t) :
  Campaign.save fs self rows
  = update_row (Campaign.id self) (Campaign.write_fields fs self) rows.
Proof. reflexivity. Qed.

Lemma update_row_ids (pk : nat) (f : Campaign.t -> Campaign.t)
    (rows : list Campaign.t) :
  (forall r, Campaign.id (f r) = Campaign.id r) ->
  map Campaign.id (update_row pk f rows) = map Campaign.id rows.
Proof.
  intro Hf. unfold update_row. rewrite map_map. apply map_ext.
  intro r. destruct (Nat.eqb _ _); auto.
Qed.

Lemma map_ids_preserved (f : Campaign.t -> Campaign.t)
    (rows : list Campaign.t) :
  (forall r, Campaign.id (f r) = Campaign.id r) ->
  map Campaign.id (map f rows) = map Campaign.id rows.
Proof. intro Hf. rewrite map_map. apply map_ext. exact Hf. Qed.

(** ** Looking rows up by primary key *)

Lemma find_pk_absent (pk : nat) (rows : list Campaign.t) :
  ~ In pk (map Campaign.id rows) ->
  find (fun c => Nat.eqb (Campaign.id c) pk) rows = None.
Proof.
  induction rows as [|a rows IH]; simpl; intro Hn; [reflexivity|].
  destruct (Nat.eqb_spec (Campaign.id a) pk) as [E|E].
  - exfalso. apply Hn. now left.
  - apply IH. intro Hin. apply Hn. now right.
Qed.

Lemma find_pk_present (row : Campaign.t) (rows : list Campaign.t) :
  NoDup (map Campaign.id rows) -> In row rows ->
  find (fun c => Nat.eqb (Campaign.id c) (Campaign.id row)) rows = Some row.
Proof.
  induction rows as [|a rows IH]; simpl; intros Hnd Hin; [contradiction|].
  inversion Hnd as [|x l Hx Hl]; subst.
  destruct Hin as [-> | Hin].
  - now rewrite Nat.eqb_refl.
  - destruct (Nat.eqb_spec (Campaign.id a) (Campaign.id row)) as [E|E].
    + exfalso. apply Hx. rewrite E. now apply in_map.
    + now apply IH.
Qed.

Lemma find_pk_sound (pk : nat) (rows : list Campaign.t) (c : Campaign.t) :
  find (fun r => Nat.eqb (Campaign.id r) pk) rows = Some c ->
  In c rows /\ Campaign.id c = pk.
Proof.
  intro H. apply find_some in H. destruct H as [Hin E].
  split; [exact Hin | now apply Nat.eqb_eq].
Qed.

Lemma find_pk_map (pk : nat) (f : Campaign.t -> Campaign.t)
    (rows : list Campaign.t) :
  (forall r, Campaign.id (f r) = Campaign.id r) ->
  find (fun c => Nat.eqb (Campaign.id c) pk) (map f rows)
  = option_map f (find (fun c => Nat.eqb (Campaign.id c) pk) rows).
Proof.
  intro Hf. induction rows as [|a rows IH]; simpl; [reflexivity|].
  rewrite Hf. destruct (Nat.eqb (Campaign.id a) pk); [reflexivity | exact IH].
Qed.

Lemma filter_ids_incl (p : Campaign.t -> bool) (rows : list Campaign.t)
    (pk : nat) :
  In pk (map Campaign.id (filter p rows)) -> In pk (map Campaign.id rows).
Proof.
  rewrite !in_map_iff. intros [c [E Hin]]. apply filter_In in Hin.
  exists c. tauto.
Qed.

Lemma filter_ids_NoDup (p : Campaign.t -> bool) (rows : list Campaign.t) :
  NoDup (map Campaign.id rows) -> NoDup (map Campaign.id (filter p rows)).
Proof.
  induction rows as [|a rows IH]; simpl; intro Hnd; [constructor|].
  inversion Hnd as [|x l Hx Hl]; subst.
  destruct (p a); simpl; [constructor|]; auto.
  intro Hin. apply Hx. eapply filter_ids_incl; eauto.
Qed.

Lemma find_pk_filter (p : Campaign.t -> bool) (row : Campaign.t)
    (rows : list Campaign.t) :
  NoDup (map Campaign.id rows) -> In row rows ->
  find (fun c => Nat.eqb (Campaign.id c) (Campaign.id row)) (filter p rows)
  = if p row then Some row else None.
Proof.
  intros Hnd Hin. destruct (p row) eqn:Hp.
  - apply find_pk_present.
    + now apply filter_ids_NoDup.
    + apply filter_In. tauto.
  - destruct (find _ (filter p rows)) as [c|] eqn:Hf; [|reflexivity].
    apply find_pk_sound in Hf. destruct Hf as [Hc Hid].
    apply filter_In in Hc. destruct Hc as [Hc Hpc].
    assert (c = row); [|congruence].
    pose proof (find_pk_present c rows Hnd Hc) as H1.
    pose proof (find_pk_present row rows Hnd Hin) as H2.
    rewrite Hid in H1. congruence.
Qed.

(** ** Loops over a query

    A loop [for c in query: ... c.save(update_fields=fs)] rewrites, on a
    table with unique primary keys, each selected row and no other. *)

Section LoopsOverAQuery.

Variable upd : Campaign.t -> Campaign.t -> Campaign.t.
Hypothesis upd_id : forall c r, Campaign.id (upd c r) = Campaign.id r.

Lemma fold_update_rows (q rows : list Campaign.t) :
  NoDup (map Campaign.id q) ->
  fold_left (fun rs c => update_row (Campaign.id c) (upd c) rs) q rows
  = map (fun row =>
           match find (fun c => Nat.eqb (Campaign.id c) (Campaign.id row)) q
           with
           | Some c => upd c row
           | None => row
           end) rows.
Proof.
  revert rows. induction q as [|a q IH]; intros rows Hnd; simpl.
  - symmetry. apply map_id.
  - inversion Hnd as [|x l Hx Hl]; subst.
    rewrite IH by assumption. unfold update_row. rewrite map_map.
    apply map_ext. intro row.
    destruct (Nat.eqb_spec (Campaign.id row) (Campaign.id a)) as [E|E].
    + rewrite upd_id, E, Nat.eqb_refl.
      now rewrite (find_pk_absent (Campaign.id a) q Hx).
    + destruct (Nat.eqb_spec (Campaign.id a) (Campaign.id row)) as [E'|E'];
        [congruence | reflexivity].
Qed.

Lemma fold_query_rows (p : Campaign.t -> bool) (rows : list Campaign.t) :
  NoDup (map Campaign.id rows) ->
  fold_left (fun rs c => update_row (Campaign.id c) (upd c) rs)
    (filter p rows) rows
  = map (fun row => if p row then upd row row else row) rows.
Proof.
  intro Hnd. rewrite fold_update_rows by now apply filter_ids_NoDup.
  apply map_ext_in. intros row Hin.
  rewrite find_pk_filter by assumption. now destruct (p row).
Qed.

Lemma for_each_update_rows (sch : list DaypartingSchedule.t)
    (body : Campaign.t -> Store -> Store) :
  (forall c d, dayparting_schedules d = sch ->
     body c d
     = set_campaigns (update_row (Campaign.id c) (upd c) (campaigns d)) d) ->
  forall q db, dayparting_schedules db = sch ->
    for_each q body db
    = set_campaigns
        (fold_left (fun rs c => update_row (Campaign.id c) (upd c) rs) q
           (campaigns db)) db.
Proof.
  intros Hbody. unfold for_each.
  induction q as [|a q IH]; intros db Hs; simpl.
  - symmetry. apply set_campaigns_same.
  - rewrite Hbody by assumption. rewrite IH by (destruct db; exact Hs).
    reflexivity.
Qed.

Lemma for_each_query_rows (body : Campaign.t -> Store -> Store)
    (p : Campaign.t -> bool) (db : Store) :
  (forall c d, dayparting_schedules d = dayparting_schedules db ->
     body c d
     = set_campaigns (update_row (Campaign.id c) (upd c) (campaigns d)) d) ->
  NoDup (map Campaign.id (campaigns db)) ->
  for_each (filter p (campaigns db)) body db
  = set_campaigns
      (map (fun row => if p row then upd row row else row) (campaigns db)) db.
Proof.
  intros Hbody Hnd.
  rewrite (for_each_update_rows (dayparting_schedules db) body Hbody)
    by reflexivity.
  now rewrite fold_query_rows.
Qed.

End LoopsOverAQuery.

Lemma update_row_same (pk : nat) (rows : list Campaign.t) :
  update_row pk (fun r => r) rows = rows.
Proof.
  unfold update_row. rewrite <- (map_id rows) at 2. apply map_ext.
  intro r. now destruct (Nat.eqb _ _).
Qed.

Lemma for_each_invariant {A : Type} (P : Store -> Prop)
    (body : A -> Store -> Store) (xs : list A) (db : Store) :
  (forall x d, P d -> P (body x d)) -> P db -> P (for_each xs body db).
Proof.
  intro Hbody. unfold for_each. revert db.
  induction xs as [|x xs IH]; intros db Hdb; simpl; auto.
Qed.

Section SweepsThatSave.

Variable fs : list Campaign.Field.
Variable dec : Campaign.t -> option Campaign.t.
Hypothesis dec_id : forall c c', dec c = Some c' -> Campaign.id c' = Campaign.id c.

Lemma decision_update_row (c : Campaign.t) (d : Store) :
  match dec c with
  | Some c' => set_campaigns (Campaign.save fs c' (campaigns d)) d
  | None => d
  end
  = set_campaigns
      (update_row (Campaign.id c)
         (fun r => match dec c with
                   | Some c' => Campaign.write_fields fs c' r
                   | None => r
                   end) (campaigns d)) d.
Proof.
  destruct (dec c) as [c'|] eqn:E.
  - rewrite save_is_update_row, (dec_id c c' E). reflexivity.
  - rewrite update_row_same. symmetry. apply set_campaigns_same.
Qed.

Lemma decision_keeps_id (c r : Campaign.t) :
  Campaign.id (match dec c with
               | Some c' => Campaign.write_fields fs c' r
               | None => r
               end) = Campaign.id r.
Proof. destruct (dec c); [apply write_fields_id | reflexivity]. Qed.

Lemma for_each_decisions (body : Campaign.t -> Store -> Store)
    (p : Campaign.t -> bool) (db : Store) :
  (forall c d, dayparting_schedules d = dayparting_schedules db ->
     body c d = match dec c with
                | Some c' => set_campaigns (Campaign.save fs c' (campaigns d)) d
                | None => d
                end) ->
  NoDup (map Campaign.id (campaigns db)) ->
  for_each (filter p (campaigns db)) body db
  = set_campaigns
      (map (fun row =>
              if p row
              then match dec row with
                   | Some c' => Campaign.write_fields fs c' row
                   | None => row
                   end
              else row) (campaigns db)) db.
Proof.
  intros Hbody Hnd.
  apply (for_each_query_rows
           (fun c r => match dec c with
                       | Some c' => Campaign.write_fields fs c' r
                       | None => r
                       end)); [| | assumption].
  - intros c r. apply decision_keeps_id.
  - intros c d Hd. rewrite (Hbody c d Hd). apply decision_update_row.
Qed.

Lemma filter_all (rows : list Campaign.t) : filter (fun _ => true) rows = rows.
Proof. induction rows as [|a rows IH]; simpl; congruence. Qed.

End SweepsThatSave.

(** ** Each task, row by row *)

Lemma write_status_reason (s : Campaign.Status) (r : option string)
    (c : Campaign.t) :
  Campaign.write_fields [Campaign.f_status; Campaign.f_pause_reason]
    (Campaign.set_pause_reason r (Campaign.set_status s c)) c
  = Campaign.set_pause_reason r (Campaign.set_status s c).
Proof. destruct c; reflexivity. Qed.

Theorem pause_campaigns_exceeding_budget_rows (db : Store) :
  NoDup (map Campaign.id (campaigns db)) ->
  pause_campaigns_exceeding_budget db
  = set_campaigns (map budget_sweep_row (campaigns db)) db.
Proof.
  intro Hnd. unfold pause_campaigns_exceeding_budget.
  rewrite (for_each_decisions [Campaign.f_status; Campaign.f_pause_reason]
             budget_decision); [| | | assumption].
  - f_equal. apply map_ext. intro c.
    unfold budget_sweep_row, selected_for_budget, budget_decision,
      Campaign.check_budget_limits.
    destruct (Campaign.is_active c
              && Campaign.Status_eqb (Campaign.status c) Campaign.ACTIVE);
      [|reflexivity].
    destruct (Campaign.daily_spend c >=? Campaign.daily_budget c);
      [apply write_status_reason|].
    destruct (Campaign.monthly_spend c >=? Campaign.monthly_budget c);
      [apply write_status_reason|].
    destruct (Campaign.Status_eqb (Campaign.status c) Campaign.PAUSED
              && Campaign.can_resume c);
      [apply write_status_reason | reflexivity].
  - intros c c'. unfold budget_decision, Campaign.check_budget_limits.
    destruct (Campaign.daily_spend c >=? Campaign.daily_budget c);
      [intro H; injection H as <-; reflexivity|].
    destruct (Campaign.monthly_spend c >=? Campaign.monthly_budget c);
      [intro H; injection H as <-; reflexivity|].
    destruct (Campaign.Status_eqb (Campaign.status c) Campaign.PAUSED
              && Campaign.can_resume c);
      [intro H; injection H as <-; reflexivity | discriminate].
  - intros c d _. unfold budget_decision, Campaign.check_budget_limits.
    destruct (Campaign.daily_spend c >=? Campaign.daily_budget c);
      [reflexivity|].
    destruct (Campaign.monthly_spend c >=? Campaign.monthly_budget c);
      [reflexivity|].
    destruct (Campaign.Status_eqb (Campaign.status c) Campaign.PAUSED
              && Campaign.can_resume c);
      [reflexivity | apply set_campaigns_same].
Qed.

Theorem reactivate_eligible_campaigns_rows (db : Store) :
  NoDup (map Campaign.id (campaigns db)) ->
  reactivate_eligible_campaigns db
  = set_campaigns (map reactivation_row (campaigns db)) db.
Proof.
  intro Hnd. unfold reactivate_eligible_campaigns.
  rewrite (for_each_decisions [Campaign.f_status; Campaign.f_pause_reason]
             reactivation_decision); [| | | assumption].
  - f_equal. apply map_ext. intro c.
    unfold reactivation_row, reactivation_decision.
    destruct (Campaign.Status_eqb (Campaign.status c) Campaign.PAUSED);
      [|reflexivity].
    destruct (Campaign.can_resume c);
      [apply write_status_reason | reflexivity].
  - intros c c'. unfold reactivation_decision.
    destruct (Campaign.can_resume c);
      [intro H; injection H as <-; reflexivity | discriminate].
  - intros c d _. unfold reactivation_decision.
    destruct (Campaign.can_resume c); reflexivity.
Qed.

Theorem enforce_dayparting_rows (clock : Datetime.t) (db : Store) :
  NoDup (map Campaign.id (campaigns db)) ->
  enforce_dayparting clock db
  = set_campaigns
      (map (dayparting_row clock (dayparting_schedules db)) (campaigns db)) db.
Proof.
  intro Hnd. unfold enforce_dayparting.
  rewrite (for_each_decisions [Campaign.f_status; Campaign.f_pause_reason]
             (dayparting_decision clock (dayparting_schedules db)));
    [| | | assumption].
  - f_equal. apply map_ext. intro c.
    unfold dayparting_row, dayparting_decision.
    destruct (Campaign.is_active c); [simpl negb at 1; cbv iota|reflexivity].
    destruct (negb (DaypartingSchedule.exists_ _ _)); [reflexivity|].
    destruct (negb (Campaign.is_within_dayparting _ _ _ _)).
    + destruct (negb _ || negb _);
        [apply write_status_reason | reflexivity].
    + destruct (_ && _ && Campaign.can_resume c);
        [apply write_status_reason | reflexivity].
  - intros c c'. unfold dayparting_decision.
    destruct (negb (DaypartingSchedule.exists_ _ _)); [discriminate|].
    destruct (negb (Campaign.is_within_dayparting _ _ _ _)).
    + destruct (negb _ || negb _);
        [intro H; injection H as <-; reflexivity | discriminate].
    + destruct (_ && _ && Campaign.can_resume c);
        [intro H; injection H as <-; reflexivity | discriminate].
  - intros c d Hd. unfold enforce_dayparting_body, dayparting_decision.
    rewrite Hd.
    destruct (negb (DaypartingSchedule.exists_ _ _)); [reflexivity|].
    destruct (negb (Campaign.is_within_dayparting _ _ _ _)).
    + destruct (negb _ || negb _); reflexivity.
    + destruct (Campaign.Status_eqb _ _ && reason_eqb _ _); [|reflexivity].
      destruct (Campaign.can_resume c); reflexivity.
Qed.

Lemma for_each_all_decisions (fs : list Campaign.Field)
    (dec : Campaign.t -> option Campaign.t)
    (body : Campaign.t -> Store -> Store) (db : Store) :
  (forall c c', dec c = Some c' -> Campaign.id c' = Campaign.id c) ->
  (forall c d, dayparting_schedules d = dayparting_schedules db ->
     body c d = match dec c with
                | Some c' => set_campaigns (Campaign.save fs c' (campaigns d)) d
                | None => d
                end) ->
  NoDup (map Campaign.id (campaigns db)) ->
  for_each (campaigns db) body db
  = set_campaigns
      (map (fun row => match dec row with
                       | Some c' => Campaign.write_fields fs c' row
                       | None => row
                       end) (campaigns db)) db.
Proof.
  intros Hid Hbody Hnd.
  pose proof (for_each_decisions fs dec Hid body (fun _ => true) db Hbody Hnd)
    as E.
  rewrite filter_all in E. exact E.
Qed.

(** The loops over the brands write the brand table only. *)
Lemma brand_loop_frame
    (f : Brand.t -> list Brand.t -> Brand.t * list Brand.t)
    (xs : list Brand.t) (db : Store) :
  let db' := for_each xs
               (fun brand d => set_brands (snd (f brand (brands d))) d) db in
  campaigns db' = campaigns db /\ spends db' = spends db
  /\ dayparting_schedules db' = dayparting_schedules db.
Proof.
  apply (for_each_invariant
           (fun d => campaigns d = campaigns db /\ spends d = spends db
                     /\ dayparting_schedules d = dayparting_schedules db)).
  - intros x d H. exact H.
  - auto.
Qed.

Theorem reset_daily_budgets_rows (db : Store) :
  NoDup (map Campaign.id (campaigns db)) ->
  campaigns (reset_daily_budgets db)
  = map (Campaign.set_daily_spend 0) (campaigns db)
  /\ spends (reset_daily_budgets db) = spends db
  /\ dayparting_schedules (reset_daily_budgets db) = dayparting_schedules db.
Proof.
  intro Hnd. unfold reset_daily_budgets.
  destruct (brand_loop_frame Brand.reset_daily_spend
              (brands db) db) as [Hc [Hs Hd]].
  set (db1 := for_each (brands db) _ db) in *.
  rewrite (for_each_all_decisions [Campaign.f_daily_spend]
             (fun c => Some (Campaign.set_daily_spend 0 c)));
    [| intros c c' H; injection H as <-; reflexivity | | rewrite Hc; exact Hnd].
  - simpl. rewrite Hc, Hs, Hd. split; [|split; reflexivity].
    apply map_ext. intro c. destruct c; reflexivity.
  - intros c d _. reflexivity.
Qed.

Theorem reset_monthly_budgets_rows (db : Store) :
  NoDup (map Campaign.id (campaigns db)) ->
  campaigns (reset_monthly_budgets db)
  = map (Campaign.set_monthly_spend 0) (campaigns db)
  /\ spends (reset_monthly_budgets db) = spends db
  /\ dayparting_schedules (reset_monthly_budgets db)
     = dayparting_schedules db.
Proof.
  intro Hnd. unfold reset_monthly_budgets.
  destruct (brand_loop_frame Brand.reset_monthly_spend
              (brands db) db) as [Hc [Hs Hd]].
  set (db1 := for_each (brands db) _ db) in *.
  rewrite (for_each_all_decisions [Campaign.f_monthly_spend]
             (fun c => Some (Campaign.set_monthly_spend 0 c)));
    [| intros c c' H; injection H as <-; reflexivity | | rewrite Hc; exact Hnd].
  - simpl. rewrite Hc, Hs, Hd. split; [|split; reflexivity].
    apply map_ext. intro c. destruct c; reflexivity.
  - intros c d _. reflexivity.
Qed.

(** ** The spend recorder *)

Lemma pk_unique (rows : list Campaign.t) (r c : Campaign.t) :
  NoDup (map Campaign.id rows) -> In r rows -> In c rows ->
  Campaign.id r = Campaign.id c -> r = c.
Proof.
  intros Hnd Hr Hc E.
  pose proof (find_pk_present r rows Hnd Hr) as H1.
  pose proof (find_pk_present c rows Hnd Hc) as H2.
  rewrite E in H1. congruence.
Qed.

Lemma find_update_row_other (pk pk' : nat) (f : Campaign.t -> Campaign.t)
    (rows : list Campaign.t) :
  pk <> pk' -> (forall r, Campaign.id (f r) = Campaign.id r) ->
  find (fun c => Nat.eqb (Campaign.id c) pk) (update_row pk' f rows)
  = find (fun c => Nat.eqb (Campaign.id c) pk) rows.
Proof.
  intros Hne Hf. induction rows as [|a rows IH]; simpl; [reflexivity|].
  destruct (Nat.eqb_spec (Campaign.id a) pk') as [E|E].
  - rewrite Hf.
    destruct (Nat.eqb_spec (Campaign.id a) pk) as [E'|E'];
      [congruence | exact IH].
  - now rewrite IH.
Qed.

Lemma find_update_row_same (pk : nat) (f : Campaign.t -> Campaign.t)
    (rows : list Campaign.t) :
  (forall r, Campaign.id (f r) = Campaign.id r) ->
  find (fun c => Nat.eqb (Campaign.id c) pk) (update_row pk f rows)
  = option_map f (find (fun c => Nat.eqb (Campaign.id c) pk) rows).
Proof.
  intros Hf. induction rows as [|a rows IH]; simpl; [reflexivity|].
  destruct (Nat.eqb_spec (Campaign.id a) pk) as [E|E].
  - rewrite Hf. destruct (Nat.eqb_spec (Campaign.id a) pk);
      [reflexivity | contradiction].
  - destruct (Nat.eqb_spec (Campaign.id a) pk); [contradiction | exact IH].
Qed.

Lemma spend_row_id (amount : Z) (c : Campaign.t) :
  Campaign.id (spend_row amount c) = Campaign.id c.
Proof.
  unfold spend_row. cbv zeta.
  destruct (_ >? _); [reflexivity|]. destruct (_ >? _); reflexivity.
Qed.

(** The instance [process_ad_spend] leaves in the caller's hands. *)
Lemma process_ad_spend_instance (c : Campaign.t) (amount : Z)
    (clock : Datetime.t) (db : Store) :
  fst (process_ad_spend c amount clock db) = spend_row amount c.
Proof.
  unfold process_ad_spend, spend_row. cbv zeta.
  destruct (_ >? _); [reflexivity|]. destruct (_ >? _); reflexivity.
Qed.

(** What [process_ad_spend] writes outside the campaign table. *)
Lemma process_ad_spend_frame (c : Campaign.t) (amount : Z)
    (clock : Datetime.t) (db : Store) :
  let db' := snd (process_ad_spend c amount clock db) in
  spends db'
  = spends db
    ++ [Spend.mk (Spend.fresh_id (spends db)) (Campaign.id c) amount
          (Datetime.date clock) (Some (Datetime.hour clock))]
  /\ brands db' = brands db
  /\ dayparting_schedules db' = dayparting_schedules db.
Proof.
  unfold process_ad_spend. cbv zeta.
  destruct (_ >? _); [repeat split|]. destruct (_ >? _); repeat split.
Qed.

Lemma save_save (fs1 fs2 : list Campaign.Field) (c1 c2 : Campaign.t)
    (rows : list Campaign.t) :
  Campaign.id c2 = Campaign.id c1 ->
  Campaign.save fs2 c2 (Campaign.save fs1 c1 rows)
  = update_row (Campaign.id c1)
      (fun r => Campaign.write_fields fs2 c2 (Campaign.write_fields fs1 c1 r))
      rows.
Proof.
  intros E. unfold Campaign.save, update_row. rewrite map_map.
  apply map_ext. intro r. rewrite E.
  destruct (Nat.eqb_spec (Campaign.id r) (Campaign.id c1)) as [E'|E'].
  - rewrite write_fields_id, E', Nat.eqb_refl. reflexivity.
  - destruct (Nat.eqb_spec (Campaign.id r) (Campaign.id c1));
      [contradiction | reflexivity].
Qed.

Lemma update_row_fresh (f g : Campaign.t -> Campaign.t) (c : Campaign.t)
    (rows : list Campaign.t) :
  NoDup (map Campaign.id rows) -> In c rows -> f c = g c ->
  update_row (Campaign.id c) f rows = update_row (Campaign.id c) g rows.
Proof.
  intros Hnd Hin E. unfold update_row. apply map_ext_in. intros r Hr.
  destruct (Nat.eqb_spec (Campaign.id r) (Campaign.id c)) as [E'|E'];
    [|reflexivity].
  now rewrite (pk_unique rows r c Hnd Hr Hin E').
Qed.

(** The campaign table after [process_ad_spend], whatever the instance:
    only rows of the instance's primary key are rewritten. *)
Lemma process_ad_spend_writes (c : Campaign.t) (amount : Z)
    (clock : Datetime.t) (db : Store) :
  exists f, (forall r, Campaign.id (f r) = Campaign.id r)
    /\ campaigns (snd (process_ad_spend c amount clock db))
       = update_row (Campaign.id c) f (campaigns db).
Proof.
  unfold process_ad_spend. cbv zeta.
  set (c1 := Campaign.set_monthly_spend _ _).
  destruct (Campaign.daily_spend c1 >? Campaign.daily_budget c1);
    [|destruct (Campaign.monthly_spend c1 >? Campaign.monthly_budget c1)].
  - eexists. split; [|simpl; apply (save_save _ _ c1); reflexivity].
    intro r. cbv beta. now rewrite !write_fields_id.
  - eexists. split; [|simpl; apply (save_save _ _ c1); reflexivity].
    intro r. cbv beta. now rewrite !write_fields_id.
  - eexists. split; [|reflexivity].
    intro r. now rewrite write_fields_id.
Qed.

(** The campaign table after [process_ad_spend] of a fresh instance. *)
Lemma process_ad_spend_rows (c : Campaign.t) (amount : Z)
    (clock : Datetime.t) (db : Store) :
  NoDup (map Campaign.id (campaigns db)) -> fresh c db ->
  campaigns (snd (process_ad_spend c amount clock db))
  = update_row (Campaign.id c) (spend_row amount) (campaigns db).
Proof.
  intros Hnd Hin. unfold fresh in Hin.
  unfold process_ad_spend. cbv zeta.
  set (c1 := Campaign.set_monthly_spend _ _).
  destruct (Campaign.daily_spend c1 >? Campaign.daily_budget c1) eqn:Hd;
    [|destruct (Campaign.monthly_spend c1 >? Campaign.monthly_budget c1)
        eqn:Hm];
    simpl campaigns; rewrite ?(save_save _ _ c1), ?save_is_update_row
      by reflexivity;
    change (Campaign.id c1) with (Campaign.id c);
    apply update_row_fresh; try assumption;
    unfold spend_row; subst c1; clear Hnd Hin; destruct c; simpl in *;
    rewrite Hd, ?Hm; reflexivity.
Qed.

(** ** What the row functions keep *)

Ltac row_cases :=
  repeat match goal with
         | |- context [if ?b then _ else _] => destruct b
         end;
  try reflexivity.

Lemma spend_row_spec (amount : Z) (c : Campaign.t) :
  let c' := spend_row amount c in
  Campaign.id c' = Campaign.id c
  /\ Campaign.daily_budget c' = Campaign.daily_budget c
  /\ Campaign.monthly_budget c' = Campaign.monthly_budget c
  /\ Campaign.daily_spend c' = Campaign.daily_spend c + amount
  /\ Campaign.monthly_spend c' = Campaign.monthly_spend c + amount
  /\ (Campaign.daily_spend c' > Campaign.daily_budget c ->
      Campaign.status c' = Campaign.PAUSED
      /\ Campaign.pause_reason c' = Some DAILY_BUDGET_EXCEEDED
      /\ Campaign.is_active c' = false)
  /\ (Campaign.daily_spend c' <= Campaign.daily_budget c ->
      Campaign.monthly_spend c' > Campaign.monthly_budget c ->
      Campaign.status c' = Campaign.PAUSED
      /\ Campaign.pause_reason c' = Some MONTHLY_BUDGET_EXCEEDED
      /\ Campaign.is_active c' = false)
  /\ (Campaign.daily_spend c' <= Campaign.daily_budget c ->
      Campaign.monthly_spend c' <= Campaign.monthly_budget c ->
      Campaign.status c' = Campaign.status c
      /\ Campaign.pause_reason c' = Campaign.pause_reason c
      /\ Campaign.is_active c' = Campaign.is_active c).
Proof.
  unfold spend_row. destruct c as [i b n s db mb ds ms sd ed a r]. simpl.
  destruct (Z.gtb_spec (ds + amount) db) as [Hd|Hd];
    [|destruct (Z.gtb_spec (ms + amount) mb) as [Hm|Hm]];
    simpl; repeat split; intros; try reflexivity; lia.
Qed.

Lemma budget_sweep_row_keeps (c : Campaign.t) :
  let c' := budget_sweep_row c in
  Campaign.id c' = Campaign.id c
  /\ Campaign.daily_spend c' = Campaign.daily_spend c
  /\ Campaign.monthly_spend c' = Campaign.monthly_spend c
  /\ Campaign.daily_budget c' = Campaign.daily_budget c
  /\ Campaign.monthly_budget c' = Campaign.monthly_budget c
  /\ Campaign.is_active c' = Campaign.is_active c.
Proof.
  unfold budget_sweep_row, Campaign.check_budget_limits. cbv zeta.
  row_cases; repeat split.
Qed.

Lemma reactivation_row_keeps (c : Campaign.t) :
  let c' := reactivation_row c in
  Campaign.id c' = Campaign.id c
  /\ Campaign.daily_spend c' = Campaign.daily_spend c
  /\ Campaign.monthly_spend c' = Campaign.monthly_spend c
  /\ Campaign.daily_budget c' = Campaign.daily_budget c
  /\ Campaign.monthly_budget c' = Campaign.monthly_budget c
  /\ Campaign.is_active c' = Campaign.is_active c.
Proof. unfold reactivation_row. row_cases; repeat split. Qed.

Lemma dayparting_row_keeps (now : Datetime.t)
    (sch : list DaypartingSchedule.t) (c : Campaign.t) :
  let c' := dayparting_row now sch c in
  Campaign.id c' = Campaign.id c
  /\ Campaign.daily_spend c' = Campaign.daily_spend c
  /\ Campaign.monthly_spend c' = Campaign.monthly_spend c
  /\ Campaign.daily_budget c' = Campaign.daily_budget c
  /\ Campaign.monthly_budget c' = Campaign.monthly_budget c
  /\ Campaign.is_active c' = Campaign.is_active c.
Proof. unfold dayparting_row. row_cases; repeat split. Qed.

Lemma event_row_id (e : Event) (sch : list DaypartingSchedule.t) (pk : nat)
    (c : Campaign.t) :
  Campaign.id (event_row e sch pk c) = Campaign.id c.
Proof.
  destruct e as [pk' a clk| | |clk| |]; simpl.
  - destruct (Nat.eqb pk pk'); [apply spend_row_id | reflexivity].
  - apply budget_sweep_row_keeps.
  - apply reactivation_row_keeps.
  - apply dayparting_row_keeps.
  - reflexivity.
  - reflexivity.
Qed.

(** ** One event, seen from one row *)

Lemma get_campaign_map (pk : nat) (f : Campaign.t -> Campaign.t)
    (db : Store) :
  (forall r, Campaign.id (f r) = Campaign.id r) ->
  get_campaign pk (set_campaigns (map f (campaigns db)) db)
  = option_map f (get_campaign pk db).
Proof. intro Hf. unfold get_campaign. simpl. now apply find_pk_map. Qed.

Lemma get_campaign_fresh (pk : nat) (c : Campaign.t) (db : Store) :
  get_campaign pk db = Some c -> fresh c db /\ Campaign.id c = pk.
Proof. apply find_pk_sound. Qed.

Lemma fresh_get_campaign (c : Campaign.t) (db : Store) :
  NoDup (map Campaign.id (campaigns db)) -> fresh c db ->
  get_campaign (Campaign.id c) db = Some c.
Proof. intros Hnd Hin. now apply find_pk_present. Qed.

Lemma step_row (e : Event) (db : Store) (pk : nat) :
  NoDup (map Campaign.id (campaigns db)) ->
  get_campaign pk (step db e)
  = option_map (event_row e (dayparting_schedules db) pk)
      (get_campaign pk db)
  /\ map Campaign.id (campaigns (step db e)) = map Campaign.id (campaigns db)
  /\ dayparting_schedules (step db e) = dayparting_schedules db.
Proof.
  intro Hnd. destruct e as [pk' a clk| | |clk| |]; simpl step.
  - destruct (get_campaign pk' db) as [c|] eqn:Hc.
    + destruct (get_campaign_fresh pk' c db Hc) as [Hin <-].
      pose proof (process_ad_spend_rows c a clk db Hnd Hin) as Hrows.
      destruct (process_ad_spend_frame c a clk db) as [_ [_ Hsch]].
      split; [|split; [|exact Hsch]].
      * unfold get_campaign. rewrite Hrows. simpl event_row.
        destruct (Nat.eqb_spec pk (Campaign.id c)) as [->|Hne].
        -- apply find_update_row_same. apply spend_row_id.
        -- rewrite find_update_row_other;
             [|assumption | apply spend_row_id].
           now destruct (find _ _).
      * rewrite Hrows. apply update_row_ids. apply spend_row_id.
    + split; [|split; reflexivity]. simpl event_row.
      destruct (Nat.eqb_spec pk pk') as [->|Hne].
      * now rewrite Hc.
      * now destruct (get_campaign pk db).
  - rewrite pause_campaigns_exceeding_budget_rows by assumption.
    split; [|split; [|reflexivity]].
    + apply get_campaign_map. apply budget_sweep_row_keeps.
    + apply map_ids_preserved. apply budget_sweep_row_keeps.
  - rewrite reactivate_eligible_campaigns_rows by assumption.
    split; [|split; [|reflexivity]].
    + apply get_campaign_map. apply reactivation_row_keeps.
    + apply map_ids_preserved. apply reactivation_row_keeps.
  - rewrite enforce_dayparting_rows by assumption.
    split; [|split; [|reflexivity]].
    + apply get_campaign_map. apply dayparting_row_keeps.
    + apply map_ids_preserved. apply dayparting_row_keeps.
  - destruct (reset_daily_budgets_rows db Hnd) as [Hc [_ Hs]].
    split; [|split; [|exact Hs]].
    + unfold get_campaign. rewrite Hc. now apply find_pk_map.
    + rewrite Hc. now apply map_ids_preserved.
  - destruct (reset_monthly_budgets_rows db Hnd) as [Hc [_ Hs]].
    split; [|split; [|exact Hs]].
    + unfold get_campaign. rewrite Hc. now apply find_pk_map.
    + rewrite Hc. now apply map_ids_preserved.
Qed.

Lemma spends_of_app (pk : nat) (db : Store) (s : Spend.t) :
  filter (fun x => Nat.eqb (Spend.campaign x) pk) (spends db ++ [s])
  = spends_of pk db ++ (if Nat.eqb (Spend.campaign s) pk then [s] else []).
Proof. unfold spends_of. rewrite filter_app. reflexivity. Qed.

Lemma step_spends (e : Event) (db : Store) (pk : nat) (c : Campaign.t) :
  NoDup (map Campaign.id (campaigns db)) ->
  get_campaign pk db = Some c ->
  map Spend.amount (spends_of pk (step db e))
  = map Spend.amount (spends_of pk db) ++ recorded pk [e].
Proof.
  intros Hnd Hc. destruct e as [pk' a clk| | |clk| |]; simpl.
  - destruct (get_campaign pk' db) as [c0|] eqn:Hc0.
    + destruct (get_campaign_fresh pk' c0 db Hc0) as [_ <-].
      destruct (process_ad_spend_frame c0 a clk db) as [Hs _].
      unfold spends_of at 1. rewrite Hs, spends_of_app, map_app. simpl.
      now destruct (Nat.eqb (Campaign.id c0) pk).
    + destruct (Nat.eqb_spec pk' pk) as [->|Hne]; [congruence|].
      now rewrite app_nil_r.
  - rewrite pause_campaigns_exceeding_budget_rows by assumption.
    now rewrite app_nil_r.
  - rewrite reactivate_eligible_campaigns_rows by assumption.
    now rewrite app_nil_r.
  - rewrite enforce_dayparting_rows by assumption. now rewrite app_nil_r.
  - destruct (reset_daily_budgets_rows db Hnd) as [_ [Hs _]].
    unfold spends_of. now rewrite Hs, app_nil_r.
  - destruct (reset_monthly_budgets_rows db Hnd) as [_ [Hs _]].
    unfold spends_of. now rewrite Hs, app_nil_r.
Qed.

Lemma event_row_ledger (e : Event) (sch : list DaypartingSchedule.t)
    (pk : nat) (c : Campaign.t) :
  Campaign.daily_spend (event_row e sch pk c)
  = ledger_daily pk [e] (Campaign.daily_spend c)
  /\ Campaign.monthly_spend (event_row e sch pk c)
     = ledger_monthly pk [e] (Campaign.monthly_spend c).
Proof.
  destruct e as [pk' a clk| | |clk| |]; simpl.
  - rewrite (Nat.eqb_sym pk' pk). destruct (Nat.eqb pk pk'); [|tauto].
    split; apply spend_row_spec.
  - split; apply budget_sweep_row_keeps.
  - split; apply reactivation_row_keeps.
  - split; apply dayparting_row_keeps.
  - tauto.
  - tauto.
Qed.

Lemma recorded_cons (pk : nat) (e : Event) (h : list Event) :
  recorded pk (e :: h) = recorded pk [e] ++ recorded pk h.
Proof.
  destruct e as [pk' a clk| | |clk| |]; simpl; try reflexivity.
  now destruct (Nat.eqb pk' pk).
Qed.

(** A history leaves in the row of a campaign the totals the ledger
    functions compute, and in the spend table its recorded amounts. *)
Lemma run_ledger (history : list Event) :
  forall (db : Store) (pk : nat) (c : Campaign.t),
  NoDup (map Campaign.id (campaigns db)) ->
  get_campaign pk db = Some c ->
  exists r,
    get_campaign pk (run history db) = Some r
    /\ Campaign.daily_spend r = ledger_daily pk history (Campaign.daily_spend c)
    /\ Campaign.monthly_spend r
       = ledger_monthly pk history (Campaign.monthly_spend c)
    /\ map Spend.amount (spends_of pk (run history db))
       = map Spend.amount (spends_of pk db) ++ recorded pk history.
Proof.
  induction history as [|e h IH]; intros db pk c Hnd Hc.
  - exists c. simpl. now rewrite app_nil_r.
  - destruct (step_row e db pk Hnd) as [Hget [Hids _]].
    rewrite Hc in Hget. simpl in Hget.
    assert (Hnd' : NoDup (map Campaign.id (campaigns (step db e))))
      by now rewrite Hids.
    destruct (IH (step db e) pk _ Hnd' Hget) as [r [Hr [Hd [Hm Hs]]]].
    destruct (event_row_ledger e (dayparting_schedules db) pk c)
      as [Ed Em].
    exists r. change (run (e :: h) db) with (run h (step db e)).
    split; [exact Hr|]. split; [|split].
    + rewrite Hd, Ed. reflexivity.
    + rewrite Hm, Em. reflexivity.
    + rewrite (recorded_cons pk e h), Hs, (step_spends e db pk c Hnd Hc).
      now rewrite app_assoc.
Qed.

Lemma ledger_daily_no_reset (pk : nat) (history : list Event) :
  forall start,
  forallb (fun e => negb (is_reset_daily e)) history = true ->
  ledger_daily pk history start = start + sum (recorded pk history).
Proof.
  unfold ledger_daily.
  induction history as [|e h IH]; intros start Hno; simpl.
  - lia.
  - simpl in Hno. apply andb_true_iff in Hno. destruct Hno as [He Hh].
    rewrite IH by assumption.
    destruct e as [pk' a clk| | |clk| |]; simpl; try reflexivity;
      try discriminate.
    destruct (Nat.eqb pk' pk); simpl; lia.
Qed.

Lemma ledger_monthly_no_reset (pk : nat) (history : list Event) :
  forall start,
  forallb (fun e => negb (is_reset_monthly e)) history = true ->
  ledger_monthly pk history start = start + sum (recorded pk history).
Proof.
  unfold ledger_monthly.
  induction history as [|e h IH]; intros start Hno; simpl.
  - lia.
  - simpl in Hno. apply andb_true_iff in Hno. destruct Hno as [He Hh].
    rewrite IH by assumption.
    destruct e as [pk' a clk| | |clk| |]; simpl; try reflexivity;
      try discriminate.
    destruct (Nat.eqb pk' pk); simpl; lia.
Qed.

Lemma ledger_daily_since_reset (pk : nat) (before after : list Event)
    (start : Z) :
  forallb (fun e => negb (is_reset_daily e)) after = true ->
  ledger_daily pk (before ++ ResetDaily :: after) start
  = sum (recorded pk after).
Proof.
  intro Hno. unfold ledger_daily. rewrite fold_left_app. simpl.
  now apply (ledger_daily_no_reset pk after 0).
Qed.

Lemma ledger_monthly_since_reset (pk : nat) (before after : list Event)
    (start : Z) :
  forallb (fun e => negb (is_reset_monthly e)) after = true ->
  ledger_monthly pk (before ++ ResetMonthly :: after) start
  = sum (recorded pk after).
Proof.
  intro Hno. unfold ledger_monthly. rewrite fold_left_app. simpl.
  now apply (ledger_monthly_no_reset pk after 0).
Qed.

(** ** Quantizing to two places *)

Lemma quantize_whole (scale v : Z) :
  0 < scale -> whole scale v -> quantize scale v = v.
Proof.
  unfold whole, quantize. intros Hs Hv. cbv zeta. rewrite Hv.
  destruct (Z.ltb_spec (2 * 0) scale); [|lia].
  pose proof (Z.div_mod v scale). lia.
Qed.

Lemma quantize_one (v : Z) : quantize 1 v = v.
Proof. apply quantize_whole; [lia|]. unfold whole. apply Z.mod_1_r. Qed.

Lemma whole_add (scale v w : Z) :
  0 < scale -> whole scale v -> whole scale w -> whole scale (v + w).
Proof.
  unfold whole. intros Hs Hv Hw.
  rewrite Z.add_mod by lia. rewrite Hv, Hw. simpl. apply Z.mod_0_l. lia.
Qed.

Lemma whole_zero (scale : Z) : whole scale 0.
Proof. unfold whole. apply Zmod_0_l. Qed.

(** The quantized value is a whole number of cents, and no whole number
    of cents is nearer to the value. *)
Lemma quantize_nearest (scale v : Z) :
  0 < scale ->
  whole scale (quantize scale v)
  /\ 2 * Z.abs (quantize scale v - v) <= scale.
Proof.
  intro Hs. unfold whole, quantize. cbv zeta.
  pose proof (Z.div_mod v scale ltac:(lia)) as Hdm.
  pose proof (Z.mod_pos_bound v scale Hs) as Hr.
  destruct (Z.ltb_spec (2 * (v mod scale)) scale);
    [|destruct (Z.gtb_spec (2 * (v mod scale)) scale);
      [|destruct (Z.even (v / scale))]];
    (split; [apply Z.mod_mul; lia | lia]).
Qed.

Lemma stored_whole (scale : Z) (c : Campaign.t) :
  0 < scale -> whole_campaign scale c -> stored scale c = c.
Proof.
  intros Hs [Hd Hm]. unfold stored.
  rewrite (quantize_whole scale _ Hs Hd), (quantize_whole scale _ Hs Hm).
  now destruct c.
Qed.

(** On whole numbers of cents, recording is [process_ad_spend]. *)
Lemma process_ad_spend_at_whole (scale : Z) (c : Campaign.t) (amount : Z)
    (clock : Datetime.t) (db : Store) :
  0 < scale -> whole scale amount -> whole_campaign scale c ->
  process_ad_spend_at scale c amount clock db
  = process_ad_spend c amount clock db.
Proof.
  intros Hs Ha [Hd Hm]. unfold process_ad_spend_at, process_ad_spend.
  cbv zeta. rewrite (quantize_whole scale amount Hs Ha).
  rewrite stored_whole; [reflexivity | assumption |].
  split; simpl; now apply whole_add.
Qed.

Lemma process_ad_spend_at_one (c : Campaign.t) (amount : Z)
    (clock : Datetime.t) (db : Store) :
  process_ad_spend_at 1 c amount clock db = process_ad_spend c amount clock db.
Proof.
  unfold process_ad_spend_at, process_ad_spend, stored. cbv zeta.
  rewrite !quantize_one. now destruct c.
Qed.

Lemma step_campaigns (e : Event) (db : Store) :
  NoDup (map Campaign.id (campaigns db)) ->
  campaigns (step db e)
  = map (fun c => event_row e (dayparting_schedules db) (Campaign.id c) c)
      (campaigns db).
Proof.
  intro Hnd. destruct e as [pk' a clk| | |clk| |]; simpl.
  - destruct (get_campaign pk' db) as [c|] eqn:Hc.
    + destruct (get_campaign_fresh pk' c db Hc) as [Hin <-].
      rewrite (process_ad_spend_rows c a clk db Hnd Hin).
      unfold update_row. apply map_ext. intro r.
      now destruct (Nat.eqb (Campaign.id r) (Campaign.id c)).
    + rewrite <- (map_id (campaigns db)) at 1. apply map_ext_in.
      intros r Hr.
      destruct (Nat.eqb_spec (Campaign.id r) pk') as [E|E]; [|reflexivity].
      subst pk'. rewrite (fresh_get_campaign r db Hnd Hr) in Hc.
      discriminate.
  - now rewrite pause_campaigns_exceeding_budget_rows.
  - now rewrite reactivate_eligible_campaigns_rows.
  - now rewrite enforce_dayparting_rows.
  - apply (reset_daily_budgets_rows db Hnd).
  - apply (reset_monthly_budgets_rows db Hnd).
Qed.

Lemma event_row_whole (scale : Z) (e : Event)
    (sch : list DaypartingSchedule.t) (pk : nat) (c : Campaign.t) :
  0 < scale -> whole_history scale [e] -> whole_campaign scale c ->
  whole_campaign scale (event_row e sch pk c).
Proof.
  intros Hs He [Hd Hm]. unfold whole_campaign.
  destruct (event_row_ledger e sch pk c) as [Ed Em]. rewrite Ed, Em.
  inversion He as [|x l Hx _]; subst.
  destruct e as [pk' a clk| | |clk| |]; simpl;
    try (split; assumption); try (split; [apply whole_zero | assumption]);
    try (split; [assumption | apply whole_zero]).
  destruct (Nat.eqb pk' pk); split; try assumption; now apply whole_add.
Qed.

Lemma step_at_whole (scale : Z) (e : Event) (db : Store) :
  0 < scale -> NoDup (map Campaign.id (campaigns db)) ->
  whole_store scale db -> whole_history scale [e] ->
  step_at scale db e = step db e /\ whole_store scale (step db e).
Proof.
  intros Hs Hnd Hdb He. split.
  - destruct e as [pk' a clk| | |clk| |]; try reflexivity. simpl.
    destruct (get_campaign pk' db) as [c|] eqn:Hc; [|reflexivity].
    rewrite process_ad_spend_at_whole; try assumption; [reflexivity| |].
    + now inversion He.
    + apply get_campaign_fresh in Hc. destruct Hc as [Hin _].
      unfold whole_store in Hdb. rewrite Forall_forall in Hdb.
      now apply Hdb.
  - unfold whole_store. rewrite (step_campaigns e db Hnd).
    unfold whole_store in Hdb. rewrite Forall_forall in *.
    intros r Hr. apply in_map_iff in Hr. destruct Hr as [c [<- Hin]].
    apply event_row_whole; auto.
Qed.

(** A history that records whole numbers of cents on a table of whole
    numbers of cents runs as [run]. *)
Lemma run_at_whole (scale : Z) (history : list Event) :
  forall db,
  0 < scale -> NoDup (map Campaign.id (campaigns db)) ->
  whole_store scale db -> whole_history scale history ->
  run_at scale history db = run history db.
Proof.
  induction history as [|e h IH]; intros db Hs Hnd Hdb Hh; [reflexivity|].
  inversion Hh as [|x l Hx Hl]; subst.
  assert (He : whole_history scale [e]) by (constructor; [assumption|constructor]).
  destruct (step_at_whole scale e db Hs Hnd Hdb He) as [E Hw].
  change (run_at scale (e :: h) db) with (run_at scale h (step_at scale db e)).
  change (run (e :: h) db) with (run h (step db e)).
  rewrite E. apply IH; try assumption.
  destruct (step_row e db 0%nat Hnd) as [_ [Hids _]]. now rewrite Hids.
Qed.

(** ** The claims about the spend recorder *)

(** Recording a whole number of cents: one new Spend row of that amount,
    both totals increased by it on the instance and on its row, the pause
    rule of the inline check, and the ledger along any history. *)
Lemma records_and_accumulates_in_cents
    (db : Store) (c : Campaign.t) (amount : Z) (clock : Datetime.t)
    (Hpk : NoDup (map Campaign.id (campaigns db))) (Hfresh : fresh c db) :
  let c' := fst (process_ad_spend c amount clock db) in
  let db' := snd (process_ad_spend c amount clock db) in
  (exists s, spends db' = spends db ++ [s]
             /\ Spend.campaign s = Campaign.id c /\ Spend.amount s = amount)
  /\ get_campaign (Campaign.id c) db' = Some c'
  /\ Campaign.daily_spend c' = Campaign.daily_spend c + amount
  /\ Campaign.monthly_spend c' = Campaign.monthly_spend c + amount
  /\ (Campaign.daily_spend c' > Campaign.daily_budget c ->
      Campaign.status c' = Campaign.PAUSED
      /\ Campaign.pause_reason c' = Some DAILY_BUDGET_EXCEEDED
      /\ Campaign.is_active c' = false)
  /\ (Campaign.daily_spend c' <= Campaign.daily_budget c ->
      Campaign.monthly_spend c' > Campaign.monthly_budget c ->
      Campaign.status c' = Campaign.PAUSED
      /\ Campaign.pause_reason c' = Some MONTHLY_BUDGET_EXCEEDED
      /\ Campaign.is_active c' = false)
  /\ (Campaign.daily_spend c' <= Campaign.daily_budget c ->
      Campaign.monthly_spend c' <= Campaign.monthly_budget c ->
      Campaign.status c' = Campaign.status c
      /\ Campaign.pause_reason c' = Campaign.pause_reason c
      /\ Campaign.is_active c' = Campaign.is_active c)
  /\ (forall history, exists r,
        get_campaign (Campaign.id c) (run history db) = Some r
        /\ Campaign.daily_spend r
           = ledger_daily (Campaign.id c) history (Campaign.daily_spend c)
        /\ Campaign.monthly_spend r
           = ledger_monthly (Campaign.id c) history (Campaign.monthly_spend c)
        /\ map Spend.amount (spends_of (Campaign.id c) (run history db))
           = map Spend.amount (spends_of (Campaign.id c) db)
             ++ recorded (Campaign.id c) history)
  /\ (forall before after start,
        forallb (fun e => negb (is_reset_daily e)) after = true ->
        ledger_daily (Campaign.id c) (before ++ ResetDaily :: after) start
        = sum (recorded (Campaign.id c) after))
  /\ (forall before after start,
        forallb (fun e => negb (is_reset_monthly e)) after = true ->
        ledger_monthly (Campaign.id c) (before ++ ResetMonthly :: after) start
        = sum (recorded (Campaign.id c) after)).
Proof.
  intros c' db'. subst c' db'.
  rewrite process_ad_spend_instance.
  destruct (process_ad_spend_frame c amount clock db) as [Hs _].
  destruct (spend_row_spec amount c)
    as [Hid [_ [_ [Hd [Hm [P1 [P2 P3]]]]]]].
  split; [eexists; split; [exact Hs | split; reflexivity]|].
  split.
  { unfold get_campaign. rewrite process_ad_spend_rows by assumption.
    rewrite find_update_row_same by apply spend_row_id.
    fold (get_campaign (Campaign.id c) db).
    now rewrite fresh_get_campaign. }
  repeat (split; [assumption|]).
  split; [|split].
  - intro history. apply run_ledger; [assumption|].
    now apply fresh_get_campaign.
  - intros. now apply ledger_daily_since_reset.
  - intros. now apply ledger_monthly_since_reset.
Qed.

(** C3, as stated, fails for an amount that is not a whole number of
    cents.  Recording 5.004 on a campaign with 45.00 spent of a daily
    budget of 50.00 (money in tenths of a cent) creates a Spend row of
    5.00 and leaves 50.00 in the row's [daily_spend], which is neither the
    old total plus the amount nor above the budget, yet the campaign is
    paused with DAILY_BUDGET_EXCEEDED, the instance holding 50.004.  And
    after a daily reset, two recordings of 0.004 leave a total of 0.00,
    not their sum. *)
Lemma sub_cent_amount_is_rounded :
  (let c := Campaign.set_daily_spend 45000 sample_campaign_tenths in
   let r := process_ad_spend_at 10 c 5004 monday_afternoon (sample_store c) in
   map Spend.amount (spends (snd r)) = [5000]
   /\ Campaign.daily_spend (fst r) = 50004
   /\ option_map Campaign.daily_spend (get_campaign 1 (snd r)) = Some 50000
   /\ Campaign.daily_budget c = 50000
   /\ option_map Campaign.status (get_campaign 1 (snd r))
      = Some Campaign.PAUSED
   /\ option_map Campaign.pause_reason (get_campaign 1 (snd r))
      = Some (Some DAILY_BUDGET_EXCEEDED))
  /\ (let h := [ResetDaily; RecordSpend 1 4 monday_afternoon;
                RecordSpend 1 4 monday_afternoon] in
      let db := run_at 10 h (sample_store sample_campaign_tenths) in
      option_map Campaign.daily_spend (get_campaign 1 db) = Some 0
      /\ sum (recorded 1 h) = 8).
Proof. vm_compute. repeat split. Qed.

(** C3, amended.  One call of [process_ad_spend] on a campaign, for every
    amount that is a whole number of cents (zero included), creates
    exactly one new Spend row, of that campaign and that amount, and adds
    the amount to both [daily_spend] and [monthly_spend], on the instance
    and on its row; it then pauses with DAILY_BUDGET_EXCEEDED if the new
    [daily_spend] is strictly above [daily_budget], else with
    MONTHLY_BUDGET_EXCEEDED if the new [monthly_spend] is strictly above
    [monthly_budget], and else leaves status, reason and flag alone.
    Along any history of the entry points that records whole numbers of
    cents, the row's totals are the ledger's and the spend table grows by
    the recorded amounts; after a reset the total is the sum of the
    amounts recorded since that reset. *)
Theorem process_ad_spend_records_and_accumulates
    (scale : Z) (db : Store) (c : Campaign.t) (amount : Z)
    (clock : Datetime.t)
    (Hscale : 0 < scale)
    (Hpk : NoDup (map Campaign.id (campaigns db))) (Hfresh : fresh c db)
    (Hcents : whole scale amount) (Hrows : whole_store scale db) :
  let c' := fst (process_ad_spend_at scale c amount clock db) in
  let db' := snd (process_ad_spend_at scale c amount clock db) in
  (exists s, spends db' = spends db ++ [s]
             /\ Spend.campaign s = Campaign.id c /\ Spend.amount s = amount)
  /\ get_campaign (Campaign.id c) db' = Some c'
  /\ Campaign.daily_spend c' = Campaign.daily_spend c + amount
  /\ Campaign.monthly_spend c' = Campaign.monthly_spend c + amount
  /\ (Campaign.daily_spend c' > Campaign.daily_budget c ->
      Campaign.status c' = Campaign.PAUSED
      /\ Campaign.pause_reason c' = Some DAILY_BUDGET_EXCEEDED
      /\ Campaign.is_active c' = false)
  /\ (Campaign.daily_spend c' <= Campaign.daily_budget c ->
      Campaign.monthly_spend c' > Campaign.monthly_budget c ->
      Campaign.status c' = Campaign.PAUSED
      /\ Campaign.pause_reason c' = Some MONTHLY_BUDGET_EXCEEDED
      /\ Campaign.is_active c' = false)
  /\ (Campaign.daily_spend c' <= Campaign.daily_budget c ->
      Campaign.monthly_spend c' <= Campaign.monthly_budget c ->
      Campaign.status c' = Campaign.status c
      /\ Campaign.pause_reason c' = Campaign.pause_reason c
      /\ Campaign.is_active c' = Campaign.is_active c)
  /\ (forall history, whole_history scale history ->
      exists r,
        get_campaign (Campaign.id c) (run_at scale history db) = Some r
        /\ Campaign.daily_spend r
           = ledger_daily (Campaign.id c) history (Campaign.daily_spend c)
        /\ Campaign.monthly_spend r
           = ledger_monthly (Campaign.id c) history (Campaign.monthly_spend c)
        /\ map Spend.amount
             (spends_of (Campaign.id c) (run_at scale history db))
           = map Spend.amount (spends_of (Campaign.id c) db)
             ++ recorded (Campaign.id c) history)
  /\ (forall before after start,
        forallb (fun e => negb (is_reset_daily e)) after = true ->
        ledger_daily (Campaign.id c) (before ++ ResetDaily :: after) start
        = sum (recorded (Campaign.id c) after))
  /\ (forall before after start,
        forallb (fun e => negb (is_reset_monthly e)) after = true ->
        ledger_monthly (Campaign.id c) (before ++ ResetMonthly :: after) start
        = sum (recorded (Campaign.id c) after)).
Proof.
  intros c' db'. subst c' db'.
  assert (Hc : whole_campaign scale c).
  { unfold whole_store in Hrows. rewrite Forall_forall in Hrows.
    now apply Hrows. }
  rewrite (process_ad_spend_at_whole scale c amount clock db Hscale Hcents Hc).
  destruct (records_and_accumulates_in_cents db c amount clock Hpk Hfresh)
    as [H1 [H2 [H3 [H4 [H5 [H6 [H7 [H8 [H9 H10]]]]]]]]].
  repeat (split; [assumption|]).
  split; [|split; assumption].
  intros history Hh.
  rewrite (run_at_whole scale history db Hscale Hpk Hrows Hh).
  apply H8.
Qed.

Lemma process_ad_spend_records_witness :
  let db := sample_store sample_campaign_tenths in
  0 < 10
  /\ NoDup (map Campaign.id (campaigns db))
  /\ fresh sample_campaign_tenths db
  /\ whole 10 10000
  /\ whole_store 10 db
  /\ Campaign.daily_spend
       (fst (process_ad_spend_at 10 sample_campaign_tenths 10000
               monday_afternoon db)) = 0 + 10000.
Proof.
  intro db.
  assert (Hs : 0 < 10) by lia.
  assert (Hnd : NoDup (map Campaign.id (campaigns db)))
    by (repeat constructor; simpl; tauto).
  assert (Hf : fresh sample_campaign_tenths db) by (left; reflexivity).
  assert (Ha : whole 10 10000) by reflexivity.
  assert (Hw : whole_store 10 db)
    by (repeat constructor; reflexivity).
  split; [exact Hs|]. split; [exact Hnd|]. split; [exact Hf|].
  split; [exact Ha|]. split; [exact Hw|].
  exact (proj1 (proj2 (proj2
           (process_ad_spend_records_and_accumulates 10 db
              sample_campaign_tenths 10000 monday_afternoon
              Hs Hnd Hf Ha Hw)))).
Defined.

(** C7, as stated, fails: [process_ad_spend] has no validation, so a
    negative amount is recorded like any other.  Recording -10.00 on the
    sample campaign creates a Spend row and leaves [daily_spend] and
    [monthly_spend] at -10.00, on the instance and on its row. *)
Lemma negative_amount_is_recorded :
  let db := sample_store sample_campaign in
  let r := process_ad_spend sample_campaign (-1000) monday_afternoon db in
  spends db = []
  /\ map Spend.amount (spends (snd r)) = [-1000]
  /\ Campaign.daily_spend sample_campaign = 0
  /\ Campaign.daily_spend (fst r) = -1000
  /\ Campaign.monthly_spend (fst r) = -1000
  /\ get_campaign 1 (snd r) = Some (fst r).
Proof. vm_compute. repeat split. Qed.

(** Recording a negative whole number of cents. *)
Lemma accepts_negative_in_cents
    (db : Store) (c : Campaign.t) (amount : Z) (clock : Datetime.t)
    (Hpk : NoDup (map Campaign.id (campaigns db))) (Hfresh : fresh c db)
    (Hneg : amount < 0) :
  let c' := fst (process_ad_spend c amount clock db) in
  let db' := snd (process_ad_spend c amount clock db) in
  (exists s, spends db' = spends db ++ [s]
             /\ Spend.campaign s = Campaign.id c /\ Spend.amount s = amount)
  /\ get_campaign (Campaign.id c) db' = Some c'
  /\ Campaign.daily_spend c' = Campaign.daily_spend c + amount
  /\ Campaign.monthly_spend c' = Campaign.monthly_spend c + amount
  /\ Campaign.daily_spend c' < Campaign.daily_spend c
  /\ Campaign.monthly_spend c' < Campaign.monthly_spend c.
Proof.
  intros c' db'. subst c' db'.
  rewrite process_ad_spend_instance.
  destruct (process_ad_spend_frame c amount clock db) as [Hs _].
  destruct (spend_row_spec amount c) as [_ [_ [_ [Hd [Hm _]]]]].
  split; [eexists; split; [exact Hs | split; reflexivity]|].
  split.
  { unfold get_campaign. rewrite process_ad_spend_rows by assumption.
    rewrite find_update_row_same by apply spend_row_id.
    fold (get_campaign (Campaign.id c) db).
    now rewrite fresh_get_campaign. }
  repeat split; lia.
Qed.

(** C7, amended.  [process_ad_spend] does not validate the amount: for
    every campaign and every negative amount that is a whole number of
    cents it creates one Spend row carrying that amount and adds the
    amount to both totals, which therefore decrease; nothing is
    rejected. *)
Theorem process_ad_spend_accepts_negative
    (scale : Z) (db : Store) (c : Campaign.t) (amount : Z)
    (clock : Datetime.t)
    (Hscale : 0 < scale)
    (Hpk : NoDup (map Campaign.id (campaigns db))) (Hfresh : fresh c db)
    (Hcents : whole scale amount) (Hrow : whole_campaign scale c)
    (Hneg : amount < 0) :
  let c' := fst (process_ad_spend_at scale c amount clock db) in
  let db' := snd (process_ad_spend_at scale c amount clock db) in
  (exists s, spends db' = spends db ++ [s]
             /\ Spend.campaign s = Campaign.id c /\ Spend.amount s = amount)
  /\ get_campaign (Campaign.id c) db' = Some c'
  /\ Campaign.daily_spend c' = Campaign.daily_spend c + amount
  /\ Campaign.monthly_spend c' = Campaign.monthly_spend c + amount
  /\ Campaign.daily_spend c' < Campaign.daily_spend c
  /\ Campaign.monthly_spend c' < Campaign.monthly_spend c.
Proof.
  intros c' db'. subst c' db'.
  rewrite (process_ad_spend_at_whole scale c amount clock db
             Hscale Hcents Hrow).
  exact (accepts_negative_in_cents db c amount clock Hpk Hfresh Hneg).
Qed.

Lemma process_ad_spend_accepts_negative_witness :
  let db := sample_store sample_campaign_tenths in
  0 < 10
  /\ NoDup (map Campaign.id (campaigns db))
  /\ fresh sample_campaign_tenths db
  /\ whole 10 (-10000)
  /\ whole_campaign 10 sample_campaign_tenths
  /\ -10000 < 0
  /\ Campaign.daily_spend
       (fst (process_ad_spend_at 10 sample_campaign_tenths (-10000)
               monday_afternoon db)) = 0 + -10000.
Proof.
  intro db.
  assert (Hs : 0 < 10) by lia.
  assert (Hnd : NoDup (map Campaign.id (campaigns db)))
    by (repeat constructor; simpl; tauto).
  assert (Hf : fresh sample_campaign_tenths db) by (left; reflexivity).
  assert (Ha : whole 10 (-10000)) by reflexivity.
  assert (Hw : whole_campaign 10 sample_campaign_tenths)
    by (split; reflexivity).
  assert (Hneg : -10000 < 0) by lia.
  split; [exact Hs|]. split; [exact Hnd|]. split; [exact Hf|].
  split; [exact Ha|]. split; [exact Hw|]. split; [exact Hneg|].
  exact (proj1 (proj2 (proj2
           (process_ad_spend_accepts_negative 10 db sample_campaign_tenths
              (-10000) monday_afternoon Hs Hnd Hf Ha Hw Hneg)))).
Defined.

(** ** The budget check of a campaign *)

Lemma check_budget_limits_spec (c : Campaign.t) (rows : list Campaign.t) :
  let c' := fst (Campaign.check_budget_limits c rows) in
  (Campaign.daily_spend c >= Campaign.daily_budget c ->
   c' = Campaign.set_pause_reason (Some DAILY_BUDGET_EXCEEDED)
          (Campaign.set_status Campaign.PAUSED c))
  /\ (Campaign.daily_spend c < Campaign.daily_budget c ->
      Campaign.monthly_spend c >= Campaign.monthly_budget c ->
      c' = Campaign.set_pause_reason (Some MONTHLY_BUDGET_EXCEEDED)
             (Campaign.set_status Campaign.PAUSED c))
  /\ (Campaign.daily_spend c < Campaign.daily_budget c ->
      Campaign.monthly_spend c < Campaign.monthly_budget c ->
      c' = if Campaign.Status_eqb (Campaign.status c) Campaign.PAUSED
           then Campaign.set_pause_reason None
                  (Campaign.set_status Campaign.ACTIVE c)
           else c).
Proof.
  unfold Campaign.check_budget_limits, Campaign.can_resume. cbv zeta.
  destruct (Z.geb_spec (Campaign.daily_spend c) (Campaign.daily_budget c));
    [|destruct (Z.geb_spec (Campaign.monthly_spend c)
                 (Campaign.monthly_budget c))].
  - repeat split; intros; try reflexivity; lia.
  - repeat split; intros; try reflexivity; lia.
  - destruct (Z.ltb_spec (Campaign.daily_spend c) (Campaign.daily_budget c));
      [|lia].
    destruct (Z.ltb_spec (Campaign.monthly_spend c)
                (Campaign.monthly_budget c)); [|lia].
    rewrite andb_true_r.
    repeat split; intros; try lia.
    now destruct (Campaign.Status_eqb _ _).
Qed.

Lemma budget_sweep_row_spec (c : Campaign.t) :
  (selected_for_budget c = true ->
   (Campaign.daily_spend c >= Campaign.daily_budget c ->
    budget_sweep_row c
    = Campaign.set_pause_reason (Some DAILY_BUDGET_EXCEEDED)
        (Campaign.set_status Campaign.PAUSED c))
   /\ (Campaign.daily_spend c < Campaign.daily_budget c ->
       Campaign.monthly_spend c >= Campaign.monthly_budget c ->
       budget_sweep_row c
       = Campaign.set_pause_reason (Some MONTHLY_BUDGET_EXCEEDED)
           (Campaign.set_status Campaign.PAUSED c))
   /\ (Campaign.daily_spend c < Campaign.daily_budget c ->
       Campaign.monthly_spend c < Campaign.monthly_budget c ->
       budget_sweep_row c = c))
  /\ (selected_for_budget c = false -> budget_sweep_row c = c).
Proof.
  unfold budget_sweep_row. split; intros Hsel; rewrite Hsel; [|reflexivity].
  destruct (check_budget_limits_spec c []) as [H1 [H2 H3]].
  split; [exact H1|]. split; [exact H2|].
  intros Hd Hm. rewrite (H3 Hd Hm).
  unfold selected_for_budget in Hsel. apply andb_true_iff in Hsel.
  destruct Hsel as [_ Hs]. apply Status_eqb_eq in Hs. now rewrite Hs.
Qed.

Lemma process_ad_spend_row (c : Campaign.t) (amount : Z)
    (clock : Datetime.t) (db : Store) :
  NoDup (map Campaign.id (campaigns db)) -> fresh c db ->
  let db' := snd (process_ad_spend c amount clock db) in
  get_campaign (Campaign.id c) db' = Some (spend_row amount c)
  /\ NoDup (map Campaign.id (campaigns db')).
Proof.
  intros Hnd Hin db'. subst db'. split.
  - unfold get_campaign. rewrite process_ad_spend_rows by assumption.
    rewrite find_update_row_same by apply spend_row_id.
    fold (get_campaign (Campaign.id c) db).
    now rewrite fresh_get_campaign.
  - rewrite process_ad_spend_rows by assumption.
    rewrite update_row_ids; [assumption | apply spend_row_id].
Qed.

Lemma budget_sweep_get (db : Store) (pk : nat) :
  NoDup (map Campaign.id (campaigns db)) ->
  get_campaign pk (pause_campaigns_exceeding_budget db)
  = option_map budget_sweep_row (get_campaign pk db).
Proof.
  intro Hnd. rewrite pause_campaigns_exceeding_budget_rows by assumption.
  apply get_campaign_map. apply budget_sweep_row_keeps.
Qed.

(** ** The boundary between the recording path and the budget sweep *)

(** C1, as stated, fails twice.  A spend that lands [daily_spend] exactly
    on [daily_budget] is paused by the recording path itself when it takes
    [monthly_spend] above [monthly_budget]; and a campaign at the boundary
    whose [is_active] flag is false is not selected by the budget sweep,
    which leaves it Active. *)
Lemma boundary_record_counterexample :
  (let c := Campaign.set_monthly_spend 49500
              (Campaign.set_daily_spend 4000 sample_campaign) in
   let r := process_ad_spend c 1000 monday_afternoon (sample_store c) in
   Campaign.daily_spend (fst r) = Campaign.daily_budget (fst r)
   /\ Campaign.status c = Campaign.ACTIVE
   /\ Campaign.status (fst r) = Campaign.PAUSED
   /\ Campaign.pause_reason (fst r) = Some MONTHLY_BUDGET_EXCEEDED
   /\ get_campaign 1 (snd r) = Some (fst r))
  /\ (let c := Campaign.set_is_active false
                 (Campaign.set_daily_spend 4000 sample_campaign) in
      let r := process_ad_spend c 1000 monday_afternoon (sample_store c) in
      Campaign.daily_spend (fst r) = Campaign.daily_budget (fst r)
      /\ Campaign.status (fst r) = Campaign.ACTIVE
      /\ option_map Campaign.status
           (get_campaign 1 (pause_campaigns_exceeding_budget (snd r)))
         = Some Campaign.ACTIVE).
Proof. vm_compute. repeat split. Qed.

(** C1, amended.  The recording path pauses a campaign exactly when the
    updated [daily_spend] is strictly above [daily_budget] or the updated
    [monthly_spend] strictly above [monthly_budget]; the budget check the
    sweep runs pauses on greater-or-equal.  Hence a campaign that is
    Active with [is_active] true, whose [daily_spend] lands exactly on
    [daily_budget] while [monthly_spend] stays at or below
    [monthly_budget], is not paused by the recording, and the next budget
    sweep pauses it with DAILY_BUDGET_EXCEEDED. *)
Theorem boundary_record_then_sweep
    (db : Store) (c : Campaign.t) (amount : Z) (clock : Datetime.t)
    (Hpk : NoDup (map Campaign.id (campaigns db))) (Hfresh : fresh c db) :
  let c' := fst (process_ad_spend c amount clock db) in
  let db' := snd (process_ad_spend c amount clock db) in
  (Campaign.daily_spend c' > Campaign.daily_budget c
   \/ Campaign.monthly_spend c' > Campaign.monthly_budget c ->
   Campaign.status c' = Campaign.PAUSED /\ Campaign.is_active c' = false)
  /\ (Campaign.daily_spend c' <= Campaign.daily_budget c ->
      Campaign.monthly_spend c' <= Campaign.monthly_budget c ->
      Campaign.status c' = Campaign.status c
      /\ Campaign.pause_reason c' = Campaign.pause_reason c
      /\ Campaign.is_active c' = Campaign.is_active c)
  /\ (forall x rows,
        Campaign.daily_spend x >= Campaign.daily_budget x ->
        fst (Campaign.check_budget_limits x rows)
        = Campaign.set_pause_reason (Some DAILY_BUDGET_EXCEEDED)
            (Campaign.set_status Campaign.PAUSED x))
  /\ (forall x rows,
        Campaign.daily_spend x < Campaign.daily_budget x ->
        Campaign.monthly_spend x >= Campaign.monthly_budget x ->
        fst (Campaign.check_budget_limits x rows)
        = Campaign.set_pause_reason (Some MONTHLY_BUDGET_EXCEEDED)
            (Campaign.set_status Campaign.PAUSED x))
  /\ (Campaign.is_active c = true ->
      Campaign.status c = Campaign.ACTIVE ->
      Campaign.daily_spend c' = Campaign.daily_budget c ->
      Campaign.monthly_spend c' <= Campaign.monthly_budget c ->
      get_campaign (Campaign.id c) db' = Some c'
      /\ Campaign.status c' = Campaign.ACTIVE
      /\ Campaign.pause_reason c' = Campaign.pause_reason c
      /\ Campaign.is_active c' = true
      /\ get_campaign (Campaign.id c) (pause_campaigns_exceeding_budget db')
         = Some (Campaign.set_pause_reason (Some DAILY_BUDGET_EXCEEDED)
                   (Campaign.set_status Campaign.PAUSED c'))).
Proof.
  intros c' db'. subst c' db'.
  rewrite process_ad_spend_instance.
  destruct (spend_row_spec amount c)
    as [Hid [Hdb [Hmb [Hd [Hm [P1 [P2 P3]]]]]]].
  destruct (process_ad_spend_row c amount clock db Hpk Hfresh)
    as [Hget Hnd'].
  split; [|split; [exact P3|split; [|split]]].
  - intros [H|H].
    + destruct (P1 H) as [? [? ?]]. tauto.
    + destruct (Z_le_gt_dec (Campaign.daily_spend (spend_row amount c))
                  (Campaign.daily_budget c)) as [Hle|Hgt].
      * destruct (P2 Hle H) as [? [? ?]]. tauto.
      * destruct (P1 Hgt) as [? [? ?]]. tauto.
  - intros x rows H. now apply check_budget_limits_spec.
  - intros x rows H1 H2. now apply check_budget_limits_spec.
  - intros Ha Hs Hland Hmon.
    assert (Hle : Campaign.daily_spend (spend_row amount c)
                  <= Campaign.daily_budget c) by lia.
    destruct (P3 Hle Hmon) as [Es [Er Ea]].
    split; [exact Hget|]. split; [congruence|]. split; [exact Er|].
    split; [congruence|].
    rewrite budget_sweep_get by assumption. rewrite Hget. simpl. f_equal.
    apply budget_sweep_row_spec.
    + unfold selected_for_budget. rewrite Ea, Ha, Es, Hs. reflexivity.
    + rewrite Hdb. lia.
Qed.

Lemma boundary_record_then_sweep_witness :
  let c := Campaign.set_daily_spend 4000 sample_campaign in
  let db := sample_store c in
  NoDup (map Campaign.id (campaigns db))
  /\ fresh c db
  /\ Campaign.is_active c = true
  /\ Campaign.status c = Campaign.ACTIVE
  /\ Campaign.daily_spend (fst (process_ad_spend c 1000 monday_afternoon db))
     = Campaign.daily_budget c
  /\ Campaign.monthly_spend (fst (process_ad_spend c 1000 monday_afternoon db))
     <= Campaign.monthly_budget c
  /\ option_map Campaign.status
       (get_campaign 1
          (pause_campaigns_exceeding_budget
             (snd (process_ad_spend c 1000 monday_afternoon db))))
     = Some Campaign.PAUSED.
Proof.
  intros c db.
  assert (Hnd : NoDup (map Campaign.id (campaigns db)))
    by (repeat constructor; simpl; tauto).
  assert (Hf : fresh c db) by (left; reflexivity).
  assert (Hland : Campaign.daily_spend
                    (fst (process_ad_spend c 1000 monday_afternoon db))
                  = Campaign.daily_budget c) by reflexivity.
  assert (Hmon : Campaign.monthly_spend
                   (fst (process_ad_spend c 1000 monday_afternoon db))
                 <= Campaign.monthly_budget c) by (vm_compute; discriminate).
  repeat (split; [first [exact Hnd | exact Hf | exact Hland | exact Hmon
                        | reflexivity]|]).
  destruct (boundary_record_then_sweep db c 1000 monday_afternoon Hnd Hf)
    as [_ [_ [_ [_ H]]]].
  destruct (H eq_refl eq_refl Hland Hmon) as [_ [_ [_ [_ E]]]].
  change (Campaign.id c) with 1%nat in E. rewrite E. reflexivity.
Defined.

(** ** The budget sweep *)

(** C6, as stated, fails: the sweep never looks at a brand, and it only
    looks at campaigns that are Active with [is_active] true.  A brand at
    its daily budget stays active; a campaign paused for its daily budget
    whose totals are back under budget is not reactivated; and a campaign
    paused for dayparting whose [daily_spend] reached [daily_budget] keeps
    its dayparting reason. *)
Lemma budget_sweep_counterexample :
  (let b := Brand.set_daily_spend 10000 sample_brand in
   let db := mkStore [b] [sample_campaign] [] [] in
   Brand.daily_spend b >= Brand.daily_budget b
   /\ option_map Brand.is_active
        (get_brand 1 (pause_campaigns_exceeding_budget db)) = Some true)
  /\ (let c := Campaign.set_pause_reason (Some DAILY_BUDGET_EXCEEDED)
                 (Campaign.set_status Campaign.PAUSED sample_campaign) in
      Campaign.can_resume c = true
      /\ get_campaign 1 (pause_campaigns_exceeding_budget (sample_store c))
         = Some c)
  /\ (let c := Campaign.set_daily_spend 5000
                 (Campaign.set_pause_reason (Some OUTSIDE_DAYPARTING_HOURS)
                    (Campaign.set_status Campaign.PAUSED sample_campaign)) in
      Campaign.daily_spend c >= Campaign.daily_budget c
      /\ get_campaign 1 (pause_campaigns_exceeding_budget (sample_store c))
         = Some c).
Proof. vm_compute. repeat split; discriminate. Qed.

(** C6, amended.  One run of the budget sweep, for every campaign that is
    Active with [is_active] true, pauses it with DAILY_BUDGET_EXCEEDED if
    [daily_spend >= daily_budget] (checked first), else pauses it with
    MONTHLY_BUDGET_EXCEEDED if [monthly_spend >= monthly_budget], and
    otherwise leaves it as it is; it leaves every other campaign, and
    every brand, spend and schedule, as they are. *)
Theorem budget_sweep_rule
    (db : Store) (Hpk : NoDup (map Campaign.id (campaigns db))) :
  brands (pause_campaigns_exceeding_budget db) = brands db
  /\ spends (pause_campaigns_exceeding_budget db) = spends db
  /\ dayparting_schedules (pause_campaigns_exceeding_budget db)
     = dayparting_schedules db
  /\ forall c, fresh c db ->
       let row := get_campaign (Campaign.id c)
                    (pause_campaigns_exceeding_budget db) in
       (Campaign.is_active c = true ->
        Campaign.status c = Campaign.ACTIVE ->
        (Campaign.daily_spend c >= Campaign.daily_budget c ->
         row = Some (Campaign.set_pause_reason (Some DAILY_BUDGET_EXCEEDED)
                       (Campaign.set_status Campaign.PAUSED c)))
        /\ (Campaign.daily_spend c < Campaign.daily_budget c ->
            Campaign.monthly_spend c >= Campaign.monthly_budget c ->
            row = Some (Campaign.set_pause_reason
                          (Some MONTHLY_BUDGET_EXCEEDED)
                          (Campaign.set_status Campaign.PAUSED c)))
        /\ (Campaign.daily_spend c < Campaign.daily_budget c ->
            Campaign.monthly_spend c < Campaign.monthly_budget c ->
            row = Some c))
       /\ (Campaign.is_active c = false
           \/ Campaign.status c <> Campaign.ACTIVE ->
           row = Some c).
Proof.
  rewrite pause_campaigns_exceeding_budget_rows by assumption.
  repeat (split; [reflexivity|]).
  intros c Hin row. subst row.
  rewrite <- pause_campaigns_exceeding_budget_rows by assumption.
  rewrite budget_sweep_get by assumption.
  rewrite fresh_get_campaign by assumption. simpl.
  destruct (budget_sweep_row_spec c) as [Hsel Hnot].
  split.
  - intros Ha Hs.
    assert (S : selected_for_budget c = true)
      by (unfold selected_for_budget; now rewrite Ha, Hs).
    destruct (Hsel S) as [H1 [H2 H3]].
    split; [|split]; intros; f_equal; auto.
  - intros H. f_equal. apply Hnot. unfold selected_for_budget.
    destruct H as [H|H]; [now rewrite H|].
    destruct (Campaign.status c); try contradiction;
      now rewrite andb_false_r.
Qed.

Lemma budget_sweep_rule_witness :
  let c := Campaign.set_daily_spend 5000 sample_campaign in
  NoDup (map Campaign.id (campaigns (sample_store c)))
  /\ fresh c (sample_store c)
  /\ Campaign.is_active c = true
  /\ Campaign.status c = Campaign.ACTIVE
  /\ Campaign.daily_spend c >= Campaign.daily_budget c
  /\ get_campaign 1 (pause_campaigns_exceeding_budget (sample_store c))
     = Some (Campaign.set_pause_reason (Some DAILY_BUDGET_EXCEEDED)
               (Campaign.set_status Campaign.PAUSED c)).
Proof.
  intro c.
  assert (Hnd : NoDup (map Campaign.id (campaigns (sample_store c))))
    by (repeat constructor; simpl; tauto).
  assert (Hf : fresh c (sample_store c)) by (left; reflexivity).
  assert (Hge : Campaign.daily_spend c >= Campaign.daily_budget c)
    by (vm_compute; discriminate).
  repeat (split; [first [exact Hnd | exact Hf | exact Hge | reflexivity]|]).
  exact (proj1 (proj1 (proj2 (proj2 (proj2
           (budget_sweep_rule (sample_store c) Hnd))) c Hf)
           eq_refl eq_refl) Hge).
Defined.

Lemma budget_sweep_row_idempotent (c : Campaign.t) :
  budget_sweep_row (budget_sweep_row c) = budget_sweep_row c.
Proof.
  destruct (budget_sweep_row_spec c) as [Hsel Hnot].
  destruct (selected_for_budget c) eqn:S.
  - destruct (Hsel eq_refl) as [H1 [H2 H3]].
    destruct (Z_lt_ge_dec (Campaign.daily_spend c) (Campaign.daily_budget c))
      as [Hd|Hd].
    + destruct (Z_lt_ge_dec (Campaign.monthly_spend c)
                  (Campaign.monthly_budget c)) as [Hm|Hm].
      * now rewrite !(H3 Hd Hm).
      * rewrite (H2 Hd Hm).
        apply budget_sweep_row_spec. unfold selected_for_budget. simpl.
        apply andb_false_r.
    + rewrite (H1 Hd).
      apply budget_sweep_row_spec. unfold selected_for_budget. simpl.
      apply andb_false_r.
  - now rewrite !(Hnot eq_refl).
Qed.

(** C8. The budget sweep is idempotent: on every database, running it a
    second time right after the first leaves the database as the first
    run left it. *)
Theorem pause_campaigns_exceeding_budget_idempotent
    (db : Store) (Hpk : NoDup (map Campaign.id (campaigns db))) :
  pause_campaigns_exceeding_budget (pause_campaigns_exceeding_budget db)
  = pause_campaigns_exceeding_budget db.
Proof.
  rewrite (pause_campaigns_exceeding_budget_rows db Hpk).
  rewrite pause_campaigns_exceeding_budget_rows.
  - simpl. unfold set_campaigns. simpl. f_equal.
    rewrite map_map. apply map_ext. apply budget_sweep_row_idempotent.
  - simpl. rewrite map_ids_preserved; [assumption|].
    apply budget_sweep_row_keeps.
Qed.

Lemma pause_campaigns_exceeding_budget_idempotent_witness :
  let c := Campaign.set_daily_spend 5000 sample_campaign in
  NoDup (map Campaign.id (campaigns (sample_store c)))
  /\ pause_campaigns_exceeding_budget
       (pause_campaigns_exceeding_budget (sample_store c))
     = pause_campaigns_exceeding_budget (sample_store c).
Proof.
  intro c.
  assert (Hnd : NoDup (map Campaign.id (campaigns (sample_store c))))
    by (repeat constructor; simpl; tauto).
  split; [exact Hnd|].
  exact (pause_campaigns_exceeding_budget_idempotent (sample_store c) Hnd).
Defined.

(** ** The dayparting sweep *)

Lemma dayparting_get (clock : Datetime.t) (db : Store) (pk : nat) :
  NoDup (map Campaign.id (campaigns db)) ->
  get_campaign pk (enforce_dayparting clock db)
  = option_map (dayparting_row clock (dayparting_schedules db))
      (get_campaign pk db).
Proof.
  intro Hnd. rewrite enforce_dayparting_rows by assumption.
  apply get_campaign_map. apply dayparting_row_keeps.
Qed.

Lemma dayparting_row_spec (now : Datetime.t)
    (sch : list DaypartingSchedule.t) (c : Campaign.t) :
  (Campaign.is_active c = false
   \/ DaypartingSchedule.exists_ (Campaign.id c) sch = false ->
   dayparting_row now sch c = c)
  /\ (Campaign.is_active c = true ->
      DaypartingSchedule.exists_ (Campaign.id c) sch = true ->
      (Campaign.is_within_dayparting c (Some now) now sch = false ->
       dayparting_row now sch c
       = if Campaign.Status_eqb (Campaign.status c) Campaign.PAUSED
            && reason_eqb (Campaign.pause_reason c)
                 (Some OUTSIDE_DAYPARTING_HOURS)
         then c
         else Campaign.set_pause_reason (Some OUTSIDE_DAYPARTING_HOURS)
                (Campaign.set_status Campaign.PAUSED c))
      /\ (Campaign.is_within_dayparting c (Some now) now sch = true ->
          dayparting_row now sch c
          = if Campaign.Status_eqb (Campaign.status c) Campaign.PAUSED
               && reason_eqb (Campaign.pause_reason c)
                    (Some OUTSIDE_DAYPARTING_HOURS)
               && Campaign.can_resume c
            then Campaign.set_pause_reason None
                   (Campaign.set_status Campaign.ACTIVE c)
            else c)).
Proof.
  unfold dayparting_row. split.
  - intros [H|H]; rewrite H; [reflexivity|].
    now destruct (Campaign.is_active c).
  - intros Ha He. rewrite Ha, He. simpl. split; intro Hw; rewrite Hw; simpl.
    + now destruct (Campaign.Status_eqb _ _), (reason_eqb _ _).
    + reflexivity.
Qed.

(** C9. A campaign with no DaypartingSchedule row is left exactly as it
    is by the dayparting sweep, whatever the day and the hour, run once or
    any number of times; in particular its status and its pause reason
    never change. *)
Theorem dayparting_skips_unscheduled
    (db : Store) (c : Campaign.t)
    (Hpk : NoDup (map Campaign.id (campaigns db))) (Hfresh : fresh c db)
    (Hnone : DaypartingSchedule.related (Campaign.id c)
               (dayparting_schedules db) = []) :
  (forall clock,
      get_campaign (Campaign.id c) (enforce_dayparting clock db) = Some c)
  /\ (forall clocks,
        get_campaign (Campaign.id c)
          (fold_left (fun d clock => enforce_dayparting clock d) clocks db)
        = Some c).
Proof.
  assert (One : forall d clock,
             NoDup (map Campaign.id (campaigns d)) -> fresh c d ->
             dayparting_schedules d = dayparting_schedules db ->
             get_campaign (Campaign.id c) (enforce_dayparting clock d)
             = Some c).
  { intros d clock Hnd Hin Hs. rewrite dayparting_get by assumption.
    rewrite fresh_get_campaign by assumption. simpl. f_equal.
    apply dayparting_row_spec. right.
    unfold DaypartingSchedule.exists_. now rewrite Hs, Hnone. }
  split; [intro clock; now apply One|].
  intro clocks. revert db Hpk Hfresh Hnone One.
  induction clocks as [|clock clocks IH]; intros db Hpk Hfresh Hnone One.
  - simpl. now apply fresh_get_campaign.
  - simpl. pose proof (One db clock Hpk Hfresh eq_refl) as H1.
    assert (Hs : dayparting_schedules (enforce_dayparting clock db)
                 = dayparting_schedules db)
      by (now rewrite enforce_dayparting_rows).
    apply IH.
    + rewrite enforce_dayparting_rows by assumption. simpl.
      rewrite map_ids_preserved; [assumption|].
      apply dayparting_row_keeps.
    + now apply get_campaign_fresh in H1.
    + now rewrite Hs.
    + intros d clk Hnd Hin Hd. apply One; [assumption..|]. congruence.
Qed.

Lemma dayparting_skips_unscheduled_witness :
  let db := sample_store sample_campaign in
  NoDup (map Campaign.id (campaigns db))
  /\ fresh sample_campaign db
  /\ DaypartingSchedule.related (Campaign.id sample_campaign)
       (dayparting_schedules db) = []
  /\ get_campaign 1 (enforce_dayparting monday_evening db)
     = Some sample_campaign.
Proof.
  intro db.
  assert (Hnd : NoDup (map Campaign.id (campaigns db)))
    by (repeat constructor; simpl; tauto).
  assert (Hf : fresh sample_campaign db) by (left; reflexivity).
  assert (Hn : DaypartingSchedule.related (Campaign.id sample_campaign)
                 (dayparting_schedules db) = []) by reflexivity.
  split; [exact Hnd|]. split; [exact Hf|]. split; [exact Hn|].
  exact (proj1 (dayparting_skips_unscheduled db sample_campaign Hnd Hf Hn)
           monday_evening).
Defined.

(** C4, as stated, fails: a campaign paused for its daily budget whose
    [is_active] flag is true, that has a schedule and is outside it, has
    its pause reason overwritten by the dayparting sweep. *)
Lemma dayparting_overwrites_budget_reason :
  let c := Campaign.set_pause_reason (Some DAILY_BUDGET_EXCEEDED)
             (Campaign.set_status Campaign.PAUSED
                (Campaign.set_daily_spend 5000 sample_campaign)) in
  let db := sample_store_with_schedule c in
  Campaign.status c = Campaign.PAUSED
  /\ Campaign.pause_reason c = Some DAILY_BUDGET_EXCEEDED
  /\ option_map Campaign.pause_reason
       (get_campaign 1 (enforce_dayparting monday_evening db))
     = Some (Some OUTSIDE_DAYPARTING_HOURS).
Proof. vm_compute. repeat split. Qed.

(** C4, amended.  For a campaign paused with DAILY_BUDGET_EXCEEDED or
    MONTHLY_BUDGET_EXCEEDED the dayparting sweep never changes the status,
    which stays Paused.  It leaves the pause reason as well when the
    campaign's [is_active] flag is false, or it has no schedule, or the
    current time is within its dayparting; when the flag is true, a
    schedule exists and the current time is outside its dayparting, the
    sweep replaces the reason by OUTSIDE_DAYPARTING_HOURS. *)
Theorem dayparting_on_budget_paused
    (db : Store) (c : Campaign.t) (clock : Datetime.t)
    (Hpk : NoDup (map Campaign.id (campaigns db))) (Hfresh : fresh c db)
    (Hpaused : Campaign.status c = Campaign.PAUSED)
    (Hreason : Campaign.pause_reason c = Some DAILY_BUDGET_EXCEEDED
               \/ Campaign.pause_reason c = Some MONTHLY_BUDGET_EXCEEDED) :
  exists r,
    get_campaign (Campaign.id c) (enforce_dayparting clock db) = Some r
    /\ Campaign.status r = Campaign.PAUSED
    /\ (Campaign.is_active c = false
        \/ DaypartingSchedule.exists_ (Campaign.id c)
             (dayparting_schedules db) = false
        \/ Campaign.is_within_dayparting c (Some clock) clock
             (dayparting_schedules db) = true ->
        r = c)
    /\ (Campaign.is_active c = true ->
        DaypartingSchedule.exists_ (Campaign.id c)
          (dayparting_schedules db) = true ->
        Campaign.is_within_dayparting c (Some clock) clock
          (dayparting_schedules db) = false ->
        r = Campaign.set_pause_reason (Some OUTSIDE_DAYPARTING_HOURS) c).
Proof.
  eexists. split.
  { rewrite dayparting_get by assumption.
    rewrite fresh_get_campaign by assumption. reflexivity. }
  assert (Hne : reason_eqb (Campaign.pause_reason c)
                  (Some OUTSIDE_DAYPARTING_HOURS) = false)
    by (destruct Hreason as [-> | ->]; reflexivity).
  destruct (dayparting_row_spec clock (dayparting_schedules db) c)
    as [Hskip Hrun].
  assert (Hin : Campaign.is_active c = true ->
                DaypartingSchedule.exists_ (Campaign.id c)
                  (dayparting_schedules db) = true ->
                Campaign.is_within_dayparting c (Some clock) clock
                  (dayparting_schedules db) = true ->
                dayparting_row clock (dayparting_schedules db) c = c).
  { intros Ha He Hw. destruct (Hrun Ha He) as [_ H]. rewrite (H Hw).
    now rewrite Hne, andb_false_r. }
  assert (Hout : Campaign.is_active c = true ->
                 DaypartingSchedule.exists_ (Campaign.id c)
                   (dayparting_schedules db) = true ->
                 Campaign.is_within_dayparting c (Some clock) clock
                   (dayparting_schedules db) = false ->
                 dayparting_row clock (dayparting_schedules db) c
                 = Campaign.set_pause_reason (Some OUTSIDE_DAYPARTING_HOURS)
                     c).
  { intros Ha He Hw. destruct (Hrun Ha He) as [H _]. rewrite (H Hw).
    rewrite Hne, andb_false_r. clear - Hpaused.
    destruct c; simpl in *; now subst. }
  split; [|split].
  - destruct (Campaign.is_active c) eqn:Ha;
      [|now rewrite Hskip by (now left)].
    destruct (DaypartingSchedule.exists_ (Campaign.id c)
                (dayparting_schedules db)) eqn:He;
      [|now rewrite Hskip by (now right)].
    destruct (Campaign.is_within_dayparting c (Some clock) clock
                (dayparting_schedules db)) eqn:Hw.
    + now rewrite Hin.
    + now rewrite Hout.
  - intros [H|[H|H]]; [apply Hskip; now left | apply Hskip; now right|].
    destruct (Campaign.is_active c) eqn:Ha; [|apply Hskip; now left].
    destruct (DaypartingSchedule.exists_ (Campaign.id c)
                (dayparting_schedules db)) eqn:He;
      [|apply Hskip; now right].
    now apply Hin.
  - exact Hout.
Qed.

Lemma dayparting_on_budget_paused_witness :
  let c := Campaign.set_pause_reason (Some DAILY_BUDGET_EXCEEDED)
             (Campaign.set_status Campaign.PAUSED
                (Campaign.set_daily_spend 5000 sample_campaign)) in
  let db := sample_store_with_schedule c in
  NoDup (map Campaign.id (campaigns db))
  /\ fresh c db
  /\ Campaign.status c = Campaign.PAUSED
  /\ (Campaign.pause_reason c = Some DAILY_BUDGET_EXCEEDED
      \/ Campaign.pause_reason c = Some MONTHLY_BUDGET_EXCEEDED)
  /\ exists r,
       get_campaign 1 (enforce_dayparting monday_afternoon db) = Some r
       /\ Campaign.status r = Campaign.PAUSED.
Proof.
  intros c db.
  assert (Hnd : NoDup (map Campaign.id (campaigns db)))
    by (repeat constructor; simpl; tauto).
  assert (Hf : fresh c db) by (left; reflexivity).
  assert (Hp : Campaign.status c = Campaign.PAUSED) by reflexivity.
  assert (Hr : Campaign.pause_reason c = Some DAILY_BUDGET_EXCEEDED
               \/ Campaign.pause_reason c = Some MONTHLY_BUDGET_EXCEEDED)
    by (left; reflexivity).
  split; [exact Hnd|]. split; [exact Hf|]. split; [exact Hp|].
  split; [exact Hr|].
  destruct (dayparting_on_budget_paused db c monday_afternoon Hnd Hf Hp Hr)
    as [r [Hget [Hs _]]].
  exists r. split; [exact Hget | exact Hs].
Defined.

(** ** The Completed status *)

Lemma event_row_completed (e : Event) (sch : list DaypartingSchedule.t)
    (pk : nat) (c : Campaign.t) :
  Campaign.status (event_row e sch pk c) = Campaign.COMPLETED ->
  Campaign.status c = Campaign.COMPLETED.
Proof.
  destruct e as [pk' a clk| | |clk| |]; simpl.
  - destruct (Nat.eqb pk pk'); [|tauto].
    unfold spend_row. cbv zeta. row_cases; simpl; congruence.
  - unfold budget_sweep_row, Campaign.check_budget_limits. cbv zeta.
    row_cases; simpl; congruence.
  - unfold reactivation_row. row_cases; simpl; congruence.
  - unfold dayparting_row. row_cases; simpl; congruence.
  - tauto.
  - tauto.
Qed.

Lemma reactivation_get (db : Store) (pk : nat) :
  NoDup (map Campaign.id (campaigns db)) ->
  get_campaign pk (reactivate_eligible_campaigns db)
  = option_map reactivation_row (get_campaign pk db).
Proof.
  intro Hnd. rewrite reactivate_eligible_campaigns_rows by assumption.
  apply get_campaign_map. apply reactivation_row_keeps.
Qed.

(** C5, as stated, fails: recording a spend that takes a Completed
    campaign above its daily budget pauses it, and so does the dayparting
    sweep when the campaign has a schedule and is outside it. *)
Lemma completed_is_not_terminal :
  let c := Campaign.set_status Campaign.COMPLETED sample_campaign in
  Campaign.status c = Campaign.COMPLETED
  /\ option_map Campaign.status
       (get_campaign 1
          (snd (process_ad_spend c 6000 monday_afternoon (sample_store c))))
     = Some Campaign.PAUSED
  /\ option_map Campaign.status
       (get_campaign 1
          (enforce_dayparting monday_evening (sample_store_with_schedule c)))
     = Some Campaign.PAUSED.
Proof. vm_compute. repeat split. Qed.

(** C5, amended.  No operation ever sets a campaign's status to
    Completed, and the budget sweep, the reactivation sweep and the two
    resets leave the status of a Completed campaign alone.  Spend
    recording pauses a Completed campaign when the updated [daily_spend]
    or [monthly_spend] is strictly above its budget, and keeps it
    Completed otherwise; the dayparting sweep pauses a Completed campaign
    whose [is_active] flag is true, that has a schedule and is outside its
    dayparting, and leaves it alone otherwise. *)
Theorem completed_status
    (db : Store) (c : Campaign.t)
    (Hpk : NoDup (map Campaign.id (campaigns db))) (Hfresh : fresh c db)
    (Hcompleted : Campaign.status c = Campaign.COMPLETED) :
  get_campaign (Campaign.id c) (pause_campaigns_exceeding_budget db) = Some c
  /\ get_campaign (Campaign.id c) (reactivate_eligible_campaigns db) = Some c
  /\ get_campaign (Campaign.id c) (reset_daily_budgets db)
     = Some (Campaign.set_daily_spend 0 c)
  /\ get_campaign (Campaign.id c) (reset_monthly_budgets db)
     = Some (Campaign.set_monthly_spend 0 c)
  /\ (forall amount clock,
        let c' := fst (process_ad_spend c amount clock db) in
        get_campaign (Campaign.id c) (snd (process_ad_spend c amount clock db))
        = Some c'
        /\ (Campaign.daily_spend c + amount > Campaign.daily_budget c
            \/ Campaign.monthly_spend c + amount > Campaign.monthly_budget c ->
            Campaign.status c' = Campaign.PAUSED)
        /\ (Campaign.daily_spend c + amount <= Campaign.daily_budget c ->
            Campaign.monthly_spend c + amount <= Campaign.monthly_budget c ->
            Campaign.status c' = Campaign.COMPLETED))
  /\ (forall clock, exists r,
        get_campaign (Campaign.id c) (enforce_dayparting clock db) = Some r
        /\ (Campaign.is_active c = true ->
            DaypartingSchedule.exists_ (Campaign.id c)
              (dayparting_schedules db) = true ->
            Campaign.is_within_dayparting c (Some clock) clock
              (dayparting_schedules db) = false ->
            Campaign.status r = Campaign.PAUSED
            /\ Campaign.pause_reason r = Some OUTSIDE_DAYPARTING_HOURS)
        /\ (Campaign.is_active c = false
            \/ DaypartingSchedule.exists_ (Campaign.id c)
                 (dayparting_schedules db) = false
            \/ Campaign.is_within_dayparting c (Some clock) clock
                 (dayparting_schedules db) = true ->
            r = c))
  /\ (forall e pk r,
        get_campaign pk (step db e) = Some r ->
        Campaign.status r = Campaign.COMPLETED ->
        exists r0, get_campaign pk db = Some r0
                   /\ Campaign.status r0 = Campaign.COMPLETED).
Proof.
  pose proof (fresh_get_campaign c db Hpk Hfresh) as Hget.
  split; [|split; [|split; [|split; [|split; [|split]]]]].
  - rewrite budget_sweep_get, Hget by assumption. simpl. f_equal.
    apply budget_sweep_row_spec. unfold selected_for_budget.
    rewrite Hcompleted. apply andb_false_r.
  - rewrite reactivation_get, Hget by assumption. simpl. f_equal.
    unfold reactivation_row. now rewrite Hcompleted.
  - destruct (step_row ResetDaily db (Campaign.id c) Hpk) as [H _].
    simpl in H. now rewrite H, Hget.
  - destruct (step_row ResetMonthly db (Campaign.id c) Hpk) as [H _].
    simpl in H. now rewrite H, Hget.
  - intros amount clock c'. subst c'. rewrite process_ad_spend_instance.
    destruct (process_ad_spend_row c amount clock db Hpk Hfresh) as [Hr _].
    destruct (spend_row_spec amount c)
      as [_ [_ [_ [Hd [Hm [P1 [P2 P3]]]]]]].
    split; [exact Hr|]. split.
    + intros [H|H].
      * apply P1. lia.
      * destruct (Z_le_gt_dec (Campaign.daily_spend (spend_row amount c))
                    (Campaign.daily_budget c)) as [Hle|Hgt].
        -- apply P2; lia.
        -- now apply P1.
    + intros H1 H2. rewrite <- Hcompleted. apply P3; lia.
  - intro clock. eexists. split.
    { rewrite dayparting_get, Hget by assumption. reflexivity. }
    destruct (dayparting_row_spec clock (dayparting_schedules db) c)
      as [Hskip Hrun].
    split.
    + intros Ha He Hw. destruct (Hrun Ha He) as [H _]. rewrite (H Hw).
      rewrite Hcompleted. simpl. split; reflexivity.
    + intros [H|[H|H]]; [apply Hskip; now left | apply Hskip; now right|].
      destruct (Campaign.is_active c) eqn:Ha; [|apply Hskip; now left].
      destruct (DaypartingSchedule.exists_ (Campaign.id c)
                  (dayparting_schedules db)) eqn:He;
        [|apply Hskip; now right].
      destruct (Hrun eq_refl eq_refl) as [_ H']. rewrite (H' H).
      now rewrite Hcompleted.
  - intros e pk r Hr Hs.
    destruct (step_row e db pk Hpk) as [H _]. rewrite H in Hr.
    destruct (get_campaign pk db) as [r0|]; [|discriminate].
    simpl in Hr. injection Hr as <-.
    exists r0. split; [reflexivity|]. now apply event_row_completed in Hs.
Qed.

Lemma completed_status_witness :
  let c := Campaign.set_status Campaign.COMPLETED
             (Campaign.set_daily_spend 5000 sample_campaign) in
  let db := sample_store c in
  NoDup (map Campaign.id (campaigns db))
  /\ fresh c db
  /\ Campaign.status c = Campaign.COMPLETED
  /\ get_campaign 1 (pause_campaigns_exceeding_budget db) = Some c.
Proof.
  intros c db.
  assert (Hnd : NoDup (map Campaign.id (campaigns db)))
    by (repeat constructor; simpl; tauto).
  assert (Hf : fresh c db) by (left; reflexivity).
  assert (Hc : Campaign.status c = Campaign.COMPLETED) by reflexivity.
  split; [exact Hnd|]. split; [exact Hf|]. split; [exact Hc|].
  exact (proj1 (completed_status db c Hnd Hf Hc)).
Defined.

(** ** The [is_active] flag *)

Lemma process_ad_spend_other (c : Campaign.t) (amount : Z)
    (clock : Datetime.t) (db : Store) (pk : nat) :
  Campaign.id c <> pk ->
  let db' := snd (process_ad_spend c amount clock db) in
  get_campaign pk db' = get_campaign pk db
  /\ spends_of pk db' = spends_of pk db
  /\ dayparting_schedules db' = dayparting_schedules db.
Proof.
  intros Hne db'. subst db'.
  destruct (process_ad_spend_writes c amount clock db) as [f [Hf Hrows]].
  destruct (process_ad_spend_frame c amount clock db) as [Hs [_ Hsch]].
  split; [|split; [|exact Hsch]].
  - unfold get_campaign. rewrite Hrows.
    apply find_update_row_other; [congruence | exact Hf].
  - unfold spends_of at 1. rewrite Hs, spends_of_app. simpl.
    destruct (Nat.eqb_spec (Campaign.id c) pk); [contradiction|].
    apply app_nil_r.
Qed.

(** The simulation driver touches neither the row nor the spends of a
    campaign that is not in its query. *)
Lemma simulate_loop_frame (now : Datetime.t) (draws : nat -> Z) (pk : nat)
    (q : list Campaign.t) :
  (forall c, In c q -> Campaign.id c <> pk) ->
  forall k db,
    get_campaign pk (simulate_loop now q draws k db) = get_campaign pk db
    /\ spends_of pk (simulate_loop now q draws k db) = spends_of pk db.
Proof.
  induction q as [|c q IH]; intros Hq k db; simpl; [tauto|].
  assert (Hq' : forall x, In x q -> Campaign.id x <> pk)
    by (intros x Hx; apply Hq; now right).
  destruct (negb (DaypartingSchedule.exists_ _ _)); [now apply IH|].
  destruct (negb (Campaign.is_within_dayparting _ _ _ _)); [now apply IH|].
  destruct (IH Hq' (S k) (snd (process_ad_spend c (draws k) now db)))
    as [H1 H2].
  destruct (process_ad_spend_other c (draws k) now db pk) as [G1 [G2 _]];
    [apply Hq; now left|].
  split; congruence.
Qed.

Lemma simulate_skips_unselected (clock : Datetime.t) (draws : nat -> Z)
    (db : Store) (c : Campaign.t) :
  NoDup (map Campaign.id (campaigns db)) -> fresh c db ->
  selected_for_budget c = false ->
  get_campaign (Campaign.id c) (simulate_ad_spend clock draws db) = Some c
  /\ spends_of (Campaign.id c) (simulate_ad_spend clock draws db)
     = spends_of (Campaign.id c) db.
Proof.
  intros Hnd Hin Hsel. unfold simulate_ad_spend. cbv zeta.
  rewrite <- (fresh_get_campaign c db Hnd Hin).
  apply simulate_loop_frame.
  intros x Hx E. apply filter_In in Hx. destruct Hx as [Hx Hp].
  rewrite (pk_unique (campaigns db) x c Hnd Hx Hin E) in Hp.
  unfold selected_for_budget in Hsel. congruence.
Qed.

Lemma event_row_inactive (e : Event) (sch : list DaypartingSchedule.t)
    (pk : nat) (c : Campaign.t) :
  Campaign.is_active c = false ->
  Campaign.is_active (event_row e sch pk c) = false.
Proof.
  intro Ha. destruct e as [pk' a clk| | |clk| |]; simpl.
  - destruct (Nat.eqb pk pk'); [|exact Ha].
    unfold spend_row. cbv zeta. row_cases. exact Ha.
  - now rewrite (proj2 (proj2 (proj2 (proj2 (proj2
                   (budget_sweep_row_keeps c)))))).
  - now rewrite (proj2 (proj2 (proj2 (proj2 (proj2
                   (reactivation_row_keeps c)))))).
  - now rewrite (proj2 (proj2 (proj2 (proj2 (proj2
                   (dayparting_row_keeps clk sch c)))))).
  - exact Ha.
  - exact Ha.
Qed.

Lemma run_inactive (history : list Event) :
  forall (db : Store) (pk : nat) (c : Campaign.t),
  NoDup (map Campaign.id (campaigns db)) ->
  get_campaign pk db = Some c -> Campaign.is_active c = false ->
  exists r, get_campaign pk (run history db) = Some r
            /\ Campaign.is_active r = false.
Proof.
  induction history as [|e h IH]; intros db pk c Hnd Hc Ha.
  - exists c. tauto.
  - destruct (step_row e db pk Hnd) as [Hget [Hids _]].
    rewrite Hc in Hget. simpl in Hget.
    change (run (e :: h) db) with (run h (step db e)).
    apply (IH (step db e) pk (event_row e (dayparting_schedules db) pk c));
      [now rewrite Hids | exact Hget|].
    now apply event_row_inactive.
Qed.

(** C10. The reactivation sweep never writes [is_active]: the row it
    leaves has the flag the row had.  The recording path, when it pauses,
    sets the flag to false; a later reactivation sweep that finds such a
    campaign Paused with [can_resume] true makes it Active and clears the
    pause reason, and the flag stays false.  A campaign whose flag is
    false is skipped by the dayparting sweep and by the simulation driver
    (neither its row nor its spends change), and no entry point ever sets
    the flag back, so it is skipped from then on. *)
Theorem reactivation_keeps_is_active
    (db : Store) (c : Campaign.t)
    (Hpk : NoDup (map Campaign.id (campaigns db))) (Hfresh : fresh c db) :
  (exists r,
      get_campaign (Campaign.id c) (reactivate_eligible_campaigns db) = Some r
      /\ Campaign.is_active r = Campaign.is_active c)
  /\ (forall amount clock,
        Campaign.daily_spend c + amount > Campaign.daily_budget c
        \/ Campaign.monthly_spend c + amount > Campaign.monthly_budget c ->
        let c' := fst (process_ad_spend c amount clock db) in
        get_campaign (Campaign.id c) (snd (process_ad_spend c amount clock db))
        = Some c'
        /\ Campaign.status c' = Campaign.PAUSED
        /\ Campaign.is_active c' = false)
  /\ (Campaign.is_active c = false ->
      Campaign.status c = Campaign.PAUSED ->
      Campaign.can_resume c = true ->
      exists r,
        get_campaign (Campaign.id c) (reactivate_eligible_campaigns db)
        = Some r
        /\ Campaign.status r = Campaign.ACTIVE
        /\ Campaign.pause_reason r = None
        /\ Campaign.is_active r = false)
  /\ (Campaign.is_active c = false ->
      forall clock draws,
        get_campaign (Campaign.id c) (enforce_dayparting clock db) = Some c
        /\ get_campaign (Campaign.id c) (simulate_ad_spend clock draws db)
           = Some c
        /\ spends_of (Campaign.id c) (simulate_ad_spend clock draws db)
           = spends_of (Campaign.id c) db)
  /\ (Campaign.is_active c = false ->
      forall history, exists r,
        get_campaign (Campaign.id c) (run history db) = Some r
        /\ Campaign.is_active r = false).
Proof.
  pose proof (fresh_get_campaign c db Hpk Hfresh) as Hget.
  split; [|split; [|split; [|split]]].
  - eexists. split.
    + rewrite reactivation_get, Hget by assumption. reflexivity.
    + apply reactivation_row_keeps.
  - intros amount clock Hex c'. subst c'. rewrite process_ad_spend_instance.
    destruct (process_ad_spend_row c amount clock db Hpk Hfresh) as [Hr _].
    destruct (spend_row_spec amount c)
      as [_ [_ [_ [Hd [Hm [P1 [P2 _]]]]]]].
    split; [exact Hr|].
    destruct (Z_le_gt_dec (Campaign.daily_spend (spend_row amount c))
                (Campaign.daily_budget c)) as [Hle|Hgt].
    + assert (Hmon : Campaign.monthly_spend (spend_row amount c)
                     > Campaign.monthly_budget c) by lia.
      destruct (P2 Hle Hmon) as [? [? ?]]. tauto.
    + destruct (P1 Hgt) as [? [? ?]]. tauto.
  - intros Ha Hs Hcan. eexists. split.
    + rewrite reactivation_get, Hget by assumption. reflexivity.
    + unfold reactivation_row. rewrite Hs, Hcan. simpl. tauto.
  - intros Ha clock draws. split; [|].
    + rewrite dayparting_get, Hget by assumption. simpl. f_equal.
      apply dayparting_row_spec. now left.
    + apply simulate_skips_unselected; try assumption.
      unfold selected_for_budget. now rewrite Ha.
  - intros Ha history. now apply (run_inactive history db _ c).
Qed.

Lemma reactivation_keeps_is_active_witness :
  let c := Campaign.set_is_active false
             (Campaign.set_pause_reason (Some DAILY_BUDGET_EXCEEDED)
                (Campaign.set_status Campaign.PAUSED sample_campaign)) in
  let db := sample_store_with_schedule c in
  NoDup (map Campaign.id (campaigns db))
  /\ fresh c db
  /\ Campaign.is_active c = false
  /\ Campaign.status c = Campaign.PAUSED
  /\ Campaign.can_resume c = true
  /\ exists r,
       get_campaign 1 (reactivate_eligible_campaigns db) = Some r
       /\ Campaign.status r = Campaign.ACTIVE
       /\ Campaign.pause_reason r = None
       /\ Campaign.is_active r = false.
Proof.
  intros c db.
  assert (Hnd : NoDup (map Campaign.id (campaigns db)))
    by (repeat constructor; simpl; tauto).
  assert (Hf : fresh c db) by (left; reflexivity).
  split; [exact Hnd|]. split; [exact Hf|].
  repeat (split; [reflexivity|]).
  exact (proj1 (proj2 (proj2 (reactivation_keeps_is_active db c Hnd Hf)))
           eq_refl eq_refl eq_refl).
Defined.

(** * Further properties of the code *)

(** ** Windows of hours *)

Lemma in_hours_of_day (h : Z) : 0 <= h < 24 -> In h hours_of_day.
Proof.
  intro H. unfold hours_of_day. apply in_map_iff.
  exists (Z.to_nat h). split; [lia | apply in_seq; lia].
Qed.

(** X1. For [start <> end] the window from [start] to [end] and the
    window from [end] to [start] are complementary: every hour is in
    exactly one of them. *)
Theorem is_hour_in_range_complement (start end_ hour : Z)
    (Hne : start <> end_) :
  is_hour_in_range start end_ hour = negb (is_hour_in_range end_ start hour).
Proof.
  unfold is_hour_in_range.
  destruct (Z.ltb_spec start end_), (Z.ltb_spec end_ start);
    destruct (Z.leb_spec start hour), (Z.ltb_spec hour end_),
      (Z.geb_spec hour start), (Z.leb_spec end_ hour),
      (Z.ltb_spec hour start), (Z.geb_spec hour end_);
    simpl; try reflexivity; lia.
Qed.

Lemma is_hour_in_range_complement_witness :
  22 <> 2
  /\ is_hour_in_range 22 2 23 = negb (is_hour_in_range 2 22 23).
Proof.
  assert (Hne : 22 <> 2) by lia.
  split; [exact Hne|].
  exact (is_hour_in_range_complement 22 2 23 Hne).
Defined.

(** X2. For [start] and [end] among the hours 0 to 23, the window
    contains [(end - start) mod 24] hours of the day when
    [start <> end], and all 24 hours when [start = end]. *)
Theorem window_length_spec (start end_ : Z)
    (Hs : 0 <= start < 24) (He : 0 <= end_ < 24) :
  window_length start end_
  = if start =? end_ then 24 else (end_ - start) mod 24.
Proof.
  assert (G : forallb
                (fun s =>
                   forallb
                     (fun e => window_length s e
                               =? (if s =? e then 24 else (e - s) mod 24))
                     hours_of_day) hours_of_day = true)
    by (vm_compute; reflexivity).
  rewrite forallb_forall in G.
  specialize (G start (in_hours_of_day start Hs)).
  rewrite forallb_forall in G.
  specialize (G end_ (in_hours_of_day end_ He)).
  now apply Z.eqb_eq in G.
Qed.

Lemma window_length_spec_witness :
  0 <= 22 < 24 /\ 0 <= 2 < 24 /\ window_length 22 2 = 4.
Proof.
  assert (Hs : 0 <= 22 < 24) by lia.
  assert (He : 0 <= 2 < 24) by lia.
  split; [exact Hs|]. split; [exact He|].
  exact (window_length_spec 22 2 Hs He).
Defined.

(** ** Dayparting of one campaign *)

Lemma within_loop_existsb (l : list DaypartingSchedule.t) (day hour : Z) :
  Campaign.within_loop l day hour
  = existsb (fun s => (DaypartingSchedule.day_of_week s =? day)
                      && is_hour_in_range (DaypartingSchedule.start_hour s)
                           (DaypartingSchedule.end_hour s) hour) l.
Proof.
  induction l as [|s l IH]; simpl; [reflexivity|].
  rewrite IH. destruct (DaypartingSchedule.day_of_week s =? day); simpl;
    [|reflexivity].
  now destruct (is_hour_in_range _ _ _).
Qed.

Lemma is_within_dayparting_existsb (c : Campaign.t) (now : option Datetime.t)
    (clock : Datetime.t) (sch : list DaypartingSchedule.t) :
  let n := match now with Some n => n | None => clock end in
  Campaign.is_within_dayparting c now clock sch
  = existsb (schedule_matches (Campaign.id c) (Datetime.weekday n)
               (Datetime.hour n)) sch.
Proof.
  unfold Campaign.is_within_dayparting, DaypartingSchedule.related.
  cbv zeta. rewrite within_loop_existsb.
  set (n := match now with Some n => n | None => clock end).
  induction sch as [|s sch IH]; simpl; [reflexivity|].
  unfold schedule_matches at 1.
  destruct (Nat.eqb (DaypartingSchedule.campaign s) (Campaign.id c)); simpl;
    [|exact IH].
  destruct (DaypartingSchedule.is_active s); simpl; [|exact IH].
  now rewrite IH.
Qed.

(** X3. A campaign is within its dayparting exactly when some schedule
    row of that campaign is active, is for the current week day and has
    the current hour in its window; the time is the [now] argument when
    one is given and the clock otherwise. *)
Theorem is_within_dayparting_iff (c : Campaign.t) (now : option Datetime.t)
    (clock : Datetime.t) (sch : list DaypartingSchedule.t) :
  let n := match now with Some n => n | None => clock end in
  Campaign.is_within_dayparting c now clock sch = true <->
  exists s, In s sch
            /\ DaypartingSchedule.campaign s = Campaign.id c
            /\ DaypartingSchedule.is_active s = true
            /\ DaypartingSchedule.day_of_week s = Datetime.weekday n
            /\ is_hour_in_range (DaypartingSchedule.start_hour s)
                 (DaypartingSchedule.end_hour s) (Datetime.hour n) = true.
Proof.
  intro n. subst n. rewrite is_within_dayparting_existsb. cbv zeta.
  rewrite existsb_exists. unfold schedule_matches.
  split; intros [s [Hin H]]; exists s; (split; [exact Hin|]).
  - rewrite !andb_true_iff in H. destruct H as [[[H1 H2] H3] H4].
    apply Nat.eqb_eq in H1. apply Z.eqb_eq in H3. tauto.
  - destruct H as [H1 [H2 [H3 H4]]].
    rewrite !andb_true_iff, Nat.eqb_eq, Z.eqb_eq. tauto.
Qed.

(** X4. Schedules that are switched off still opt a campaign into
    dayparting: a campaign with [is_active] true that has schedule rows,
    none of them active, is outside its dayparting at every time, so each
    run of the dayparting sweep leaves it Paused with
    OUTSIDE_DAYPARTING_HOURS. *)
Theorem dayparting_with_inactive_schedules
    (db : Store) (c : Campaign.t) (clock : Datetime.t)
    (Hpk : NoDup (map Campaign.id (campaigns db))) (Hfresh : fresh c db)
    (Hactive : Campaign.is_active c = true)
    (Hsome : DaypartingSchedule.exists_ (Campaign.id c)
               (dayparting_schedules db) = true)
    (Hoff : forall s, In s (dayparting_schedules db) ->
              DaypartingSchedule.campaign s = Campaign.id c ->
              DaypartingSchedule.is_active s = false) :
  Campaign.is_within_dayparting c (Some clock) clock (dayparting_schedules db)
  = false
  /\ exists r,
       get_campaign (Campaign.id c) (enforce_dayparting clock db) = Some r
       /\ Campaign.status r = Campaign.PAUSED
       /\ Campaign.pause_reason r = Some OUTSIDE_DAYPARTING_HOURS.
Proof.
  assert (Hw : Campaign.is_within_dayparting c (Some clock) clock
                 (dayparting_schedules db) = false).
  { destruct (Campaign.is_within_dayparting c (Some clock) clock
                (dayparting_schedules db)) eqn:E; [|reflexivity].
    rewrite is_within_dayparting_existsb in E. cbv zeta in E.
    apply existsb_exists in E. destruct E as [s [Hin H]].
    unfold schedule_matches in H. rewrite !andb_true_iff in H.
    destruct H as [[[Hc Ha] _] _]. apply Nat.eqb_eq in Hc.
    rewrite (Hoff s Hin Hc) in Ha. discriminate. }
  split; [exact Hw|]. eexists. split.
  { rewrite dayparting_get by assumption.
    rewrite fresh_get_campaign by assumption. reflexivity. }
  destruct (dayparting_row_spec clock (dayparting_schedules db) c)
    as [_ Hrun].
  destruct (Hrun Hactive Hsome) as [H _]. rewrite (H Hw).
  destruct (Campaign.Status_eqb (Campaign.status c) Campaign.PAUSED) eqn:Es;
    destruct (reason_eqb (Campaign.pause_reason c)
                (Some OUTSIDE_DAYPARTING_HOURS)) eqn:Er; simpl;
    try (split; reflexivity).
  apply Status_eqb_eq in Es. apply reason_eqb_eq in Er. tauto.
Qed.

Lemma dayparting_with_inactive_schedules_witness :
  let db := mkStore [sample_brand] [sample_campaign] []
              [DaypartingSchedule.mk 1 1 0 9 17 false] in
  NoDup (map Campaign.id (campaigns db))
  /\ fresh sample_campaign db
  /\ Campaign.is_active sample_campaign = true
  /\ DaypartingSchedule.exists_ (Campaign.id sample_campaign)
       (dayparting_schedules db) = true
  /\ (forall s, In s (dayparting_schedules db) ->
        DaypartingSchedule.campaign s = Campaign.id sample_campaign ->
        DaypartingSchedule.is_active s = false)
  /\ Campaign.is_within_dayparting sample_campaign (Some monday_afternoon)
       monday_afternoon (dayparting_schedules db) = false.
Proof.
  intro db.
  assert (Hnd : NoDup (map Campaign.id (campaigns db)))
    by (repeat constructor; simpl; tauto).
  assert (Hf : fresh sample_campaign db) by (left; reflexivity).
  assert (Ha : Campaign.is_active sample_campaign = true) by reflexivity.
  assert (He : DaypartingSchedule.exists_ (Campaign.id sample_campaign)
                 (dayparting_schedules db) = true) by reflexivity.
  assert (Ho : forall s, In s (dayparting_schedules db) ->
                 DaypartingSchedule.campaign s = Campaign.id sample_campaign ->
                 DaypartingSchedule.is_active s = false)
    by (intros s [<-|[]] _; reflexivity).
  repeat (split; [first [exact Hnd | exact Hf | exact Ha | exact He
                        | exact Ho]|]).
  exact (proj1 (dayparting_with_inactive_schedules db sample_campaign
                  monday_afternoon Hnd Hf Ha He Ho)).
Defined.

(** ** The budget check, called on one instance *)

(** X5. [Campaign.check_budget_limits] decides from the totals alone: an
    instance at or over a budget comes out Paused with the budget reason
    (daily first); an instance under both budgets that is Paused comes out
    Active with no reason, whatever its pause reason was (a dayparting
    pause included), and one that is not Paused is left as it is (so a
    Completed campaign stays Completed only while under budget).  The
    check never changes totals or budgets and is idempotent. *)
Theorem check_budget_limits_decides (c : Campaign.t)
    (rows : list Campaign.t) :
  let c' := fst (Campaign.check_budget_limits c rows) in
  (Campaign.can_resume c = false ->
   Campaign.status c' = Campaign.PAUSED
   /\ Campaign.pause_reason c'
      = Some (if Campaign.daily_spend c >=? Campaign.daily_budget c
              then DAILY_BUDGET_EXCEEDED else MONTHLY_BUDGET_EXCEEDED))
  /\ (Campaign.can_resume c = true ->
      Campaign.status c = Campaign.PAUSED ->
      c' = Campaign.set_pause_reason None
             (Campaign.set_status Campaign.ACTIVE c))
  /\ (Campaign.can_resume c = true ->
      Campaign.status c <> Campaign.PAUSED -> c' = c)
  /\ Campaign.daily_spend c' = Campaign.daily_spend c
  /\ Campaign.monthly_spend c' = Campaign.monthly_spend c
  /\ Campaign.daily_budget c' = Campaign.daily_budget c
  /\ Campaign.monthly_budget c' = Campaign.monthly_budget c
  /\ (forall rows', fst (Campaign.check_budget_limits c' rows') = c').
Proof.
  destruct (check_budget_limits_spec c rows) as [H1 [H2 H3]].
  cbv zeta in *. unfold Campaign.can_resume.
  destruct (Z.ltb_spec (Campaign.daily_spend c) (Campaign.daily_budget c))
    as [Hd|Hd];
    [destruct (Z.ltb_spec (Campaign.monthly_spend c)
                 (Campaign.monthly_budget c)) as [Hm|Hm]|].
  - rewrite (H3 Hd Hm). simpl.
    split; [discriminate|].
    destruct (Campaign.Status_eqb (Campaign.status c) Campaign.PAUSED) eqn:E.
    + apply Status_eqb_eq in E.
      split; [reflexivity|]. split; [congruence|].
      repeat (split; [reflexivity|]).
      intro rows'.
      destruct (check_budget_limits_spec
                  (Campaign.set_pause_reason None
                     (Campaign.set_status Campaign.ACTIVE c)) rows')
        as [_ [_ H3']].
      cbv zeta in H3'. now rewrite H3'.
    + split; [intros _ Hp; rewrite Hp in E; discriminate|].
      split; [reflexivity|]. repeat (split; [reflexivity|]).
      intro rows'.
      destruct (check_budget_limits_spec c rows') as [_ [_ H3']].
      cbv zeta in H3'. rewrite (H3' Hd Hm). now rewrite E.
  - assert (Hm' : Campaign.monthly_spend c >= Campaign.monthly_budget c)
      by lia.
    rewrite (H2 Hd Hm'). simpl.
    destruct (Z.geb_spec (Campaign.daily_spend c) (Campaign.daily_budget c));
      [lia|].
    split; [intros _; split; reflexivity|].
    split; [discriminate|]. split; [discriminate|].
    repeat (split; [reflexivity|]).
    intro rows'.
    destruct (check_budget_limits_spec
                (Campaign.set_pause_reason (Some MONTHLY_BUDGET_EXCEEDED)
                   (Campaign.set_status Campaign.PAUSED c)) rows')
      as [_ [H2' _]].
    cbv zeta in H2'. now rewrite H2'.
  - assert (Hd' : Campaign.daily_spend c >= Campaign.daily_budget c) by lia.
    rewrite (H1 Hd'). simpl.
    destruct (Z.geb_spec (Campaign.daily_spend c) (Campaign.daily_budget c));
      [|lia].
    split; [intros _; split; reflexivity|].
    split; [discriminate|]. split; [discriminate|].
    repeat (split; [reflexivity|]).
    intro rows'.
    destruct (check_budget_limits_spec
                (Campaign.set_pause_reason (Some DAILY_BUDGET_EXCEEDED)
                   (Campaign.set_status Campaign.PAUSED c)) rows')
      as [H1' _].
    cbv zeta in H1'. now rewrite H1'.
Qed.

(** ** Tables keyed by a primary key *)

Section KeyedTable.

Context {A : Type} (key : A -> nat).

Lemma keyed_find_absent (pk : nat) (rows : list A) :
  ~ In pk (map key rows) -> find (fun c => Nat.eqb (key c) pk) rows = None.
Proof.
  induction rows as [|a rows IH]; simpl; intro Hn; [reflexivity|].
  destruct (Nat.eqb_spec (key a) pk) as [E|E].
  - exfalso. apply Hn. now left.
  - apply IH. intro Hin. apply Hn. now right.
Qed.

Lemma keyed_find_present (row : A) (rows : list A) :
  NoDup (map key rows) -> In row rows ->
  find (fun c => Nat.eqb (key c) (key row)) rows = Some row.
Proof.
  induction rows as [|a rows IH]; simpl; intros Hnd Hin; [contradiction|].
  inversion Hnd as [|x l Hx Hl]; subst.
  destruct Hin as [-> | Hin].
  - now rewrite Nat.eqb_refl.
  - destruct (Nat.eqb_spec (key a) (key row)) as [E|E].
    + exfalso. apply Hx. rewrite E. now apply in_map.
    + now apply IH.
Qed.

Lemma keyed_unique (rows : list A) (r c : A) :
  NoDup (map key rows) -> In r rows -> In c rows -> key r = key c -> r = c.
Proof.
  intros Hnd Hr Hc E.
  pose proof (keyed_find_present r rows Hnd Hr) as H1.
  pose proof (keyed_find_present c rows Hnd Hc) as H2.
  rewrite E in H1. congruence.
Qed.

Lemma keyed_find_map (pk : nat) (f : A -> A) (rows : list A) :
  (forall r, key (f r) = key r) ->
  find (fun c => Nat.eqb (key c) pk) (map f rows)
  = option_map f (find (fun c => Nat.eqb (key c) pk) rows).
Proof.
  intro Hf. induction rows as [|a rows IH]; simpl; [reflexivity|].
  rewrite Hf. destruct (Nat.eqb (key a) pk); [reflexivity | exact IH].
Qed.

Variable upd : A -> A -> A.
Hypothesis upd_key : forall c r, key (upd c r) = key r.

Lemma keyed_fold (q rows : list A) :
  NoDup (map key q) ->
  fold_left
    (fun rs c => map (fun row => if Nat.eqb (key row) (key c)
                                 then upd c row else row) rs) q rows
  = map (fun row =>
           match find (fun c => Nat.eqb (key c) (key row)) q with
           | Some c => upd c row
           | None => row
           end) rows.
Proof.
  revert rows. induction q as [|a q IH]; intros rows Hnd; simpl.
  - symmetry. apply map_id.
  - inversion Hnd as [|x l Hx Hl]; subst.
    rewrite IH by assumption. rewrite map_map. apply map_ext. intro row.
    destruct (Nat.eqb_spec (key row) (key a)) as [E|E].
    + rewrite upd_key, E, Nat.eqb_refl.
      now rewrite (keyed_find_absent (key a) q Hx).
    + destruct (Nat.eqb_spec (key a) (key row)) as [E'|E'];
        [congruence | reflexivity].
Qed.

Lemma keyed_fold_all (rows : list A) :
  NoDup (map key rows) ->
  fold_left
    (fun rs c => map (fun row => if Nat.eqb (key row) (key c)
                                 then upd c row else row) rs) rows rows
  = map (fun row => upd row row) rows.
Proof.
  intro Hnd. rewrite keyed_fold by assumption.
  apply map_ext_in. intros row Hin.
  now rewrite (keyed_find_present row rows Hnd Hin).
Qed.

End KeyedTable.

(** ** The budget check of a brand *)

(** X6. [Brand.check_budget_limits] leaves [is_active] true exactly when
    both totals are strictly under their budgets, changes no other field
    of the instance and is idempotent; on a brand table with unique
    primary keys, called on a current row, it rewrites that row and no
    other. *)
Theorem brand_check_budget_limits_spec (b : Brand.t)
    (objects : list Brand.t)
    (Hpk : NoDup (map Brand.id objects)) (Hrow : In b objects) :
  let b' := fst (Brand.check_budget_limits b objects) in
  b' = Brand.set_is_active
         ((Brand.daily_spend b <? Brand.daily_budget b)
          && (Brand.monthly_spend b <? Brand.monthly_budget b)) b
  /\ snd (Brand.check_budget_limits b objects)
     = map (fun row => if Nat.eqb (Brand.id row) (Brand.id b)
                       then b' else row) objects
  /\ fst (Brand.check_budget_limits b'
            (snd (Brand.check_budget_limits b objects))) = b'
  /\ snd (Brand.check_budget_limits b'
            (snd (Brand.check_budget_limits b objects)))
     = snd (Brand.check_budget_limits b objects).
Proof.
  assert (Hsame : forall (x : Brand.t) (objs : list Brand.t),
             NoDup (map Brand.id objs) -> In x objs ->
             map (fun row => if Nat.eqb (Brand.id row) (Brand.id x)
                             then x else row) objs = objs).
  { intros x objs Hnd Hin. rewrite <- (map_id objs) at 2.
    apply map_ext_in. intros r Hr.
    destruct (Nat.eqb_spec (Brand.id r) (Brand.id x)) as [E|E];
      [|reflexivity].
    symmetry. now apply (keyed_unique Brand.id objs r x). }
  assert (Hsave : forall v,
             Brand.save [Brand.f_is_active] (Brand.set_is_active v b) objects
             = map (fun row => if Nat.eqb (Brand.id row) (Brand.id b)
                               then Brand.set_is_active v b else row)
                 objects).
  { intro v. unfold Brand.save. apply map_ext_in. intros r Hr. simpl.
    destruct (Nat.eqb_spec (Brand.id r) (Brand.id b)) as [E|E];
      [|reflexivity].
    now rewrite (keyed_unique Brand.id objects r b Hpk Hr Hrow E). }
  assert (Hflag : Brand.set_is_active (Brand.is_active b) b = b)
    by (destruct b; reflexivity).
  unfold Brand.check_budget_limits. cbv zeta.
  destruct (Z.geb_spec (Brand.daily_spend b) (Brand.daily_budget b))
    as [Hd|Hd];
    [|destruct (Z.geb_spec (Brand.monthly_spend b) (Brand.monthly_budget b))
        as [Hm|Hm]].
  - destruct (Z.ltb_spec (Brand.daily_spend b) (Brand.daily_budget b));
      [lia|].
    simpl. rewrite Hsave.
    destruct (Z.geb_spec (Brand.daily_spend b) (Brand.daily_budget b));
      [|lia].
    simpl. split; [reflexivity|]. split; [reflexivity|].
    split; [reflexivity|].
    unfold Brand.save. rewrite map_map. apply map_ext. intro r. simpl.
    destruct (Nat.eqb (Brand.id r) (Brand.id b)) eqn:E; simpl;
      [now rewrite Nat.eqb_refl | now rewrite E].
  - destruct (Z.ltb_spec (Brand.daily_spend b) (Brand.daily_budget b));
      [|lia].
    destruct (Z.ltb_spec (Brand.monthly_spend b) (Brand.monthly_budget b));
      [lia|].
    simpl. rewrite Hsave.
    destruct (Z.geb_spec (Brand.daily_spend b) (Brand.daily_budget b));
      [lia|].
    destruct (Z.geb_spec (Brand.monthly_spend b) (Brand.monthly_budget b));
      [|lia].
    simpl. split; [reflexivity|]. split; [reflexivity|].
    split; [reflexivity|].
    unfold Brand.save. rewrite map_map. apply map_ext. intro r. simpl.
    destruct (Nat.eqb (Brand.id r) (Brand.id b)) eqn:E; simpl;
      [now rewrite Nat.eqb_refl | now rewrite E].
  - destruct (Z.ltb_spec (Brand.daily_spend b) (Brand.daily_budget b));
      [|lia].
    destruct (Z.ltb_spec (Brand.monthly_spend b) (Brand.monthly_budget b));
      [|lia].
    simpl andb.
    destruct (Brand.is_active b) eqn:Ha; simpl.
    + rewrite Hflag.
      destruct (Z.geb_spec (Brand.daily_spend b) (Brand.daily_budget b));
        [lia|].
      destruct (Z.geb_spec (Brand.monthly_spend b) (Brand.monthly_budget b));
        [lia|].
      rewrite Ha. simpl. rewrite Hsame by assumption. tauto.
    + rewrite Hsave.
      destruct (Z.geb_spec (Brand.daily_spend b) (Brand.daily_budget b));
        [lia|].
      destruct (Z.geb_spec (Brand.monthly_spend b) (Brand.monthly_budget b));
        [lia|].
      simpl. tauto.
Qed.

Lemma brand_check_budget_limits_spec_witness :
  let b := Brand.set_daily_spend 10000 sample_brand in
  NoDup (map Brand.id [b]) /\ In b [b]
  /\ Brand.is_active (fst (Brand.check_budget_limits b [b])) = false.
Proof.
  intro b.
  assert (Hnd : NoDup (map Brand.id [b]))
    by (repeat constructor; simpl; tauto).
  assert (Hin : In b [b]) by (left; reflexivity).
  split; [exact Hnd|]. split; [exact Hin|].
  pose proof (proj1 (brand_check_budget_limits_spec b [b] Hnd Hin)) as E.
  cbv zeta in E. rewrite E. reflexivity.
Defined.

(** ** The reset sweeps *)

Lemma store_ext (a b : Store) :
  brands a = brands b -> campaigns a = campaigns b -> spends a = spends b ->
  dayparting_schedules a = dayparting_schedules b -> a = b.
Proof. destruct a, b; simpl; intros; now subst. Qed.

Lemma for_each_brands (F : Brand.t -> list Brand.t -> list Brand.t)
    (q : list Brand.t) (db : Store) :
  for_each q (fun brand d => set_brands (F brand (brands d)) d) db
  = set_brands (fold_left (fun rs b => F b rs) q (brands db)) db.
Proof.
  unfold for_each. revert db.
  induction q as [|b q IH]; intro db; simpl.
  - now destruct db.
  - rewrite IH. reflexivity.
Qed.

Lemma campaign_loop_keeps_brands (q : list Campaign.t)
    (F : Campaign.t -> list Campaign.t -> list Campaign.t) (db : Store) :
  brands (for_each q
            (fun campaign d => set_campaigns (F campaign (campaigns d)) d) db)
  = brands db.
Proof.
  apply (for_each_invariant (fun d => brands d = brands db)); auto.
Qed.

Lemma fold_left_pointwise {S X : Type} (f g : S -> X -> S) (l : list X)
    (s : S) :
  (forall s x, f s x = g s x) -> fold_left f l s = fold_left g l s.
Proof.
  intro H. revert s. induction l as [|x l IH]; intro s; simpl;
    [reflexivity|].
  now rewrite H, IH.
Qed.

Lemma brand_reset_loop (fs : list Brand.Field) (f : Brand.t -> Brand.t)
    (db : Store) :
  (forall b r, Brand.write_fields fs (f b) r = f r) ->
  (forall b, Brand.id (f b) = Brand.id b) ->
  NoDup (map Brand.id (brands db)) ->
  for_each (brands db)
    (fun brand d => set_brands (Brand.save fs (f brand) (brands d)) d) db
  = set_brands (map f (brands db)) db.
Proof.
  intros Hw Hid Hnd.
  rewrite (for_each_brands (fun b rs => Brand.save fs (f b) rs)).
  f_equal. unfold Brand.save.
  rewrite (fold_left_pointwise
             (fun rs c => map (fun row => if Nat.eqb (Brand.id row) (Brand.id (f c))
                                          then Brand.write_fields fs (f c) row
                                          else row) rs)
             (fun rs c => map (fun row => if Nat.eqb (Brand.id row) (Brand.id c)
                                          then f row else row) rs)).
  - apply (keyed_fold_all Brand.id (fun _ r => f r)); [|assumption].
    intros _ r. apply Hid.
  - intros rs c. apply map_ext. intro row. now rewrite Hid, Hw.
Qed.

Lemma reset_daily_budgets_store (db : Store) :
  NoDup (map Campaign.id (campaigns db)) ->
  NoDup (map Brand.id (brands db)) ->
  reset_daily_budgets db
  = mkStore (map (Brand.set_daily_spend 0) (brands db))
      (map (Campaign.set_daily_spend 0) (campaigns db))
      (spends db) (dayparting_schedules db).
Proof.
  intros Hpk Hbk.
  destruct (reset_daily_budgets_rows db Hpk) as [Hc [Hs Hd]].
  apply store_ext; simpl; try assumption.
  unfold reset_daily_budgets.
  rewrite (campaign_loop_keeps_brands _
             (fun c rows => snd (Campaign.reset_daily_spend c rows))).
  unfold Brand.reset_daily_spend. simpl snd.
  rewrite (brand_reset_loop [Brand.f_daily_spend]
             (Brand.set_daily_spend 0)); try assumption; reflexivity.
Qed.

Lemma reset_monthly_budgets_store (db : Store) :
  NoDup (map Campaign.id (campaigns db)) ->
  NoDup (map Brand.id (brands db)) ->
  reset_monthly_budgets db
  = mkStore (map (Brand.set_monthly_spend 0) (brands db))
      (map (Campaign.set_monthly_spend 0) (campaigns db))
      (spends db) (dayparting_schedules db).
Proof.
  intros Hpk Hbk.
  destruct (reset_monthly_budgets_rows db Hpk) as [Hc [Hs Hd]].
  apply store_ext; simpl; try assumption.
  unfold reset_monthly_budgets.
  rewrite (campaign_loop_keeps_brands _
             (fun c rows => snd (Campaign.reset_monthly_spend c rows))).
  unfold Brand.reset_monthly_spend. simpl snd.
  rewrite (brand_reset_loop [Brand.f_monthly_spend]
             (Brand.set_monthly_spend 0)); try assumption; reflexivity.
Qed.

(** X7. Each reset sweep puts one total of every brand and of every
    campaign to zero and changes nothing else: the other total, budgets,
    status, pause reason and [is_active] of every row, the spends and the
    schedules are as before (so a Paused campaign stays Paused). *)
Theorem reset_budgets_effect (db : Store)
    (Hpk : NoDup (map Campaign.id (campaigns db)))
    (Hbk : NoDup (map Brand.id (brands db))) :
  reset_daily_budgets db
  = mkStore (map (Brand.set_daily_spend 0) (brands db))
      (map (Campaign.set_daily_spend 0) (campaigns db))
      (spends db) (dayparting_schedules db)
  /\ reset_monthly_budgets db
     = mkStore (map (Brand.set_monthly_spend 0) (brands db))
         (map (Campaign.set_monthly_spend 0) (campaigns db))
         (spends db) (dayparting_schedules db).
Proof.
  split.
  - now apply reset_daily_budgets_store.
  - now apply reset_monthly_budgets_store.
Qed.

Lemma reset_budgets_effect_witness :
  let c := Campaign.set_pause_reason (Some DAILY_BUDGET_EXCEEDED)
             (Campaign.set_status Campaign.PAUSED
                (Campaign.set_daily_spend 5500 sample_campaign)) in
  NoDup (map Campaign.id (campaigns (sample_store c)))
  /\ NoDup (map Brand.id (brands (sample_store c)))
  /\ campaigns (reset_daily_budgets (sample_store c))
     = [Campaign.set_daily_spend 0 c].
Proof.
  intro c.
  assert (Hnd : NoDup (map Campaign.id (campaigns (sample_store c))))
    by (repeat constructor; simpl; tauto).
  assert (Hbd : NoDup (map Brand.id (brands (sample_store c))))
    by (repeat constructor; simpl; tauto).
  split; [exact Hnd|]. split; [exact Hbd|].
  rewrite (proj1 (reset_budgets_effect (sample_store c) Hnd Hbd)).
  reflexivity.
Defined.

Lemma brand_ids_map (f : Brand.t -> Brand.t) (rows : list Brand.t) :
  (forall r, Brand.id (f r) = Brand.id r) ->
  map Brand.id (map f rows) = map Brand.id rows.
Proof. intro Hf. rewrite map_map. apply map_ext. exact Hf. Qed.

(** X8. The reset sweeps are idempotent and commute: resetting the daily
    totals twice is resetting them once, likewise for the monthly totals,
    and the two resets give the same database in either order. *)
Theorem reset_budgets_compose (db : Store)
    (Hpk : NoDup (map Campaign.id (campaigns db)))
    (Hbk : NoDup (map Brand.id (brands db))) :
  reset_daily_budgets (reset_daily_budgets db) = reset_daily_budgets db
  /\ reset_monthly_budgets (reset_monthly_budgets db)
     = reset_monthly_budgets db
  /\ reset_daily_budgets (reset_monthly_budgets db)
     = reset_monthly_budgets (reset_daily_budgets db).
Proof.
  pose proof (reset_daily_budgets_store db Hpk Hbk) as Ed.
  pose proof (reset_monthly_budgets_store db Hpk Hbk) as Em.
  assert (Hd : NoDup (map Campaign.id (campaigns (reset_daily_budgets db)))
               /\ NoDup (map Brand.id (brands (reset_daily_budgets db)))).
  { rewrite Ed. simpl. rewrite map_ids_preserved, brand_ids_map; auto. }
  assert (Hm : NoDup (map Campaign.id (campaigns (reset_monthly_budgets db)))
               /\ NoDup (map Brand.id (brands (reset_monthly_budgets db)))).
  { rewrite Em. simpl. rewrite map_ids_preserved, brand_ids_map; auto. }
  destruct Hd as [Hd1 Hd2], Hm as [Hm1 Hm2].
  split; [|split].
  - rewrite (reset_daily_budgets_store _ Hd1 Hd2), Ed. simpl.
    f_equal; rewrite map_map; apply map_ext; intros []; reflexivity.
  - rewrite (reset_monthly_budgets_store _ Hm1 Hm2), Em. simpl.
    f_equal; rewrite map_map; apply map_ext; intros []; reflexivity.
  - rewrite (reset_daily_budgets_store _ Hm1 Hm2).
    rewrite (reset_monthly_budgets_store _ Hd1 Hd2), Ed, Em. simpl.
    f_equal; rewrite !map_map; apply map_ext; intros []; reflexivity.
Qed.

Lemma reset_budgets_compose_witness :
  let db := sample_store (Campaign.set_daily_spend 5500 sample_campaign) in
  NoDup (map Campaign.id (campaigns db))
  /\ NoDup (map Brand.id (brands db))
  /\ reset_daily_budgets (reset_monthly_budgets db)
     = reset_monthly_budgets (reset_daily_budgets db).
Proof.
  intro db.
  assert (Hnd : NoDup (map Campaign.id (campaigns db)))
    by (repeat constructor; simpl; tauto).
  assert (Hbd : NoDup (map Brand.id (brands db)))
    by (repeat constructor; simpl; tauto).
  split; [exact Hnd|]. split; [exact Hbd|].
  exact (proj2 (proj2 (reset_budgets_compose db Hnd Hbd))).
Defined.

(** ** Histories, seen from one row *)

Lemma run_get (history : list Event) :
  forall (db : Store) (pk : nat),
  NoDup (map Campaign.id (campaigns db)) ->
  get_campaign pk (run history db)
  = option_map (history_row history (dayparting_schedules db) pk)
      (get_campaign pk db)
  /\ map Campaign.id (campaigns (run history db))
     = map Campaign.id (campaigns db)
  /\ dayparting_schedules (run history db) = dayparting_schedules db.
Proof.
  induction history as [|e h IH]; intros db pk Hnd.
  - simpl. split; [now destruct (get_campaign pk db) | tauto].
  - destruct (step_row e db pk Hnd) as [Hget [Hids Hsch]].
    assert (Hnd' : NoDup (map Campaign.id (campaigns (step db e))))
      by now rewrite Hids.
    destruct (IH (step db e) pk Hnd') as [Hr [Hi Hs]].
    change (run (e :: h) db) with (run h (step db e)).
    split; [|split; congruence].
    rewrite Hr, Hget, Hsch. now destruct (get_campaign pk db).
Qed.

Lemma event_row_static (e : Event) (sch : list DaypartingSchedule.t)
    (pk : nat) (c : Campaign.t) :
  let r := event_row e sch pk c in
  Campaign.brand r = Campaign.brand c /\ Campaign.name r = Campaign.name c
  /\ Campaign.daily_budget r = Campaign.daily_budget c
  /\ Campaign.monthly_budget r = Campaign.monthly_budget c
  /\ Campaign.start_date r = Campaign.start_date c
  /\ Campaign.end_date r = Campaign.end_date c.
Proof.
  destruct e as [pk' a clk| | |clk| |]; simpl.
  - destruct (Nat.eqb pk pk'); [|tauto].
    unfold spend_row. cbv zeta. row_cases; repeat split.
  - unfold budget_sweep_row, Campaign.check_budget_limits. cbv zeta.
    row_cases; repeat split.
  - unfold reactivation_row. row_cases; repeat split.
  - unfold dayparting_row. row_cases; repeat split.
  - repeat split.
  - repeat split.
Qed.

Lemma step_spends_append (e : Event) (db : Store) :
  NoDup (map Campaign.id (campaigns db)) ->
  exists added, spends (step db e) = spends db ++ added.
Proof.
  intro Hnd. destruct e as [pk' a clk| | |clk| |]; simpl.
  - destruct (get_campaign pk' db) as [c|].
    + destruct (process_ad_spend_frame c a clk db) as [Hs _].
      eexists. exact Hs.
    + exists []. now rewrite app_nil_r.
  - rewrite pause_campaigns_exceeding_budget_rows by assumption.
    exists []. now rewrite app_nil_r.
  - rewrite reactivate_eligible_campaigns_rows by assumption.
    exists []. now rewrite app_nil_r.
  - rewrite enforce_dayparting_rows by assumption.
    exists []. now rewrite app_nil_r.
  - destruct (reset_daily_budgets_rows db Hnd) as [_ [Hs _]].
    exists []. now rewrite app_nil_r.
  - destruct (reset_monthly_budgets_rows db Hnd) as [_ [Hs _]].
    exists []. now rewrite app_nil_r.
Qed.

(** X9. No history of the entry points creates, deletes or reorders a
    campaign, touches a schedule, or changes or removes an existing Spend
    row (the spend table only grows at its end); and it leaves the brand,
    name, budgets and dates of every campaign as they were. *)
Theorem histories_keep_static (db : Store) (history : list Event)
    (Hpk : NoDup (map Campaign.id (campaigns db))) :
  map Campaign.id (campaigns (run history db))
  = map Campaign.id (campaigns db)
  /\ dayparting_schedules (run history db) = dayparting_schedules db
  /\ (exists added, spends (run history db) = spends db ++ added)
  /\ (forall pk c, get_campaign pk db = Some c ->
        exists r, get_campaign pk (run history db) = Some r
                  /\ Campaign.brand r = Campaign.brand c
                  /\ Campaign.name r = Campaign.name c
                  /\ Campaign.daily_budget r = Campaign.daily_budget c
                  /\ Campaign.monthly_budget r = Campaign.monthly_budget c
                  /\ Campaign.start_date r = Campaign.start_date c
                  /\ Campaign.end_date r = Campaign.end_date c).
Proof.
  split; [apply (run_get history db 0%nat Hpk)|].
  split; [apply (run_get history db 0%nat Hpk)|].
  split.
  - revert db Hpk. induction history as [|e h IH]; intros db Hpk.
    + exists []. simpl. now rewrite app_nil_r.
    + destruct (step_row e db 0%nat Hpk) as [_ [Hids _]].
      destruct (step_spends_append e db Hpk) as [l1 H1].
      destruct (IH (step db e)) as [l2 H2]; [now rewrite Hids|].
      exists (l1 ++ l2). change (run (e :: h) db) with (run h (step db e)).
      now rewrite H2, H1, app_assoc.
  - intros pk c Hc. destruct (run_get history db pk Hpk) as [Hget _].
    rewrite Hc in Hget. simpl in Hget. eexists. split; [exact Hget|].
    clear Hget Hc. revert c.
    induction history as [|e h IH]; intro c; simpl; [tauto|].
    destruct (IH (event_row e (dayparting_schedules db) pk c))
      as [H1 [H2 [H3 [H4 [H5 H6]]]]].
    destruct (event_row_static e (dayparting_schedules db) pk c)
      as [G1 [G2 [G3 [G4 [G5 G6]]]]].
    repeat split; congruence.
Qed.

Lemma histories_keep_static_witness :
  let db := sample_store sample_campaign in
  NoDup (map Campaign.id (campaigns db))
  /\ dayparting_schedules
       (run [RecordSpend 1 6000 monday_afternoon; ResetDaily] db)
     = dayparting_schedules db.
Proof.
  intro db.
  assert (Hnd : NoDup (map Campaign.id (campaigns db)))
    by (repeat constructor; simpl; tauto).
  split; [exact Hnd|].
  exact (proj1 (proj2 (histories_keep_static db
                         [RecordSpend 1 6000 monday_afternoon; ResetDaily]
                         Hnd))).
Defined.

Lemma event_row_consistent (e : Event) (sch : list DaypartingSchedule.t)
    (pk : nat) (c : Campaign.t) :
  reason_consistent c -> reason_consistent (event_row e sch pk c).
Proof.
  unfold reason_consistent. intro H.
  destruct e as [pk' a clk| | |clk| |]; simpl.
  - destruct (Nat.eqb pk pk'); [|exact H].
    unfold spend_row. cbv zeta. row_cases; simpl; tauto.
  - unfold budget_sweep_row, Campaign.check_budget_limits. cbv zeta.
    row_cases; simpl; tauto.
  - unfold reactivation_row. row_cases; simpl; tauto.
  - unfold dayparting_row. row_cases; simpl; tauto.
  - exact H.
  - exact H.
Qed.

(** X10. Status and pause reason stay in step along every history: if a
    campaign starts with a pause reason exactly when Paused (one of the
    three reasons the code writes) and none otherwise, this still holds
    after any sequence of recordings, sweeps and resets. *)
Theorem reason_stays_consistent (db : Store) (history : list Event)
    (pk : nat) (c : Campaign.t)
    (Hpk : NoDup (map Campaign.id (campaigns db)))
    (Hrow : get_campaign pk db = Some c)
    (Hstart : reason_consistent c) :
  exists r, get_campaign pk (run history db) = Some r
            /\ reason_consistent r.
Proof.
  destruct (run_get history db pk Hpk) as [Hget _].
  rewrite Hrow in Hget. simpl in Hget. eexists. split; [exact Hget|].
  clear Hget Hrow. revert c Hstart.
  induction history as [|e h IH]; intros c Hc; simpl; [exact Hc|].
  apply IH. now apply event_row_consistent.
Qed.

Lemma reason_stays_consistent_witness :
  let db := sample_store_with_schedule sample_campaign in
  let h := [RecordSpend 1 6000 monday_afternoon; ResetDaily;
            SweepDayparting monday_evening; SweepReactivations] in
  NoDup (map Campaign.id (campaigns db))
  /\ get_campaign 1 db = Some sample_campaign
  /\ reason_consistent sample_campaign
  /\ exists r, get_campaign 1 (run h db) = Some r /\ reason_consistent r.
Proof.
  intros db h.
  assert (Hnd : NoDup (map Campaign.id (campaigns db)))
    by (repeat constructor; simpl; tauto).
  assert (Hrow : get_campaign 1 db = Some sample_campaign) by reflexivity.
  assert (Hc : reason_consistent sample_campaign) by reflexivity.
  split; [exact Hnd|]. split; [exact Hrow|]. split; [exact Hc|].
  exact (reason_stays_consistent db h 1 sample_campaign Hnd Hrow Hc).
Defined.

(** X11. In one run of an entry point, a campaign that was not Active
    comes out Active only if it was Paused, the entry point is the
    reactivation sweep or the dayparting sweep, and both its totals are
    strictly under their budgets; its pause reason is then cleared.  So
    neither a recording, nor the budget sweep, nor a reset activates a
    campaign, and no entry point takes a campaign from Completed to
    Active in one step. *)
Theorem activation_needs_budget_room (db : Store) (e : Event) (pk : nat)
    (c r : Campaign.t)
    (Hpk : NoDup (map Campaign.id (campaigns db)))
    (Hbefore : get_campaign pk db = Some c)
    (Hafter : get_campaign pk (step db e) = Some r)
    (Hwas : Campaign.status c <> Campaign.ACTIVE)
    (His : Campaign.status r = Campaign.ACTIVE) :
  Campaign.status c = Campaign.PAUSED
  /\ Campaign.can_resume c = true
  /\ Campaign.can_resume r = true
  /\ Campaign.pause_reason r = None
  /\ (e = SweepReactivations \/ exists clock, e = SweepDayparting clock).
Proof.
  destruct (step_row e db pk Hpk) as [Hget _].
  rewrite Hbefore, Hafter in Hget. simpl in Hget. injection Hget as ->.
  destruct e as [pk' a clk| | |clk| |]; simpl in *.
  - exfalso. destruct (Nat.eqb pk pk'); [|contradiction].
    revert His. unfold spend_row. cbv zeta. row_cases; simpl; try discriminate.
    exact Hwas.
  - exfalso. revert His. unfold budget_sweep_row, selected_for_budget.
    destruct (Campaign.Status_eqb (Campaign.status c) Campaign.ACTIVE) eqn:E.
    + apply Status_eqb_eq in E. contradiction.
    + rewrite andb_false_r. exact Hwas.
  - revert His. unfold reactivation_row.
    destruct (Campaign.Status_eqb (Campaign.status c) Campaign.PAUSED) eqn:E;
      [|simpl; intro; contradiction].
    destruct (Campaign.can_resume c) eqn:Hcan;
      [|simpl; intro; contradiction].
    apply Status_eqb_eq in E. simpl. intros _.
    repeat split; try assumption. now left.
  - revert His. unfold dayparting_row.
    destruct (negb (Campaign.is_active c)); [intro; contradiction|].
    destruct (negb (DaypartingSchedule.exists_ _ _)); [intro; contradiction|].
    destruct (negb (Campaign.is_within_dayparting _ _ _ _)).
    + destruct (negb _ || negb _); [discriminate | intro; contradiction].
    + destruct (Campaign.Status_eqb (Campaign.status c) Campaign.PAUSED)
        eqn:E; [|simpl; intro; contradiction].
      destruct (reason_eqb _ _); [|simpl; intro; contradiction].
      destruct (Campaign.can_resume c) eqn:Hcan;
        [|simpl; intro; contradiction].
      apply Status_eqb_eq in E. simpl. intros _.
      repeat split; try assumption. right. now exists clk.
  - contradiction.
  - contradiction.
Qed.

Lemma activation_needs_budget_room_witness :
  let c := Campaign.set_pause_reason (Some DAILY_BUDGET_EXCEEDED)
             (Campaign.set_status Campaign.PAUSED sample_campaign) in
  let r := Campaign.set_pause_reason None
             (Campaign.set_status Campaign.ACTIVE c) in
  let db := sample_store c in
  NoDup (map Campaign.id (campaigns db))
  /\ get_campaign 1 db = Some c
  /\ get_campaign 1 (step db SweepReactivations) = Some r
  /\ Campaign.status c <> Campaign.ACTIVE
  /\ Campaign.status r = Campaign.ACTIVE
  /\ Campaign.can_resume c = true.
Proof.
  intros c r db.
  assert (Hnd : NoDup (map Campaign.id (campaigns db)))
    by (repeat constructor; simpl; tauto).
  assert (Hb : get_campaign 1 db = Some c) by reflexivity.
  assert (Ha : get_campaign 1 (step db SweepReactivations) = Some r)
    by reflexivity.
  assert (Hw : Campaign.status c <> Campaign.ACTIVE) by discriminate.
  assert (Hi : Campaign.status r = Campaign.ACTIVE) by reflexivity.
  repeat (split; [first [exact Hnd | exact Hb | exact Ha | exact Hw
                        | exact Hi]|]).
  exact (proj1 (proj2 (activation_needs_budget_room db SweepReactivations 1
                         c r Hnd Hb Ha Hw Hi))).
Defined.

(** ** What the sweeps establish *)

(** X12. After the budget sweep, every campaign that is Active with
    [is_active] true has both totals strictly under their budgets. *)
Theorem budget_sweep_establishes (db : Store) (pk : nat) (r : Campaign.t)
    (Hpk : NoDup (map Campaign.id (campaigns db)))
    (Hafter : get_campaign pk (pause_campaigns_exceeding_budget db) = Some r)
    (Hflag : Campaign.is_active r = true)
    (Hstatus : Campaign.status r = Campaign.ACTIVE) :
  Campaign.daily_spend r < Campaign.daily_budget r
  /\ Campaign.monthly_spend r < Campaign.monthly_budget r.
Proof.
  rewrite budget_sweep_get in Hafter by assumption.
  destruct (get_campaign pk db) as [c|]; [|discriminate].
  simpl in Hafter. injection Hafter as <-.
  destruct (budget_sweep_row_keeps c) as [_ [Hd [Hm [Hdb [Hmb Ha]]]]].
  cbv zeta in *. rewrite Hd, Hm, Hdb, Hmb. rewrite Ha in Hflag.
  destruct (budget_sweep_row_spec c) as [Hsel Hnot].
  destruct (selected_for_budget c) eqn:S.
  - destruct (Hsel eq_refl) as [H1 [H2 H3]].
    destruct (Z_lt_ge_dec (Campaign.daily_spend c) (Campaign.daily_budget c))
      as [Hlt|Hge].
    + destruct (Z_lt_ge_dec (Campaign.monthly_spend c)
                  (Campaign.monthly_budget c)) as [Hlt'|Hge'];
        [tauto|].
      rewrite (H2 Hlt Hge') in Hstatus. discriminate.
    + rewrite (H1 Hge) in Hstatus. discriminate.
  - rewrite (Hnot eq_refl) in Hstatus. unfold selected_for_budget in S.
    rewrite Hflag, Hstatus in S. discriminate.
Qed.

Lemma budget_sweep_establishes_witness :
  let c := Campaign.set_daily_spend 4000 sample_campaign in
  let db := sample_store c in
  NoDup (map Campaign.id (campaigns db))
  /\ get_campaign 1 (pause_campaigns_exceeding_budget db) = Some c
  /\ Campaign.is_active c = true
  /\ Campaign.status c = Campaign.ACTIVE
  /\ Campaign.daily_spend c < Campaign.daily_budget c.
Proof.
  intros c db.
  assert (Hnd : NoDup (map Campaign.id (campaigns db)))
    by (repeat constructor; simpl; tauto).
  assert (Ha : get_campaign 1 (pause_campaigns_exceeding_budget db) = Some c)
    by reflexivity.
  split; [exact Hnd|]. split; [exact Ha|].
  split; [reflexivity|]. split; [reflexivity|].
  exact (proj1 (budget_sweep_establishes db 1 c Hnd Ha eq_refl eq_refl)).
Defined.

Lemma reactivation_row_idempotent (c : Campaign.t) :
  reactivation_row (reactivation_row c) = reactivation_row c.
Proof.
  unfold reactivation_row.
  destruct (Campaign.Status_eqb (Campaign.status c) Campaign.PAUSED) eqn:E;
    simpl; [|now rewrite E].
  destruct (Campaign.can_resume c) eqn:Hc; simpl; [reflexivity|].
  now rewrite E, Hc.
Qed.

(** X13. The reactivation sweep makes Active, and clears the reason of,
    every Paused campaign whose totals are strictly under both budgets,
    whatever its pause reason and its [is_active] flag, and leaves every
    other campaign, and the other tables, as they are.  After it no
    Paused campaign has room under both budgets, and running it again
    changes nothing. *)
Theorem reactivation_sweep_spec (db : Store)
    (Hpk : NoDup (map Campaign.id (campaigns db))) :
  (forall c, fresh c db ->
     (Campaign.status c = Campaign.PAUSED ->
      Campaign.can_resume c = true ->
      get_campaign (Campaign.id c) (reactivate_eligible_campaigns db)
      = Some (Campaign.set_pause_reason None
                (Campaign.set_status Campaign.ACTIVE c)))
     /\ (Campaign.status c <> Campaign.PAUSED
         \/ Campaign.can_resume c = false ->
         get_campaign (Campaign.id c) (reactivate_eligible_campaigns db)
         = Some c))
  /\ (forall pk r,
        get_campaign pk (reactivate_eligible_campaigns db) = Some r ->
        Campaign.status r = Campaign.PAUSED ->
        Campaign.can_resume r = false)
  /\ reactivate_eligible_campaigns (reactivate_eligible_campaigns db)
     = reactivate_eligible_campaigns db
  /\ brands (reactivate_eligible_campaigns db) = brands db
  /\ spends (reactivate_eligible_campaigns db) = spends db
  /\ dayparting_schedules (reactivate_eligible_campaigns db)
     = dayparting_schedules db.
Proof.
  split; [|split; [|split]].
  - intros c Hin.
    rewrite reactivation_get, (fresh_get_campaign c db Hpk Hin)
      by assumption.
    simpl. unfold reactivation_row. split.
    + intros Hs Hc. now rewrite Hs, Hc.
    + intros [Hs|Hc].
      * destruct (Campaign.Status_eqb (Campaign.status c) Campaign.PAUSED)
          eqn:E; [|reflexivity].
        apply Status_eqb_eq in E. contradiction.
      * now rewrite Hc, andb_false_r.
  - intros pk r Hr Hs. rewrite reactivation_get in Hr by assumption.
    destruct (get_campaign pk db) as [c|]; [|discriminate].
    simpl in Hr. injection Hr as <-. revert Hs. unfold reactivation_row.
    destruct (Campaign.Status_eqb (Campaign.status c) Campaign.PAUSED)
      eqn:E; simpl.
    + destruct (Campaign.can_resume c) eqn:Hc; [discriminate|].
      intros _. exact Hc.
    + intro Hs. rewrite Hs in E. discriminate.
  - rewrite (reactivate_eligible_campaigns_rows db Hpk).
    rewrite reactivate_eligible_campaigns_rows.
    + simpl. unfold set_campaigns. simpl. f_equal.
      rewrite map_map. apply map_ext. apply reactivation_row_idempotent.
    + simpl. rewrite map_ids_preserved; [assumption|].
      apply reactivation_row_keeps.
  - rewrite (reactivate_eligible_campaigns_rows db Hpk). repeat split.
Qed.

Lemma reactivation_sweep_spec_witness :
  let c := Campaign.set_pause_reason (Some OUTSIDE_DAYPARTING_HOURS)
             (Campaign.set_status Campaign.PAUSED sample_campaign) in
  let db := sample_store_with_schedule c in
  NoDup (map Campaign.id (campaigns db))
  /\ fresh c db
  /\ Campaign.status c = Campaign.PAUSED
  /\ Campaign.can_resume c = true
  /\ get_campaign 1 (reactivate_eligible_campaigns db)
     = Some (Campaign.set_pause_reason None
               (Campaign.set_status Campaign.ACTIVE c)).
Proof.
  intros c db.
  assert (Hnd : NoDup (map Campaign.id (campaigns db)))
    by (repeat constructor; simpl; tauto).
  assert (Hf : fresh c db) by (left; reflexivity).
  split; [exact Hnd|]. split; [exact Hf|].
  split; [reflexivity|]. split; [reflexivity|].
  exact (proj1 (proj1 (reactivation_sweep_spec db Hnd) c Hf)
           eq_refl eq_refl).
Defined.

(** ** The dayparting sweep and the reactivation sweep together *)

Lemma dayparting_row_idempotent (now : Datetime.t)
    (sch : list DaypartingSchedule.t) (c : Campaign.t) :
  dayparting_row now sch (dayparting_row now sch c) = dayparting_row now sch c.
Proof.
  destruct c as [i b n s db mb ds ms sd ed a r].
  unfold dayparting_row, Campaign.is_within_dayparting, Campaign.can_resume.
  simpl.
  destruct a; simpl; [|reflexivity].
  destruct (DaypartingSchedule.exists_ i sch) eqn:He; simpl;
    [|now rewrite He].
  destruct (Campaign.within_loop _ _ _) eqn:Hw; simpl.
  - destruct (Campaign.Status_eqb s Campaign.PAUSED) eqn:Es; simpl.
    + destruct (reason_eqb r (Some OUTSIDE_DAYPARTING_HOURS)) eqn:Er; simpl.
      * destruct ((ds <? db) && (ms <? mb)) eqn:Hc; simpl;
          rewrite He, Hw; simpl; [reflexivity|].
        now rewrite Es, Er, Hc.
      * rewrite He, Hw. simpl. now rewrite Es, Er.
    + rewrite He, Hw. simpl. now rewrite Es.
  - destruct (negb (Campaign.Status_eqb s Campaign.PAUSED)
              || negb (reason_eqb r (Some OUTSIDE_DAYPARTING_HOURS))) eqn:E;
      simpl; rewrite He, Hw; simpl; [reflexivity|].
    now rewrite E.
Qed.

(** X14. The dayparting sweep is idempotent at a given time: running it
    again at the same clock leaves the database as the first run left
    it. *)
Theorem enforce_dayparting_idempotent (db : Store) (clock : Datetime.t)
    (Hpk : NoDup (map Campaign.id (campaigns db))) :
  enforce_dayparting clock (enforce_dayparting clock db)
  = enforce_dayparting clock db.
Proof.
  rewrite (enforce_dayparting_rows clock db Hpk).
  rewrite enforce_dayparting_rows.
  - simpl. unfold set_campaigns. simpl. f_equal.
    rewrite map_map. apply map_ext. apply dayparting_row_idempotent.
  - simpl. rewrite map_ids_preserved; [assumption|].
    apply dayparting_row_keeps.
Qed.

Lemma enforce_dayparting_idempotent_witness :
  let db := sample_store_with_schedule sample_campaign in
  NoDup (map Campaign.id (campaigns db))
  /\ enforce_dayparting monday_evening (enforce_dayparting monday_evening db)
     = enforce_dayparting monday_evening db.
Proof.
  intro db.
  assert (Hnd : NoDup (map Campaign.id (campaigns db)))
    by (repeat constructor; simpl; tauto).
  split; [exact Hnd|].
  exact (enforce_dayparting_idempotent db monday_evening Hnd).
Defined.

(** X15. After the dayparting sweep at a given time, for every campaign
    with [is_active] true that has a schedule row: if it is outside its
    dayparting it is Paused with OUTSIDE_DAYPARTING_HOURS, and if it is
    within its dayparting it is not Paused with OUTSIDE_DAYPARTING_HOURS
    while having room under both budgets. *)
Theorem enforce_dayparting_establishes (db : Store) (clock : Datetime.t)
    (pk : nat) (r : Campaign.t)
    (Hpk : NoDup (map Campaign.id (campaigns db)))
    (Hafter : get_campaign pk (enforce_dayparting clock db) = Some r)
    (Hflag : Campaign.is_active r = true)
    (Hsome : DaypartingSchedule.exists_ (Campaign.id r)
               (dayparting_schedules db) = true) :
  (Campaign.is_within_dayparting r (Some clock) clock
     (dayparting_schedules db) = false ->
   Campaign.status r = Campaign.PAUSED
   /\ Campaign.pause_reason r = Some OUTSIDE_DAYPARTING_HOURS)
  /\ (Campaign.is_within_dayparting r (Some clock) clock
        (dayparting_schedules db) = true ->
      Campaign.status r = Campaign.PAUSED ->
      Campaign.pause_reason r = Some OUTSIDE_DAYPARTING_HOURS ->
      Campaign.can_resume r = false).
Proof.
  rewrite dayparting_get in Hafter by assumption.
  destruct (get_campaign pk db) as [c|]; [|discriminate].
  simpl in Hafter. injection Hafter as <-.
  revert Hflag Hsome.
  destruct c as [i b n s db' mb ds ms sd ed a rs].
  unfold dayparting_row, Campaign.is_within_dayparting, Campaign.can_resume.
  simpl.
  destruct a; simpl; [|discriminate].
  destruct (DaypartingSchedule.exists_ i (dayparting_schedules db)) eqn:He;
    simpl.
  2:{ intros _ H. simpl in H. congruence. }
  destruct (Campaign.within_loop _ _ _) eqn:Hw; simpl.
  - destruct (Campaign.Status_eqb s Campaign.PAUSED) eqn:Es; simpl.
    + destruct (reason_eqb rs (Some OUTSIDE_DAYPARTING_HOURS)) eqn:Er; simpl.
      * destruct ((ds <? db') && (ms <? mb)) eqn:Hc; simpl;
          intros _ _; rewrite Hw; (split; [discriminate|]).
        -- discriminate.
        -- intros; assumption.
      * intros _ _. rewrite Hw. split; [discriminate|].
        intros _ _ Hr. rewrite Hr in Er. discriminate.
    + intros _ _. rewrite Hw. split; [discriminate|].
      intros _ Hs. rewrite Hs in Es. discriminate.
  - destruct (negb (Campaign.Status_eqb s Campaign.PAUSED)
              || negb (reason_eqb rs (Some OUTSIDE_DAYPARTING_HOURS))) eqn:E;
      simpl; intros _ _; rewrite Hw; (split; [|discriminate]); intros _.
    + split; reflexivity.
    + apply orb_false_iff in E. destruct E as [E1 E2].
      apply negb_false_iff in E1, E2.
      apply Status_eqb_eq in E1. apply reason_eqb_eq in E2. tauto.
Qed.

Lemma enforce_dayparting_establishes_witness :
  let db := sample_store_with_schedule sample_campaign in
  let r := Campaign.set_pause_reason (Some OUTSIDE_DAYPARTING_HOURS)
             (Campaign.set_status Campaign.PAUSED sample_campaign) in
  NoDup (map Campaign.id (campaigns db))
  /\ get_campaign 1 (enforce_dayparting monday_evening db) = Some r
  /\ Campaign.is_active r = true
  /\ DaypartingSchedule.exists_ (Campaign.id r) (dayparting_schedules db)
     = true
  /\ Campaign.is_within_dayparting r (Some monday_evening) monday_evening
       (dayparting_schedules db) = false
  /\ Campaign.status r = Campaign.PAUSED.
Proof.
  intros db r.
  assert (Hnd : NoDup (map Campaign.id (campaigns db)))
    by (repeat constructor; simpl; tauto).
  assert (Ha : get_campaign 1 (enforce_dayparting monday_evening db) = Some r)
    by reflexivity.
  split; [exact Hnd|]. split; [exact Ha|].
  repeat (split; [reflexivity|]).
  exact (proj1 (proj1 (enforce_dayparting_establishes db monday_evening 1 r
                         Hnd Ha eq_refl eq_refl) eq_refl)).
Defined.

(** X16. The two sweeps undo each other: a campaign with [is_active]
    true, at least one schedule row and room under both budgets that is
    outside its dayparting is paused by the dayparting sweep, made Active
    again by the reactivation sweep although it is still outside its
    dayparting, and paused again by the next dayparting sweep. *)
Theorem dayparting_and_reactivation_alternate
    (db : Store) (c : Campaign.t) (clock : Datetime.t)
    (Hpk : NoDup (map Campaign.id (campaigns db))) (Hfresh : fresh c db)
    (Hflag : Campaign.is_active c = true)
    (Hsome : DaypartingSchedule.exists_ (Campaign.id c)
               (dayparting_schedules db) = true)
    (Hout : Campaign.is_within_dayparting c (Some clock) clock
              (dayparting_schedules db) = false)
    (Hroom : Campaign.can_resume c = true) :
  let paused := Campaign.set_pause_reason (Some OUTSIDE_DAYPARTING_HOURS)
                  (Campaign.set_status Campaign.PAUSED c) in
  let active := Campaign.set_pause_reason None
                  (Campaign.set_status Campaign.ACTIVE c) in
  let db1 := enforce_dayparting clock db in
  let db2 := reactivate_eligible_campaigns db1 in
  let db3 := enforce_dayparting clock db2 in
  get_campaign (Campaign.id c) db1 = Some paused
  /\ get_campaign (Campaign.id c) db2 = Some active
  /\ get_campaign (Campaign.id c) db3 = Some paused.
Proof.
  intros paused active db1 db2 db3.
  pose proof (run_get [SweepDayparting clock; SweepReactivations;
                       SweepDayparting clock] db (Campaign.id c) Hpk)
    as [H3 _].
  pose proof (run_get [SweepDayparting clock; SweepReactivations] db
                (Campaign.id c) Hpk) as [H2 _].
  pose proof (run_get [SweepDayparting clock] db (Campaign.id c) Hpk)
    as [H1 _].
  rewrite (fresh_get_campaign c db Hpk Hfresh) in H1, H2, H3.
  change (run [SweepDayparting clock] db) with db1 in H1.
  change (run [SweepDayparting clock; SweepReactivations] db) with db2 in H2.
  change (run [SweepDayparting clock; SweepReactivations;
               SweepDayparting clock] db) with db3 in H3.
  rewrite H1, H2, H3. clear H1 H2 H3. simpl.
  subst paused active. revert Hflag Hsome Hout Hroom.
  destruct c as [i b n s db' mb ds ms sd ed a rs].
  unfold dayparting_row, reactivation_row, Campaign.is_within_dayparting,
    Campaign.can_resume. simpl.
  intros -> He Hw Hc. rewrite He, Hw. simpl.
  destruct (negb (Campaign.Status_eqb s Campaign.PAUSED)
            || negb (reason_eqb rs (Some OUTSIDE_DAYPARTING_HOURS))) eqn:E;
    simpl; rewrite ?Hc; simpl; rewrite ?He, ?Hw; simpl.
  - repeat split.
  - apply orb_false_iff in E. destruct E as [E1 E2].
    apply negb_false_iff in E1, E2.
    apply Status_eqb_eq in E1. apply reason_eqb_eq in E2. subst.
    simpl. rewrite ?Hc. simpl. rewrite ?He, ?Hw. simpl. repeat split.
Qed.

Lemma dayparting_and_reactivation_alternate_witness :
  let db := sample_store_with_schedule sample_campaign in
  NoDup (map Campaign.id (campaigns db))
  /\ fresh sample_campaign db
  /\ Campaign.is_active sample_campaign = true
  /\ DaypartingSchedule.exists_ (Campaign.id sample_campaign)
       (dayparting_schedules db) = true
  /\ Campaign.is_within_dayparting sample_campaign (Some monday_evening)
       monday_evening (dayparting_schedules db) = false
  /\ Campaign.can_resume sample_campaign = true
  /\ option_map Campaign.status
       (get_campaign 1
          (reactivate_eligible_campaigns
             (enforce_dayparting monday_evening db)))
     = Some Campaign.ACTIVE.
Proof.
  intro db.
  assert (Hnd : NoDup (map Campaign.id (campaigns db)))
    by (repeat constructor; simpl; tauto).
  assert (Hf : fresh sample_campaign db) by (left; reflexivity).
  split; [exact Hnd|]. split; [exact Hf|].
  repeat (split; [reflexivity|]).
  pose proof (proj1 (proj2 (dayparting_and_reactivation_alternate db
                              sample_campaign monday_evening Hnd Hf
                              eq_refl eq_refl eq_refl eq_refl))) as E.
  cbv zeta in E. change (Campaign.id sample_campaign) with 1%nat in E.
  rewrite E. reflexivity.
Defined.

(** ** Recording on an instance that is not the current row *)







(** ** The simulation driver *)







(** ** A new period *)

(** X19. After both resets, the reactivation sweep makes every Paused
    campaign with positive budgets Active again, with both totals at zero
    and no pause reason, whatever it had been paused for; its [is_active]
    flag is left as it was. *)
Theorem new_period_reactivates
    (db : Store) (c : Campaign.t)
    (Hpk : NoDup (map Campaign.id (campaigns db))) (Hfresh : fresh c db)
    (Hpaused : Campaign.status c = Campaign.PAUSED)
    (Hdaily : Campaign.daily_budget c > 0)
    (Hmonthly : Campaign.monthly_budget c > 0) :
  get_campaign (Campaign.id c)
    (reactivate_eligible_campaigns
       (reset_monthly_budgets (reset_daily_budgets db)))
  = Some (Campaign.set_pause_reason None
            (Campaign.set_status Campaign.ACTIVE
               (Campaign.set_monthly_spend 0
                  (Campaign.set_daily_spend 0 c)))).
Proof.
  pose proof (run_get [ResetDaily; ResetMonthly; SweepReactivations] db
                (Campaign.id c) Hpk) as [H _].
  change (run [ResetDaily; ResetMonthly; SweepReactivations] db)
    with (reactivate_eligible_campaigns
            (reset_monthly_budgets (reset_daily_budgets db))) in H.
  rewrite H, (fresh_get_campaign c db Hpk Hfresh). simpl. f_equal.
  unfold reactivation_row, Campaign.can_resume. simpl.
  rewrite Hpaused. simpl.
  destruct (Z.ltb_spec 0 (Campaign.daily_budget c)); [|lia].
  destruct (Z.ltb_spec 0 (Campaign.monthly_budget c)); [|lia].
  reflexivity.
Qed.

Lemma new_period_reactivates_witness :
  let c := Campaign.set_is_active false
             (Campaign.set_pause_reason (Some MONTHLY_BUDGET_EXCEEDED)
                (Campaign.set_status Campaign.PAUSED
                   (Campaign.set_monthly_spend 50500 sample_campaign))) in
  let db := sample_store c in
  NoDup (map Campaign.id (campaigns db))
  /\ fresh c db
  /\ Campaign.status c = Campaign.PAUSED
  /\ Campaign.daily_budget c > 0
  /\ Campaign.monthly_budget c > 0
  /\ option_map Campaign.status
       (get_campaign 1
          (reactivate_eligible_campaigns
             (reset_monthly_budgets (reset_daily_budgets db))))
     = Some Campaign.ACTIVE.
Proof.
  intros c db.
  assert (Hnd : NoDup (map Campaign.id (campaigns db)))
    by (repeat constructor; simpl; tauto).
  assert (Hf : fresh c db) by (left; reflexivity).
  assert (Hd : Campaign.daily_budget c > 0) by reflexivity.
  assert (Hm : Campaign.monthly_budget c > 0) by reflexivity.
  split; [exact Hnd|]. split; [exact Hf|]. split; [reflexivity|].
  split; [exact Hd|]. split; [exact Hm|].
  pose proof (new_period_reactivates db c Hnd Hf eq_refl Hd Hm) as E.
  change (Campaign.id c) with 1%nat in E. rewrite E. reflexivity.
Defined.

(** X20. A budget of zero (or less) leaves no room at all: a campaign
    whose daily budget is not positive is paused by the budget sweep
    right after a daily reset, although it has spent nothing, and once
    Paused it is not reactivated by the reactivation sweep after both
    resets. *)
Theorem zero_budget_has_no_room
    (db : Store) (c : Campaign.t)
    (Hpk : NoDup (map Campaign.id (campaigns db))) (Hfresh : fresh c db)
    (Hzero : Campaign.daily_budget c <= 0) :
  (Campaign.is_active c = true ->
   Campaign.status c = Campaign.ACTIVE ->
   get_campaign (Campaign.id c)
     (pause_campaigns_exceeding_budget (reset_daily_budgets db))
   = Some (Campaign.set_pause_reason (Some DAILY_BUDGET_EXCEEDED)
             (Campaign.set_status Campaign.PAUSED
                (Campaign.set_daily_spend 0 c))))
  /\ (Campaign.status c = Campaign.PAUSED ->
      get_campaign (Campaign.id c)
        (reactivate_eligible_campaigns
           (reset_monthly_budgets (reset_daily_budgets db)))
      = Some (Campaign.set_monthly_spend 0 (Campaign.set_daily_spend 0 c))).
Proof.
  split.
  - intros Ha Hs.
    pose proof (run_get [ResetDaily; SweepBudgets] db (Campaign.id c) Hpk)
      as [H _].
    change (run [ResetDaily; SweepBudgets] db)
      with (pause_campaigns_exceeding_budget (reset_daily_budgets db)) in H.
    rewrite H, (fresh_get_campaign c db Hpk Hfresh). simpl. f_equal.
    apply budget_sweep_row_spec.
    + unfold selected_for_budget. simpl. now rewrite Ha, Hs.
    + simpl. lia.
  - intros Hs.
    pose proof (run_get [ResetDaily; ResetMonthly; SweepReactivations] db
                  (Campaign.id c) Hpk) as [H _].
    change (run [ResetDaily; ResetMonthly; SweepReactivations] db)
      with (reactivate_eligible_campaigns
              (reset_monthly_budgets (reset_daily_budgets db))) in H.
    rewrite H, (fresh_get_campaign c db Hpk Hfresh). simpl. f_equal.
    unfold reactivation_row, Campaign.can_resume. simpl.
    destruct (Z.ltb_spec 0 (Campaign.daily_budget c)); [lia|].
    simpl. now rewrite andb_false_r.
Qed.

Lemma zero_budget_has_no_room_witness :
  let c := Campaign.mk 1 1 "Campaign 0" Campaign.ACTIVE 0 50000 0 0 0 30
             true None in
  let db := sample_store c in
  NoDup (map Campaign.id (campaigns db))
  /\ fresh c db
  /\ Campaign.daily_budget c <= 0
  /\ option_map Campaign.status
       (get_campaign 1
          (pause_campaigns_exceeding_budget (reset_daily_budgets db)))
     = Some Campaign.PAUSED.
Proof.
  intros c db.
  assert (Hnd : NoDup (map Campaign.id (campaigns db)))
    by (repeat constructor; simpl; tauto).
  assert (Hf : fresh c db) by (left; reflexivity).
  assert (Hz : Campaign.daily_budget c <= 0) by (simpl; lia).
  split; [exact Hnd|]. split; [exact Hf|]. split; [exact Hz|].
  pose proof (proj1 (zero_budget_has_no_room db c Hnd Hf Hz)
                eq_refl eq_refl) as E.
  change (Campaign.id c) with 1%nat in E. rewrite E. reflexivity.
Defined.

(** ** Brands along a history *)

Lemma step_brands (e : Event) (db : Store) :
  NoDup (map Campaign.id (campaigns db)) ->
  NoDup (map Brand.id (brands db)) ->
  brands (step db e) = map (brand_event_row e) (brands db).
Proof.
  intros Hnd Hbd. destruct e as [pk' a clk| | |clk| |]; simpl;
    try (first [rewrite pause_campaigns_exceeding_budget_rows by assumption
               |rewrite reactivate_eligible_campaigns_rows by assumption
               |rewrite enforce_dayparting_rows by assumption];
         simpl; symmetry; apply map_id).
  - destruct (get_campaign pk' db) as [c|].
    + destruct (process_ad_spend_frame c a clk db) as [_ [Hb _]].
      rewrite Hb. symmetry. apply map_id.
    + symmetry. apply map_id.
  - now rewrite (reset_daily_budgets_store db Hnd Hbd).
  - now rewrite (reset_monthly_budgets_store db Hnd Hbd).
Qed.

Lemma brand_event_row_id (e : Event) (b : Brand.t) :
  Brand.id (brand_event_row e b) = Brand.id b.
Proof. now destruct e. Qed.

Lemma run_brands (history : list Event) :
  forall db,
  NoDup (map Campaign.id (campaigns db)) ->
  NoDup (map Brand.id (brands db)) ->
  brands (run history db)
  = map (fun b => fold_left (fun x e => brand_event_row e x) history b)
      (brands db).
Proof.
  induction history as [|e h IH]; intros db Hnd Hbd.
  - simpl. symmetry. apply map_id.
  - change (run (e :: h) db) with (run h (step db e)).
    destruct (step_row e db 0%nat Hnd) as [_ [Hids _]].
    rewrite IH.
    + rewrite (step_brands e db Hnd Hbd), map_map. reflexivity.
    + now rewrite Hids.
    + rewrite (step_brands e db Hnd Hbd), brand_ids_map; [assumption|].
      apply brand_event_row_id.
Qed.

Lemma brand_history_row (history : list Event) :
  forall b,
  let b' := fold_left (fun x e => brand_event_row e x) history b in
  Brand.id b' = Brand.id b /\ Brand.name b' = Brand.name b
  /\ Brand.is_active b' = Brand.is_active b
  /\ Brand.daily_budget b' = Brand.daily_budget b
  /\ Brand.monthly_budget b' = Brand.monthly_budget b
  /\ Brand.daily_spend b'
     = (if existsb is_reset_daily history then 0 else Brand.daily_spend b)
  /\ Brand.monthly_spend b'
     = (if existsb is_reset_monthly history then 0
        else Brand.monthly_spend b).
Proof.
  induction history as [|e h IH]; intro b; simpl; [repeat split|].
  destruct (IH (brand_event_row e b)) as [H1 [H2 [H3 [H4 [H5 [H6 H7]]]]]].
  cbv zeta in *. rewrite H1, H2, H3, H4, H5, H6, H7.
  destruct e; simpl; repeat split;
    first [now destruct (existsb is_reset_daily h)
          |now destruct (existsb is_reset_monthly h)].
Qed.

(** X21. No entry point ever spends on a brand or switches one on or
    off: after any history every brand has the name, budgets and
    [is_active] flag it had, and each of its totals is the one it had,
    or zero if the history contains the respective reset. *)
Theorem brands_only_reset (db : Store) (history : list Event) (b : Brand.t)
    (Hpk : NoDup (map Campaign.id (campaigns db)))
    (Hbk : NoDup (map Brand.id (brands db)))
    (Hrow : In b (brands db)) :
  exists b',
    get_brand (Brand.id b) (run history db) = Some b'
    /\ Brand.name b' = Brand.name b
    /\ Brand.is_active b' = Brand.is_active b
    /\ Brand.daily_budget b' = Brand.daily_budget b
    /\ Brand.monthly_budget b' = Brand.monthly_budget b
    /\ Brand.daily_spend b'
       = (if existsb is_reset_daily history then 0 else Brand.daily_spend b)
    /\ Brand.monthly_spend b'
       = (if existsb is_reset_monthly history then 0
          else Brand.monthly_spend b).
Proof.
  eexists. split.
  - unfold get_brand. rewrite (run_brands history db Hpk Hbk).
    rewrite (keyed_find_map Brand.id).
    + rewrite (keyed_find_present Brand.id b (brands db) Hbk Hrow).
      reflexivity.
    + intro r. apply (brand_history_row history r).
  - apply (brand_history_row history b).
Qed.

Lemma brands_only_reset_witness :
  let b := Brand.set_daily_spend 9900 sample_brand in
  let db := mkStore [b] [sample_campaign] [] [] in
  let h := [RecordSpend 1 6000 monday_afternoon; SweepBudgets] in
  NoDup (map Campaign.id (campaigns db))
  /\ NoDup (map Brand.id (brands db))
  /\ In b (brands db)
  /\ exists b', get_brand 1 (run h db) = Some b'
                /\ Brand.daily_spend b' = 9900
                /\ Brand.is_active b' = true.
Proof.
  intros b db h.
  assert (Hnd : NoDup (map Campaign.id (campaigns db)))
    by (repeat constructor; simpl; tauto).
  assert (Hbd : NoDup (map Brand.id (brands db)))
    by (repeat constructor; simpl; tauto).
  assert (Hin : In b (brands db)) by (left; reflexivity).
  split; [exact Hnd|]. split; [exact Hbd|]. split; [exact Hin|].
  destruct (brands_only_reset db h b Hnd Hbd Hin)
    as [b' [Hget [_ [Ha [_ [_ [Hd _]]]]]]].
  exists b'. split; [exact Hget|]. split; [exact Hd | exact Ha].
Defined.

(** ** Whole cents as the unit *)

(** With one unit to the cent nothing is rounded: the simulation driver on
    finer amounts is then [simulate_ad_spend]. *)
Lemma simulate_loop_at_one (now : Datetime.t) (draws : nat -> Z)
    (q : list Campaign.t) :
  forall k db,
    simulate_loop_at 1 now q draws k db = simulate_loop now q draws k db.
Proof.
  induction q as [|c q IH]; intros k db; simpl; [reflexivity|].
  rewrite process_ad_spend_at_one, !IH. reflexivity.
Qed.

Lemma simulate_ad_spend_at_one (clock : Datetime.t) (draws : nat -> Z)
    (db : Store) :
  simulate_ad_spend_at 1 clock draws db = simulate_ad_spend clock draws db.
Proof. apply simulate_loop_at_one. Qed.
